(** * VMonClient: the peak-usage sampler and the query API

    A shallow embedding of [vm_monitor/vm_monitor_client.py] (the
    [VMMonitor] sampler), of [vm_monitor/vm_monitor_api.py] (the date
    range query, the purge and the start of the service) and of
    [nvidia-monitor/nvidia-monitor.py] (the GPU logger), with the
    properties of the specification stated and settled against them,
    followed by further properties of the code.

    Conventions of the embedding:
    - Python [int] is [Z]; a finite Python [float] is a rational [Q]
      (NaN and the infinities are outside the model);
    - a Python list updated by index is a [list] with stdpp's lookup and
      insert, and an out-of-range index raises [IndexError] as in Python;
    - a method of [VMMonitor] is a computation in the monad [M]: it
      receives the process state, returns a value or raises, and hands
      back the (possibly mutated) state in both cases;
    - what the outside world answers on one loop iteration (psutil,
      nvidia-smi, the database, elapsed time) is a [TickEnv] record;
    - instants are microseconds on the wall clock, as [Z]. *)

From Stdlib Require Import ZArith QArith String Ascii List Lia.
From stdpp Require Import gmap strings list.

(** ** Exceptions and the state-and-exception monad *)

Inductive Exception : Type :=
| IndexError
| ValueError
| TypeError
| KeyError
| AttributeError
| CalledProcessError
| FileNotFoundError
| SQLAlchemyError.

Inductive Result (A : Type) : Type :=
| Ok (a : A)
| Raise (e : Exception).

Arguments Ok {A} a.
Arguments Raise {A} e.

Module Monad.

Definition M (S A : Type) : Type := S -> Result A * S.

Definition ret {S A} (a : A) : M S A := fun s => (Ok a, s).

Definition bind {S A B} (m : M S A) (k : A -> M S B) : M S B :=
  fun s =>
    match m s with
    | (Ok a, s') => k a s'
    | (Raise e, s') => (Raise e, s')
    end.

Definition raise {S A} (e : Exception) : M S A := fun s => (Raise e, s).

Definition get {S} : M S S := fun s => (Ok s, s).

Definition gets {S A} (f : S -> A) : M S A := fun s => (Ok (f s), s).

Definition modify {S} (f : S -> S) : M S unit := fun s => (Ok tt, f s).

(** Lift a pure fallible value. *)
Definition lift {S A} (r : Result A) : M S A := fun s => (r, s).

End Monad.

Import Monad.

(** stdpp's notations [x ← m; k] and [m;; k] are used for sequencing. *)
#[export] Instance M_ret {S} : MRet (M S) := @ret S.
#[export] Instance M_bind {S} : MBind (M S) := fun A B k m => bind m k.

(** ** Python builtins used by the sampler *)

(** [max(a, b)] returns [b] when [b > a] and [a] otherwise. *)
Definition max_float (a b : Q) : Q := if Qle_bool b a then a else b.

Definition max_int (a b : Z) : Z := if (a <? b)%Z then b else a.

(** [float(s)] and [int(s)]: [None] stands for [ValueError]. *)
Class PyBuiltins : Type := {
  py_float : string -> option Q;
  py_int : string -> option Z
}.

Definition is_space (c : ascii) : bool :=
  let n := nat_of_ascii c in
  ((9 <=? n) && (n <=? 13)) || ((28 <=? n) && (n <=? 32)).

Fixpoint lstrip (s : string) : string :=
  match s with
  | EmptyString => EmptyString
  | String c s' => if is_space c then lstrip s' else s
  end.

Fixpoint rstrip (s : string) : string :=
  match s with
  | EmptyString => EmptyString
  | String c s' =>
      match rstrip s' with
      | EmptyString => if is_space c then EmptyString else String c EmptyString
      | r => String c r
      end
  end.

(** [s.strip()] *)
Definition strip (s : string) : string := rstrip (lstrip s).

(** [s.split(sep)] for a one-character separator: the result always has at
    least one field. *)
Fixpoint split (sep : ascii) (s : string) : list string :=
  match s with
  | EmptyString => [EmptyString]
  | String c s' =>
      if Ascii.eqb c sep then EmptyString :: split sep s'
      else match split sep s' with
           | f :: fs => String c f :: fs
           | [] => [String c EmptyString]
           end
  end.

(** [l[i]] *)
Definition index {A} (l : list A) (i : nat) : Result A :=
  match l !! i with
  | Some x => Ok x
  | None => Raise IndexError
  end.

(** ** Data model *)

Record UsageStats : Type := {
  cpu : list Q;
  mem_used_mb : Z;
  mem_total_mb : Z;
  disk_used_mb : Z;
  disk_total_mb : Z;
  gpu_proc : Q;
  gpu_mem_used : Z;
  gpu_mem_total : Z
}.

(** [UsageStats(cpu=[0.0] * n)]: every other field takes its default. *)
Definition UsageStats_new (n : nat) : UsageStats :=
  {| cpu := replicate n 0%Q;
     mem_used_mb := 0; mem_total_mb := 0;
     disk_used_mb := 0; disk_total_mb := 0;
     gpu_proc := 0%Q; gpu_mem_used := 0; gpu_mem_total := 0 |}.

(** [UsageStats.reset] *)
Definition reset (s : UsageStats) : UsageStats :=
  {| cpu := replicate (length (cpu s)) 0%Q;
     mem_used_mb := 0;
     mem_total_mb := 0;
     disk_used_mb := 0;
     disk_total_mb := 0;
     gpu_proc := 0%Q;
     gpu_mem_used := 0;
     gpu_mem_total := 0 |}.

Inductive GPUType : Type := CPU_ONLY | NVIDIA_GPU | AMD_GPU.

Definition GPUType_eqb (a b : GPUType) : bool :=
  match a, b with
  | CPU_ONLY, CPU_ONLY | NVIDIA_GPU, NVIDIA_GPU | AMD_GPU, AMD_GPU => true
  | _, _ => false
  end.

(** A value read from the YAML configuration. *)
Inductive ConfigValue : Type :=
| CInt (n : Z)
| CStr (s : string).

(** *** The database as the sampler sees it

    One row type per table of [vm_monitor_db.py]; the primary keys of the
    usage tables are never read and are left out. *)

Inductive Row : Type :=
| SampleRow (id : Z) (timestamp : Z) (cpu_count : Z) (gpu_count : Z)
| CPUUsageRow (sample_id : Z) (cpu_index : Z) (usage_percent : Q)
| MemoryUsageRow (sample_id : Z) (total_mb used_mb : Z)
| DiskUsageRow (sample_id : Z) (total_mb used_mb : Z)
| GPUUsageRow (sample_id : Z) (gpu_index : Z) (usage_percent : Q)
    (memory_used_mb memory_total_mb : Z).

(** A session: the rows durably committed, oldest first, and the rows
    added since the last commit. *)
Record Session : Type := {
  committed : list Row;
  pending : list Row
}.

Record VMMonitor : Type := {
  sample_interval : ConfigValue;
  report_interval : ConfigValue;
  db_session : option Session;
  gpu_type : GPUType;
  num_gpus : Z;
  num_cpus : nat;
  peak_usage_stats : UsageStats;
  current_usage_stats : UsageStats
}.

(** The process: the monitor object and the wall clock it reads. *)
Record Process : Type := {
  self : VMMonitor;
  clock : Z
}.

Definition set_peak (f : UsageStats -> UsageStats) (p : Process) : Process :=
  let m := self p in
  {| self := {| sample_interval := sample_interval m;
                report_interval := report_interval m;
                db_session := db_session m;
                gpu_type := gpu_type m;
                num_gpus := num_gpus m;
                num_cpus := num_cpus m;
                peak_usage_stats := f (peak_usage_stats m);
                current_usage_stats := current_usage_stats m |};
     clock := clock p |}.

Definition set_current (f : UsageStats -> UsageStats) (p : Process) : Process :=
  let m := self p in
  {| self := {| sample_interval := sample_interval m;
                report_interval := report_interval m;
                db_session := db_session m;
                gpu_type := gpu_type m;
                num_gpus := num_gpus m;
                num_cpus := num_cpus m;
                peak_usage_stats := peak_usage_stats m;
                current_usage_stats := f (current_usage_stats m) |};
     clock := clock p |}.

Definition set_session (d : option Session) (p : Process) : Process :=
  let m := self p in
  {| self := {| sample_interval := sample_interval m;
                report_interval := report_interval m;
                db_session := d;
                gpu_type := gpu_type m;
                num_gpus := num_gpus m;
                num_cpus := num_cpus m;
                peak_usage_stats := peak_usage_stats m;
                current_usage_stats := current_usage_stats m |};
     clock := clock p |}.

(** Time passes: [d] microseconds elapse. *)
Definition elapse (d : Z) (p : Process) : Process :=
  {| self := self p; clock := (clock p + d)%Z |}.

(** ** What the outside world answers *)

(** How a child process started by [subprocess.run] ended. *)
Inductive Completion : Type :=
| Exited (returncode : Z) (stdout : string)
| NotFound.

Record CompletedProcess : Type := {
  cp_returncode : Z;
  cp_stdout : string
}.

(** [subprocess.run([...], check=True)] with an argument list: a missing
    executable raises [FileNotFoundError], a non-zero exit status
    [CalledProcessError]. *)
Definition subprocess_run_check (c : Completion) : Result CompletedProcess :=
  match c with
  | NotFound => Raise FileNotFoundError
  | Exited rc out =>
      if (rc =? 0)%Z then Ok {| cp_returncode := rc; cp_stdout := out |}
      else Raise CalledProcessError
  end.

(** [subprocess.run(cmd, shell=True, ...)]: the command line is handed to
    [/bin/sh]. A command that is not installed is no [FileNotFoundError]
    here: the shell exits with status 127 and nothing on its standard
    output. *)
Definition subprocess_run_shell (c : Completion) : CompletedProcess :=
  match c with
  | NotFound => {| cp_returncode := 127; cp_stdout := "" |}
  | Exited rc out => {| cp_returncode := rc; cp_stdout := out |}
  end.

(** [subprocess.run(cmd, shell=True, ..., check=True)]: a non-zero exit
    status, that of the shell included, raises [CalledProcessError]. *)
Definition subprocess_run_shell_check (c : Completion)
    : Result CompletedProcess :=
  let result := subprocess_run_shell c in
  if (cp_returncode result =? 0)%Z then Ok result
  else Raise CalledProcessError.

(** Truth value of a [CompletedProcess] in a condition: the class defines
    neither [__bool__] nor [__len__], so every instance is true. *)
Definition CompletedProcess_bool (_ : CompletedProcess) : bool := true.

(** One round of readings, as [get_current_usage] obtains them. *)
Record Reading : Type := {
  cpu_percent : list Q;       (* psutil.cpu_percent(interval=1, percpu=True) *)
  mem_used : Z;               (* psutil.virtual_memory().used, in bytes *)
  mem_total : Z;
  disk_used : Z;              (* psutil.disk_usage('/').used, in bytes *)
  disk_total : Z;
  nvidia_smi : Completion;    (* NVIDIA_SMI_COMMAND *)
  nvidia_smi_time : Z         (* microseconds the command took *)
}.

Record Commit : Type := {
  commit_ok : bool;           (* [false]: the commit raises *)
  commit_time : Z             (* microseconds the commit took *)
}.

(** What one iteration of the loop of [run] meets. *)
Record TickEnv : Type := {
  reading : Reading;
  commit_sample : Commit;     (* first commit of log_peak_stats *)
  commit_usage : Commit;      (* second commit of log_peak_stats *)
  oversleep : Z               (* microseconds slept beyond the request *)
}.

(** What the constructor meets. *)
Record Host : Type := {
  probe_nvidia : Completion;  (* ['nvidia-smi'] *)
  probe_rocm : Completion;    (* ['rocm-smi'] *)
  cpu_count : nat;            (* psutil.cpu_count(logical=True) *)
  get_session : option Session; (* vm_monitor_db.get_session: None on error *)
  boot_time : Z               (* the wall clock when the process starts *)
}.

#[export] Instance Result_ret : MRet Result := @Ok.
#[export] Instance Result_bind : MBind Result := fun A B k r =>
  match r with
  | Ok a => k a
  | Raise e => Raise e
  end.

Definition of_option {A} (e : Exception) (o : option A) : Result A :=
  match o with
  | Some a => Ok a
  | None => Raise e
  end.

(** ** The sampler: [VMMonitor] *)

Definition SAMPLE_INTERVAL : string := "sample_interval".
Definition REPORT_INTERVAL : string := "report_interval".
Definition DB_FILE_PATH : string := "db_file_path".

Definition REQUIRED_KEYS : list string :=
  [SAMPLE_INTERVAL; REPORT_INTERVAL; DB_FILE_PATH].

Section Sampler.

Context {builtins : PyBuiltins}.

(** [VMMonitor.check_gpu_type] *)
Definition check_gpu_type (h : Host) : Result GPUType :=
  nv ← subprocess_run_check (probe_nvidia h);
  if CompletedProcess_bool nv then Ok NVIDIA_GPU
  else
    amd ← subprocess_run_check (probe_rocm h);
    if CompletedProcess_bool amd then Ok AMD_GPU
    else Ok CPU_ONLY.

(** [VMMonitor.__init__] *)
Definition VMMonitor_init (h : Host)
    (sample_interval report_interval db_file_path : ConfigValue)
    : Result VMMonitor :=
  let db_session := get_session h in
  gpu_type ← check_gpu_type h;
  let num_gpus := if GPUType_eqb gpu_type CPU_ONLY then 0%Z else 1%Z in
  let num_cpus := cpu_count h in
  Ok {| sample_interval := sample_interval;
        report_interval := report_interval;
        db_session := db_session;
        gpu_type := gpu_type;
        num_gpus := num_gpus;
        num_cpus := num_cpus;
        peak_usage_stats := UsageStats_new num_cpus;
        current_usage_stats := UsageStats_new num_cpus |}.

(** The NVIDIA branch of [get_current_gpu_usage]: run the query and parse
    the three comma-separated fields of its output. *)
Definition query_nvidia_smi (c : Completion) : Result (Q * Z * Z) :=
  result ← subprocess_run_shell_check c;
  f0 ← index (split "," (cp_stdout result)) 0;
  gpu_proc_usage ← of_option ValueError (py_float (strip f0));
  f1 ← index (split "," (cp_stdout result)) 1;
  gpu_mem_used ← of_option ValueError (py_int (strip f1));
  f2 ← index (split "," (cp_stdout result)) 2;
  gpu_mem_total ← of_option ValueError (py_int (strip f2));
  Ok (gpu_proc_usage, gpu_mem_used, gpu_mem_total).

(** [VMMonitor.get_current_gpu_usage] *)
Definition get_current_gpu_usage (r : Reading) : M Process unit :=
  gt ← gets (fun p => gpu_type (self p));
  '(gpu_proc_usage, gpu_mem_used, gpu_mem_total) ←
    match gt with
    | NVIDIA_GPU =>
        modify (elapse (nvidia_smi_time r));;
        lift (query_nvidia_smi (nvidia_smi r))
    | AMD_GPU => mret (0%Q, 0%Z, 0%Z)
    | CPU_ONLY => mret (0%Q, 0%Z, 0%Z)
    end;
  modify (set_current (fun s =>
    {| cpu := cpu s;
       mem_used_mb := mem_used_mb s;
       mem_total_mb := mem_total_mb s;
       disk_used_mb := disk_used_mb s;
       disk_total_mb := disk_total_mb s;
       gpu_proc := gpu_proc_usage;
       gpu_mem_used := gpu_mem_used;
       gpu_mem_total := gpu_mem_total |})).

(** [VMMonitor.get_current_usage]; [cpu_percent(interval=1)] blocks for
    one second. *)
Definition get_current_usage (r : Reading) : M Process unit :=
  modify (elapse 1000000);;
  modify (set_current (fun s =>
    {| cpu := cpu_percent r;
       mem_used_mb := (mem_used r / (1024 * 1024))%Z;
       mem_total_mb := (mem_total r / (1024 * 1024))%Z;
       disk_used_mb := (disk_used r / (1024 * 1024))%Z;
       disk_total_mb := (disk_total r / (1024 * 1024))%Z;
       gpu_proc := gpu_proc s;
       gpu_mem_used := gpu_mem_used s;
       gpu_mem_total := gpu_mem_total s |}));;
  gt ← gets (fun p => gpu_type (self p));
  if negb (GPUType_eqb gt CPU_ONLY) then get_current_gpu_usage r
  else mret tt.

(** [for x in l: body(x)] *)
Fixpoint for_each {S A} (l : list A) (body : A -> M S unit) : M S unit :=
  match l with
  | [] => mret tt
  | x :: l' => body x;; for_each l' body
  end.

(** The body of the loop of [update_peak_usage]:
    [peak.cpu[i] = max(peak.cpu[i], current.cpu[i])]. *)
Definition update_peak_cpu (i : nat) : M Process unit :=
  p ← get;
  a ← lift (index (cpu (peak_usage_stats (self p))) i);
  b ← lift (index (cpu (current_usage_stats (self p))) i);
  modify (set_peak (fun s =>
    {| cpu := <[i := max_float a b]> (cpu s);
       mem_used_mb := mem_used_mb s;
       mem_total_mb := mem_total_mb s;
       disk_used_mb := disk_used_mb s;
       disk_total_mb := disk_total_mb s;
       gpu_proc := gpu_proc s;
       gpu_mem_used := gpu_mem_used s;
       gpu_mem_total := gpu_mem_total s |})).

(** [VMMonitor.update_peak_usage] *)
Definition update_peak_usage : M Process unit :=
  n ← gets (fun p => num_cpus (self p));
  for_each (seq 0 n) update_peak_cpu;;
  cur ← gets (fun p => current_usage_stats (self p));
  modify (set_peak (fun s =>
    {| cpu := cpu s;
       mem_used_mb := max_int (mem_used_mb s) (mem_used_mb cur);
       mem_total_mb := mem_total_mb cur;
       disk_used_mb := max_int (disk_used_mb s) (disk_used_mb cur);
       disk_total_mb := disk_total_mb cur;
       gpu_proc := gpu_proc s;
       gpu_mem_used := gpu_mem_used s;
       gpu_mem_total := gpu_mem_total s |}));;
  gt ← gets (fun p => gpu_type (self p));
  if negb (GPUType_eqb gt CPU_ONLY) then
    modify (set_peak (fun s =>
      {| cpu := cpu s;
         mem_used_mb := mem_used_mb s;
         mem_total_mb := mem_total_mb s;
         disk_used_mb := disk_used_mb s;
         disk_total_mb := disk_total_mb s;
         gpu_proc := max_float (gpu_proc s) (gpu_proc cur);
         gpu_mem_used := max_int (gpu_mem_used s) (gpu_mem_used cur);
         gpu_mem_total := gpu_mem_total cur |}))
  else mret tt.

(** [samples] readings taken and folded one after the other, as the
    first two statements of the loop body of [run] do; the result lists
    the samples ([current_usage_stats]) in the order they were folded. *)
Fixpoint fold_samples (rs : list Reading) : M Process (list UsageStats) :=
  match rs with
  | [] => mret []
  | r :: rs' =>
      get_current_usage r;;
      sample ← gets (fun p => current_usage_stats (self p));
      update_peak_usage;;
      samples ← fold_samples rs';
      mret (sample :: samples)
  end.

(** *** Persistence: [log_peak_stats] *)

(** The key the insert of a new [Sample] row receives. *)
Definition sample_ids (rows : list Row) : list Z :=
  omap (fun r => match r with
                 | SampleRow id _ _ _ => Some id
                 | _ => None
                 end) rows.

Definition next_sample_id (rows : list Row) : Z :=
  (foldr Z.max 0 (sample_ids rows) + 1)%Z.

(** [self.db_session.add(row)]; a monitor whose [get_session] returned
    [None] has no [add]. *)
Definition session_add (row : Row) : M Process unit :=
  p ← get;
  match db_session (self p) with
  | None => raise AttributeError
  | Some s =>
      modify (set_session
        (Some {| committed := committed s; pending := pending s ++ [row] |}))
  end.

(** [self.db_session.commit()]; a commit that raises has rolled its
    transaction back, and the rows added since the last commit are
    expunged from the session. *)
Definition session_commit (c : Commit) : M Process unit :=
  p ← get;
  match db_session (self p) with
  | None => raise AttributeError
  | Some s =>
      modify (elapse (commit_time c));;
      if commit_ok c then
        modify (set_session
          (Some {| committed := committed s ++ pending s; pending := [] |}))
      else
        modify (set_session
          (Some {| committed := committed s; pending := [] |}));;
        raise SQLAlchemyError
  end.

Definition datetime_now : M Process Z := gets clock.

(** [VMMonitor.log_peak_stats] *)
Definition log_peak_stats (e : TickEnv) : M Process unit :=
  now ← datetime_now;
  p ← get;
  let m := self p in
  let id := match db_session m with
            | Some s => next_sample_id (committed s)
            | None => 0%Z
            end in
  session_add (SampleRow id now (Z.of_nat (num_cpus m)) (num_gpus m));;
  session_commit (commit_sample e);;
  for_each (imap (fun i cpu_usage => CPUUsageRow id (Z.of_nat i) cpu_usage)
                 (cpu (peak_usage_stats m)))
           session_add;;
  session_add (MemoryUsageRow id (mem_total_mb (peak_usage_stats m))
                                 (mem_used_mb (peak_usage_stats m)));;
  session_add (DiskUsageRow id (disk_total_mb (peak_usage_stats m))
                               (disk_used_mb (peak_usage_stats m)));;
  (if negb (GPUType_eqb (gpu_type m) CPU_ONLY) then
     session_add (GPUUsageRow id 0 (gpu_proc (peak_usage_stats m))
                                   (gpu_mem_used (peak_usage_stats m))
                                   (gpu_mem_total (peak_usage_stats m)))
   else mret tt);;
  session_commit (commit_usage e).

(** *** The loop: [run] *)

(** [timedelta(seconds=v)], in microseconds. *)
Definition timedelta_seconds (v : ConfigValue) : Result Z :=
  match v with
  | CInt n => Ok (n * 1000000)%Z
  | CStr _ => Raise TypeError
  end.

(** [time.sleep(v)]: the process is suspended for at least [v] seconds. *)
Definition time_sleep (v : ConfigValue) (over : Z) : M Process unit :=
  match v with
  | CInt n =>
      if (n <? 0)%Z then raise ValueError
      else modify (elapse (n * 1000000 + over))
  | CStr _ => raise TypeError
  end.

(** One iteration of the [while True] loop of [run]; the local variable
    [next_report] goes in and comes out. *)
Definition run_iteration (e : TickEnv) (next_report : Z) : M Process Z :=
  get_current_usage (reading e);;
  update_peak_usage;;
  now ← datetime_now;
  next_report ←
    (if (next_report <=? now)%Z then
       log_peak_stats e;;
       modify (set_peak reset);;
       now' ← datetime_now;
       p ← get;
       d ← lift (timedelta_seconds (report_interval (self p)));
       mret (now' + d)%Z
     else mret next_report);
  p ← get;
  time_sleep (sample_interval (self p)) (oversleep e);;
  mret next_report.

Fixpoint run_loop (envs : list TickEnv) (next_report : Z) : M Process Z :=
  match envs with
  | [] => mret next_report
  | e :: envs' =>
      next_report ← run_iteration e next_report;
      run_loop envs' next_report
  end.

(** [VMMonitor.run] over the iterations [envs] describes. The loop has no
    exit: [Ok next_report] says that it is still running after
    [length envs] iterations, [Raise e] that [e] left it. *)
Definition run (envs : list TickEnv) : M Process Z :=
  now ← datetime_now;
  p ← get;
  d ← lift (timedelta_seconds (report_interval (self p)));
  run_loop envs (now + d)%Z.

(** *** Start-up: [main], [validate_config] and the script body *)

(** [d[key]] *)
Definition getitem (d : gmap string ConfigValue) (key : string)
    : Result ConfigValue :=
  of_option KeyError (d !! key).

Inductive Started : Type :=
| Running (r : Result Z) (p : Process).

(** [main(config_dict)]: an exception before [run] is entered leaves no
    monitor behind. *)
Definition main (h : Host) (envs : list TickEnv)
    (config_dict : gmap string ConfigValue) : Result Started :=
  si ← getitem config_dict SAMPLE_INTERVAL;
  ri ← getitem config_dict REPORT_INTERVAL;
  db ← getitem config_dict DB_FILE_PATH;
  monitor ← VMMonitor_init h si ri db;
  let '(r, p) := run envs {| self := monitor; clock := boot_time h |} in
  Ok (Running r p).

(** [validate_config], with the lines it prints. *)
Fixpoint validate_keys (keys : list string)
    (config_dict : gmap string ConfigValue) : bool * list string :=
  match keys with
  | [] => (true, [])
  | key :: keys' =>
      match config_dict !! key with
      | None => (false, [String.append "Missing required config key: " key])
      | Some _ => validate_keys keys' config_dict
      end
  end.

Definition validate_config (config_dict : gmap string ConfigValue)
    : bool * list string :=
  validate_keys REQUIRED_KEYS config_dict.

Inductive ScriptOutcome : Type :=
| MainCalled (printed : list string) (r : Result Started)
| NotStarted (printed : list string).

(** The body of [if __name__ == "__main__"], once the YAML file is
    loaded into [config]. *)
Definition script (h : Host) (envs : list TickEnv)
    (config : gmap string ConfigValue) : ScriptOutcome :=
  let '(valid, printed) := validate_config config in
  if valid then MainCalled printed (main h envs config)
  else NotStarted
         (printed ++ ["Invalid configuration. Please check the config file."]).

End Sampler.

(** ** The probe of the legacy script

    [vm-monitor-client.py] classifies the GPU with the same two probes,
    behind helper functions. *)

Module Legacy.

(** [has_nvidia_gpu]: the probe inside [try], both failures caught. *)
Definition has_nvidia_gpu (h : Host) : Result bool :=
  match subprocess_run_check (probe_nvidia h) with
  | Ok _ => Ok true
  | Raise CalledProcessError => Ok false
  | Raise FileNotFoundError => Ok false
  | Raise e => Raise e
  end.

(** [has_amd_gpu]: the body is [pass]; the [None] it returns is false in a
    condition. *)
Definition has_amd_gpu (h : Host) : Result bool := Ok false.

(** [check_gpu_type]: [None] when there is no GPU. *)
Definition check_gpu_type (h : Host) : Result (option GPUType) :=
  nvidia ← has_nvidia_gpu h;
  if (nvidia : bool) then Ok (Some NVIDIA_GPU)
  else
    amd ← has_amd_gpu h;
    if (amd : bool) then Ok (Some AMD_GPU)
    else Ok None.

End Legacy.

(** ** A concrete reading of [float] and [int]

    Plain decimal literals, which is what
    [nvidia-smi --format=csv,noheader,nounits] prints: an optional sign,
    digits and, for [float], an optional point with digits before it or
    after it. On the strings this reading accepts Python's builtins return
    the same numbers; it rejects some strings that Python accepts
    (exponents, [inf], [nan], underscores between digits), and no example
    below uses one of those. The general theorems hold for any
    [PyBuiltins]; this instance serves at concrete inputs only. *)

Module Decimal.

Definition digit_of (c : ascii) : option Z :=
  let n := nat_of_ascii c in
  if (48 <=? n) && (n <=? 57) then Some (Z.of_nat (n - 48)) else None.

Fixpoint digits (s : string) (acc : Z) : option Z :=
  match s with
  | EmptyString => Some acc
  | String c s' =>
      match digit_of c with
      | Some d => digits s' (acc * 10 + d)%Z
      | None => None
      end
  end.

(** One digit at least. *)
Definition unsigned (s : string) : option Z :=
  match s with
  | EmptyString => None
  | _ => digits s 0
  end.

Definition int (s : string) : option Z :=
  match s with
  | String "-" s' => Z.opp <$> unsigned s'
  | String "+" s' => unsigned s'
  | _ => unsigned s
  end.

(** Digits, or digits around a point with one digit at least. *)
Definition unsigned_float (s : string) : option Q :=
  match split "." s with
  | [i] => inject_Z <$> unsigned i
  | [i; f] =>
      match digits i 0, digits f 0 with
      | Some a, Some b =>
          if (String.length i + String.length f =? 0)%nat then None
          else
            let scale := (10 ^ Z.of_nat (String.length f))%Z in
            Some (Qred (Qmake (a * scale + b) (Z.to_pos scale)))
      | _, _ => None
      end
  | _ => None
  end.

Definition float (s : string) : option Q :=
  match s with
  | String "-" s' => Qopp <$> unsigned_float s'
  | String "+" s' => unsigned_float s'
  | _ => unsigned_float s
  end.

Definition builtins : PyBuiltins := {| py_float := float; py_int := int |}.

End Decimal.

(** ** The query API: [VMMonitorAPI] *)

Module API.

(** A naive [datetime.datetime]. *)
Record datetime : Type := {
  year : Z;
  month : Z;
  day : Z;
  hour : Z;
  minute : Z;
  second : Z;
  microsecond : Z
}.

(** [datetime.fromisoformat] ([None] stands for [ValueError]) and
    [datetime.isoformat]. *)
Class PyDatetime : Type := {
  fromisoformat : string -> option datetime;
  isoformat : datetime -> string
}.

Definition then_compare (c : comparison) (rest : comparison) : comparison :=
  match c with
  | Eq => rest
  | _ => c
  end.

(** Order of two naive datetimes: field by field, the year first. *)
Definition datetime_compare (a b : datetime) : comparison :=
  then_compare (year a ?= year b)%Z
  (then_compare (month a ?= month b)%Z
  (then_compare (day a ?= day b)%Z
  (then_compare (hour a ?= hour b)%Z
  (then_compare (minute a ?= minute b)%Z
  (then_compare (second a ?= second b)%Z
                (microsecond a ?= microsecond b)%Z))))).

(** [a <= b] *)
Definition datetime_le (a b : datetime) : bool :=
  match datetime_compare a b with
  | Gt => false
  | _ => true
  end.

(** [d.replace(hour=h, minute=mi, second=s, microsecond=us)] *)
Definition replace (d : datetime) (h mi s us : Z) : datetime :=
  {| year := year d; month := month d; day := day d;
     hour := h; minute := mi; second := s; microsecond := us |}.

(** The objects the ORM loads: a [Sample] with its relationships. *)
Record CPUUsage : Type := {
  cpu_index : Z;
  cpu_usage_percent : Q
}.

Record GPUUsage : Type := {
  gpu_index : Z;
  gpu_usage_percent : Q;
  memory_used_mb : Q;
  memory_total_mb : Q
}.

Record DiskUsage : Type := {
  disk_total_mb : Q;
  disk_used_mb : Q
}.

Record MemoryUsage : Type := {
  memory_total : Q;
  memory_used : Q
}.

Record Sample : Type := {
  timestamp : datetime;
  cpu_count : Z;
  gpu_count : Z;
  cpus : list CPUUsage;
  gpus : list GPUUsage;
  disk : option DiskUsage;
  memory : option MemoryUsage
}.

(** The dictionary [get_data_in_range] builds for one sample. *)
Record SampleData : Type := {
  data_timestamp : string;
  data_cpu_count : Z;
  data_gpu_count : Z;
  data_cpus : list (Z * Q);
  data_gpus : list (Z * Q * Q * Q);
  data_disk : option (Q * Q);
  data_memory : option (Q * Q)
}.

Section Query.

Context {dt : PyDatetime}.

Definition sample_data (sample : Sample) : SampleData :=
  {| data_timestamp := isoformat (timestamp sample);
     data_cpu_count := cpu_count sample;
     data_gpu_count := gpu_count sample;
     data_cpus := map (fun c => (cpu_index c, cpu_usage_percent c)) (cpus sample);
     data_gpus := map (fun g => (gpu_index g, gpu_usage_percent g,
                                 memory_used_mb g, memory_total_mb g))
                      (gpus sample);
     data_disk := (fun d => (disk_total_mb d, disk_used_mb d)) <$> disk sample;
     data_memory := (fun m => (memory_total m, memory_used m)) <$> memory sample |}.

(** The filter of the query:
    [Sample.timestamp >= start_date, Sample.timestamp <= end_date]. *)
Definition in_range (start_date end_date : datetime) (sample : Sample) : bool :=
  datetime_le start_date (timestamp sample)
  && datetime_le (timestamp sample) end_date.

(** [VMMonitorAPI.get_data_in_range] over the stored samples. *)
Definition get_data_in_range (stored : list Sample)
    (start_date end_date : datetime) : list SampleData :=
  let samples := List.filter (in_range start_date end_date) stored in
  map sample_data samples.

(** [VMMonitorAPI.get_start_date] *)
Definition get_start_date (start_date_str : string) : Result datetime :=
  start_date ← of_option ValueError (fromisoformat start_date_str);
  Ok (replace start_date 0 0 0 0).

(** [VMMonitorAPI.get_end_date] *)
Definition get_end_date (end_date_str : string) : Result datetime :=
  end_date ← of_option ValueError (fromisoformat end_date_str);
  Ok (replace end_date 23 59 59 999999).

Inductive Response : Type :=
| Success (data : list SampleData) (count : nat)
| BadRequest
| ServerError.

(** [not s] for an optional request argument: absent or empty. *)
Definition missing (arg : option string) : bool :=
  match arg with
  | None => true
  | Some s => String.eqb s ""
  end.

(** [VMMonitorAPI.get_usage_data]; [stored] is [None] when the database
    cannot be read. *)
Definition get_usage_data (stored : option (list Sample))
    (start_arg end_arg : option string) : Response :=
  if missing start_arg || missing end_arg then BadRequest
  else
    match get_start_date (default "" start_arg) with
    | Raise _ => BadRequest
    | Ok start_date =>
        match get_end_date (default "" end_arg) with
        | Raise _ => BadRequest
        | Ok end_date =>
            match stored with
            | None => ServerError
            | Some samples =>
                let data := get_data_in_range samples start_date end_date in
                Success data (length data)
            end
        end
    end.

End Query.

(** The time of day is one a [datetime] can hold. *)
Definition valid_time (d : datetime) : bool :=
  (0 <=? hour d)%Z && (hour d <=? 23)%Z
  && (0 <=? minute d)%Z && (minute d <=? 59)%Z
  && (0 <=? second d)%Z && (second d <=? 59)%Z
  && (0 <=? microsecond d)%Z && (microsecond d <=? 999999)%Z.

(** Order of the calendar days of two datetimes. *)
Definition date_le (a b : datetime) : bool :=
  match then_compare (year a ?= year b)%Z
          (then_compare (month a ?= month b)%Z (day a ?= day b)%Z) with
  | Gt => false
  | _ => true
  end.

End API.

(** ** A concrete reading of [fromisoformat] and [isoformat]

    Calendar dates written ["YYYY-MM-DD"], which is what the handler asks
    its callers for; on these Python returns the same datetime. The
    general theorems hold for any [PyDatetime]. *)

Module Iso.

Import API.

Definition is_leap (y : Z) : bool :=
  ((y mod 4 =? 0) && negb (y mod 100 =? 0) || (y mod 400 =? 0))%Z.

Definition days_in_month (y m : Z) : Z :=
  if (m =? 2)%Z then (if is_leap y then 29 else 28)
  else if ((m =? 4) || (m =? 6) || (m =? 9) || (m =? 11))%Z then 30
  else 31.

(** ["YYYY-MM-DD"] *)
Definition fromisoformat (s : string) : option datetime :=
  match split "-" s with
  | [y; m; d] =>
      if (String.length y =? 4) && (String.length m =? 2) && (String.length d =? 2)
      then
        match Decimal.unsigned y, Decimal.unsigned m, Decimal.unsigned d with
        | Some y, Some m, Some d =>
            if ((1 <=? y) && (1 <=? m) && (m <=? 12) && (1 <=? d)
                && (d <=? days_in_month y m))%Z
            then Some {| year := y; month := m; day := d;
                         hour := 0; minute := 0; second := 0; microsecond := 0 |}
            else None
        | _, _, _ => None
        end
      else None
  | _ => None
  end.

Definition digit (n : Z) : ascii := ascii_of_nat (48 + Z.to_nat (n mod 10)).

(** [n] in [width] decimal digits, zero-padded. *)
Fixpoint pad (width : nat) (n : Z) : string :=
  match width with
  | O => EmptyString
  | S w => String.append (pad w (n / 10)) (String (digit n) EmptyString)
  end.

(** ["YYYY-MM-DDTHH:MM:SS"], with [".ffffff"] when the microseconds are
    not zero. *)
Definition isoformat (d : datetime) : string :=
  String.concat ""
    [pad 4 (year d); "-"; pad 2 (month d); "-"; pad 2 (day d); "T";
     pad 2 (hour d); ":"; pad 2 (minute d); ":"; pad 2 (second d);
     if (microsecond d =? 0)%Z then ""
     else String.append "." (pad 6 (microsecond d))]%string.

Definition builtins : PyDatetime :=
  {| API.fromisoformat := fromisoformat; API.isoformat := isoformat |}.

End Iso.

(** A store of four samples around the day 2025-10-29. *)

Module Stored.

Import API.

(** A flushed window stamped with the given instant. *)
Definition at_ (y mo d h mi s us : Z) : Sample :=
  {| timestamp := {| year := y; month := mo; day := d; hour := h;
                     minute := mi; second := s; microsecond := us |};
     cpu_count := 1; gpu_count := 0;
     cpus := [{| cpu_index := 0; cpu_usage_percent := 90%Q |}];
     gpus := [];
     disk := Some {| disk_total_mb := 50%Q; disk_used_mb := 5%Q |};
     memory := Some {| memory_total := 1000%Q; memory_used := 100%Q |} |}.

Definition stored_samples : list Sample :=
  [at_ 2025 10 28 23 59 59 999999;
   at_ 2025 10 29 0 0 0 0;
   at_ 2025 10 29 23 59 59 999999;
   at_ 2025 10 30 0 0 0 0].

End Stored.

(** ** The GPU logger: [nvidia-monitor.py] *)

Module NvidiaMonitor.

(** Seconds between two samples. *)
Definition SAMPLE_TIME : Z := 900.

(** [extract_gpu_stats]: the second of exactly three lines. *)
Definition extract_gpu_stats (result : CompletedProcess) : option string :=
  let lines := split "010" (cp_stdout result) in
  let values := None in
  if length lines =? 3 then lines !! 1 else values.

(** The log file and the wall clock, in seconds. *)
Record Logger : Type := {
  records : list string;
  clock : Z
}.

(** One iteration of the loop of [main]; the command runs through the
    shell and without [check], so that its exit status is not looked at
    and a missing [nvidia-smi] raises nothing. *)
Definition main_iteration (c : Completion) (oversleep : Z) : M Logger unit :=
  let result := subprocess_run_shell c in
  let stats := extract_gpu_stats result in
  match stats with
  | Some msg =>
      modify (fun l => {| records := records l ++ [msg]; clock := clock l |})
  | None => mret tt
  end;;
  modify (fun l => {| records := records l;
                      clock := (clock l + SAMPLE_TIME + oversleep)%Z |}).

End NvidiaMonitor.

(** ** The API service: [post_purge] and the script body *)

Module Service.

Import API.

(** [a < b] *)
Definition datetime_lt (a b : datetime) : bool :=
  match datetime_compare a b with
  | Lt => true
  | _ => false
  end.

(** [datetime.datetime.now()] and [d - datetime.timedelta(days=n)];
    [None] stands for [OverflowError]. *)
Class PyClock : Type := {
  now : datetime;
  minus_days : datetime -> Z -> option datetime
}.

Inductive Response : Type :=
| Deleted (deleted_count : nat)
| BadRequest
| ServerError.

Section Purge.

Context {builtins : PyBuiltins} {clock : PyClock}.

(** [VMMonitorAPI.post_purge]; [stored] is [None] when the database
    cannot be read and [commit_ok] tells whether the commit succeeds. The
    result is the response and the samples stored afterwards. *)
Definition post_purge (stored : option (list Sample)) (commit_ok : bool)
    (days_arg : option string) : Response * option (list Sample) :=
  if missing days_arg then (BadRequest, stored)
  else
    match py_int (default "" days_arg) with
    | None => (BadRequest, stored)
    | Some days =>
        match minus_days now days with
        | None => (ServerError, stored)
        | Some cutoff_date =>
            match stored with
            | None => (ServerError, stored)
            | Some samples =>
                let older s := datetime_lt (timestamp s) cutoff_date in
                let deleted_count := length (List.filter older samples) in
                if (commit_ok : bool) then
                  (Deleted deleted_count,
                   Some (List.filter (fun s => negb (older s)) samples))
                else (ServerError, stored)
            end
        end
    end.

End Purge.

Definition HOST_IP : string := "host_ip".
Definition PORT_NUMBER : string := "port_number".

Definition REQUIRED_KEYS : list string := [HOST_IP; PORT_NUMBER; DB_FILE_PATH].

(** [validate_config] of the API, with the lines it prints. *)
Definition validate_config (config : gmap string ConfigValue)
    : bool * list string :=
  validate_keys REQUIRED_KEYS config.

Inductive ScriptOutcome : Type :=
| Serving (printed : list string) (db_file_path host port : ConfigValue)
| Failed (printed : list string) (e : Exception)
| NotStarted (printed : list string).

(** The body of [if __name__ == '__main__'], once the YAML file is loaded
    into [config]. *)
Definition script (config : gmap string ConfigValue) : ScriptOutcome :=
  let '(valid, printed) := validate_config config in
  if valid then
    match (db ← getitem config DB_FILE_PATH;
           host ← getitem config HOST_IP;
           port ← getitem config PORT_NUMBER;
           Ok (db, host, port)) with
    | Ok (db, host, port) => Serving printed db host port
    | Raise e => Failed printed e
    end
  else NotStarted (printed ++ ["Invalid configuration. Exiting."]).

End Service.

(** ** A concrete reading of [now] and of the subtraction of days

    The proleptic Gregorian calendar of [datetime]: days are counted from
    0001-01-01, which is day 1, up to 9999-12-31. *)

Module Calendar.

Import API.

Definition days_before_year (y : Z) : Z :=
  ((y - 1) * 365 + (y - 1) / 4 - (y - 1) / 100 + (y - 1) / 400)%Z.

Definition days_before_month (y m : Z) : Z :=
  foldr Z.add 0%Z
    (map (fun k => Iso.days_in_month y (Z.of_nat k)) (seq 1 (Z.to_nat (m - 1)))).

Definition ymd2ord (y m d : Z) : Z :=
  (days_before_year y + days_before_month y m + d)%Z.

(** The year, month and day of day [n]. *)
Definition ord2ymd (n : Z) : Z * Z * Z :=
  let n := (n - 1)%Z in
  let n400 := (n / 146097)%Z in
  let n := (n mod 146097)%Z in
  let n100 := (n / 36524)%Z in
  let n := (n mod 36524)%Z in
  let n4 := (n / 1461)%Z in
  let n := (n mod 1461)%Z in
  let n1 := (n / 365)%Z in
  let n := (n mod 365)%Z in
  let y := (n400 * 400 + 1 + n100 * 100 + n4 * 4 + n1)%Z in
  if ((n1 =? 4) || (n100 =? 4))%Z then ((y - 1)%Z, 12%Z, 31%Z)
  else
    let m := Z.of_nat (S (length (List.filter
               (fun k => (days_before_month y (Z.of_nat k + 1) <=? n)%Z)
               (seq 1 11)))) in
    (y, m, (n - days_before_month y m + 1)%Z).

Definition MAXORDINAL : Z := 3652059.

Definition minus_days (d : datetime) (n : Z) : option datetime :=
  if (999999999 <? Z.abs n)%Z then None
  else
    let o := (ymd2ord (year d) (month d) (day d) - n)%Z in
    if ((1 <=? o) && (o <=? MAXORDINAL))%Z then
      let '(y, m, dd) := ord2ymd o in
      Some {| year := y; month := m; day := dd;
              hour := hour d; minute := minute d; second := second d;
              microsecond := microsecond d |}
    else None.

(** The clock of a process that reads [d] as the present. *)
Definition clock_at (d : datetime) : Service.PyClock :=
  {| Service.now := d; Service.minus_days := minus_days |}.

End Calendar.

(** * Vocabulary of the specification *)

(** A window with its [cpu] list replaced. *)
Definition with_cpu (l : list Q) (s : UsageStats) : UsageStats :=
  {| cpu := l;
     mem_used_mb := mem_used_mb s; mem_total_mb := mem_total_mb s;
     disk_used_mb := disk_used_mb s; disk_total_mb := disk_total_mb s;
     gpu_proc := gpu_proc s; gpu_mem_used := gpu_mem_used s;
     gpu_mem_total := gpu_mem_total s |}.

(** The window [update_peak_usage] leaves when it folds sample [s] into
    window [w] and no index is out of range. *)
Definition fold_stats (gt : GPUType) (w s : UsageStats) : UsageStats :=
  {| cpu := zip_with max_float (cpu w) (cpu s);
     mem_used_mb := max_int (mem_used_mb w) (mem_used_mb s);
     mem_total_mb := mem_total_mb s;
     disk_used_mb := max_int (disk_used_mb w) (disk_used_mb s);
     disk_total_mb := disk_total_mb s;
     gpu_proc := if GPUType_eqb gt CPU_ONLY then gpu_proc w
                 else max_float (gpu_proc w) (gpu_proc s);
     gpu_mem_used := if GPUType_eqb gt CPU_ONLY then gpu_mem_used w
                     else max_int (gpu_mem_used w) (gpu_mem_used s);
     gpu_mem_total := if GPUType_eqb gt CPU_ONLY then gpu_mem_total w
                      else gpu_mem_total s |}.

(** A reading within the data model of the specification: one percentage
    per core, none negative, amounts of memory and disk that are not
    negative and, on an NVIDIA host, a query that succeeds with a load and
    an amount of memory that are not negative. *)
Definition reading_ok `{PyBuiltins} (gt : GPUType) (n : nat) (r : Reading) : bool :=
  (length (cpu_percent r) =? n) && forallb (Qle_bool 0) (cpu_percent r)
  && (0 <=? mem_used r)%Z && (0 <=? disk_used r)%Z
  && match gt with
     | NVIDIA_GPU =>
         match query_nvidia_smi (nvidia_smi r) with
         | Ok (u, m, _) => Qle_bool 0 u && (0 <=? m)%Z
         | Raise _ => false
         end
     | _ => true
     end.

(** [m] is the maximum of the integer field [f] over the samples [ss]. *)
Definition max_of_Z (f : UsageStats -> Z) (ss : list UsageStats) (m : Z) : Prop :=
  (forall s, s ∈ ss -> (f s <= m)%Z) /\ (exists s, s ∈ ss /\ f s = m).

(** [m] is the maximum of the float [f] over the samples [ss]; [f] is
    partial for the sake of list entries. *)
Definition max_of_Q (f : UsageStats -> option Q) (ss : list UsageStats)
    (m : option Q) : Prop :=
  exists x, m = Some x /\
    (forall s, s ∈ ss -> exists y, f s = Some y /\ (y <= x)%Q) /\
    (exists s y, s ∈ ss /\ f s = Some y /\ (y == x)%Q).

(** [w] is the peak of the samples [ss], the last of which is [final]:
    the maximum per core and per used field, the totals of [final]. *)
Definition is_peak_of (n : nat) (ss : list UsageStats) (final w : UsageStats)
    : Prop :=
  length (cpu w) = n /\
  (forall i, i < n -> max_of_Q (fun s => cpu s !! i) ss (cpu w !! i)) /\
  max_of_Z mem_used_mb ss (mem_used_mb w) /\
  max_of_Z disk_used_mb ss (disk_used_mb w) /\
  max_of_Q (fun s => Some (gpu_proc s)) ss (Some (gpu_proc w)) /\
  max_of_Z gpu_mem_used ss (gpu_mem_used w) /\
  mem_total_mb w = mem_total_mb final /\
  disk_total_mb w = disk_total_mb final /\
  gpu_mem_total w = gpu_mem_total final.

(** What [get_current_usage] guarantees of a sample taken from a reading
    that is [reading_ok], [c0] being the sample before it. *)
Definition sample_ok (gt : GPUType) (n : nat) (c0 s : UsageStats) : Prop :=
  length (cpu s) = n /\ Forall (fun x => (0 <= x)%Q) (cpu s) /\
  (0 <= mem_used_mb s)%Z /\ (0 <= disk_used_mb s)%Z /\
  (0 <= gpu_proc s)%Q /\ (0 <= gpu_mem_used s)%Z /\
  (gt = CPU_ONLY ->
     gpu_proc s = gpu_proc c0 /\ gpu_mem_used s = gpu_mem_used c0 /\
     gpu_mem_total s = gpu_mem_total c0).

(** The invariant of the window while such samples are folded. *)
Definition window_ok (gt : GPUType) (n : nat) (c0 w : UsageStats) : Prop :=
  length (cpu w) = n /\
  (gt = CPU_ONLY ->
     gpu_proc w = gpu_proc c0 /\ gpu_mem_used w = gpu_mem_used c0 /\
     gpu_mem_total w = gpu_mem_total c0).

(** The instants of the flushes durably recorded: the timestamps of the
    committed [Sample] rows, oldest first. *)
Definition flush_times (rows : list Row) : list Z :=
  omap (fun r => match r with
                 | SampleRow _ t _ _ => Some t
                 | _ => None
                 end) rows.

Definition flushed (p : Process) : list Z :=
  match db_session (self p) with
  | Some s => flush_times (committed s)
  | None => []
  end.

Definition is_gpu_row (r : Row) : bool :=
  match r with
  | GPUUsageRow _ _ _ _ _ => true
  | _ => false
  end.

(** The rows [log_peak_stats] adds after the [Sample] row [id]. *)
Definition usage_rows (m : VMMonitor) (id : Z) : list Row :=
  imap (fun i cpu_usage => CPUUsageRow id (Z.of_nat i) cpu_usage)
       (cpu (peak_usage_stats m))
  ++ [MemoryUsageRow id (mem_total_mb (peak_usage_stats m))
                        (mem_used_mb (peak_usage_stats m));
      DiskUsageRow id (disk_total_mb (peak_usage_stats m))
                      (disk_used_mb (peak_usage_stats m))]
  ++ (if negb (GPUType_eqb (gpu_type m) CPU_ONLY) then
        [GPUUsageRow id 0 (gpu_proc (peak_usage_stats m))
                          (gpu_mem_used (peak_usage_stats m))
                          (gpu_mem_total (peak_usage_stats m))]
      else []).

(** A computation maintains [R] when [R] relates the state it starts in
    to the state it ends in, whether it returns or raises. *)
Definition maintains {A} (R : Process -> Process -> Prop) (m : M Process A)
    : Prop :=
  forall p res p', m p = (res, p') -> R p p'.

(** The classification of the GPU and the counts derived at construction
    are the same in both states. *)
Definition same_classification (p p' : Process) : Prop :=
  gpu_type (self p') = gpu_type (self p) /\
  num_gpus (self p') = num_gpus (self p) /\
  num_cpus (self p') = num_cpus (self p).

(** No [GPUUsage] row is committed or waiting to be. *)
Definition no_gpu_rows (p : Process) : Prop :=
  match db_session (self p) with
  | Some s => forallb (fun r => negb (is_gpu_row r)) (committed s ++ pending s) = true
  | None => True
  end.

(** A monitor classified [CPU_ONLY] that holds no GPU row stays so. *)
Definition cpu_only_stays_clean (p p' : Process) : Prop :=
  gpu_type (self p) = CPU_ONLY -> no_gpu_rows p ->
  gpu_type (self p') = CPU_ONLY /\ no_gpu_rows p'.

(** The [sample_id] column of a usage row, the [id] of a [Sample] row. *)
Definition row_sample_id (r : Row) : Z :=
  match r with
  | SampleRow id _ _ _ => id
  | CPUUsageRow id _ _ => id
  | MemoryUsageRow id _ _ => id
  | DiskUsageRow id _ _ => id
  | GPUUsageRow id _ _ _ _ => id
  end.

(** Consecutive instants of [ts] are at least [d] apart. *)
Fixpoint spaced (d : Z) (ts : list Z) : Prop :=
  match ts with
  | [] => True
  | t :: ts' =>
      match ts' with
      | [] => True
      | t' :: _ => (t + d <= t')%Z
      end /\ spaced d ts'
  end.

(** No [Sample] row is waiting to be committed. *)
Definition no_pending_sample (p : Process) : Prop :=
  match db_session (self p) with
  | Some s => flush_times (pending s) = []
  | None => True
  end.

(** The commits of an iteration take no negative time. *)
Definition commit_times_ok (e : TickEnv) : Prop :=
  (0 <= commit_time (commit_sample e))%Z /\ (0 <= commit_time (commit_usage e))%Z.

(** The flushes recorded are [d] apart, and each is one of [old], the
    flushes recorded before [run], or not earlier than [start], the first
    deadline. *)
Definition flushes_ok (d start : Z) (old : list Z) (p : Process) : Prop :=
  spaced d (flushed p) /\
  forall t, t ∈ flushed p -> t ∈ old \/ (start <= t)%Z.

(** What the loop of [run] keeps true between two iterations, [nr] being
    the deadline in force: the last flush is a report interval before it. *)
Definition deadline_ok (ri start : Z) (old : list Z) (nr : Z) (p : Process)
    : Prop :=
  report_interval (self p) = CInt ri /\
  no_pending_sample p /\
  flushes_ok (ri * 1000000) start old p /\
  (forall t, last (flushed p) = Some t -> (t + ri * 1000000 <= nr)%Z) /\
  (start <= nr)%Z.

(** The peak window has one entry per core. *)
Definition window_shaped (p : Process) : Prop :=
  length (cpu (peak_usage_stats (self p))) = num_cpus (self p).

Definition keeps_window_shaped (p p' : Process) : Prop :=
  window_shaped p -> window_shaped p'.

(** [c] does not occur in [s]. *)
Fixpoint free_of (c : ascii) (s : string) : bool :=
  match s with
  | EmptyString => true
  | String a s' => negb (Ascii.eqb a c) && free_of c s'
  end.

(** The later of two instants. *)
Definition later (a b : API.datetime) : API.datetime :=
  if API.datetime_le a b then b else a.

(** * Concrete hosts, monitors and iterations *)

Definition empty_session : Session := {| committed := []; pending := [] |}.

(** A host with an NVIDIA card and [n] logical cores. *)
Definition nvidia_host (n : nat) : Host :=
  {| probe_nvidia := Exited 0 "";
     probe_rocm := NotFound;
     cpu_count := n;
     get_session := Some empty_session;
     boot_time := 0 |}.

(** A host with an AMD card only: [nvidia-smi] is not installed and
    [rocm-smi] runs and exits with status 0. *)
Definition amd_host : Host :=
  {| probe_nvidia := NotFound;
     probe_rocm := Exited 0 "";
     cpu_count := 4;
     get_session := Some empty_session;
     boot_time := 0 |}.

(** A host without any GPU tool. *)
Definition cpu_only_host : Host :=
  {| probe_nvidia := NotFound;
     probe_rocm := NotFound;
     cpu_count := 4;
     get_session := Some empty_session;
     boot_time := 0 |}.

(** The monitor [VMMonitor(sample_interval=si, report_interval=ri)] builds
    on [nvidia_host n], as a process at time 0. *)
Definition fresh_process (n : nat) (si ri : Z) : Process :=
  {| self := {| sample_interval := CInt si;
                report_interval := CInt ri;
                db_session := Some empty_session;
                gpu_type := NVIDIA_GPU;
                num_gpus := 1;
                num_cpus := n;
                peak_usage_stats := UsageStats_new n;
                current_usage_stats := UsageStats_new n |};
     clock := 0 |}.

Definition newline : string := String (ascii_of_nat 10) EmptyString.

(** A reading: the given load per core, 100 MB of 1000 MB of memory and
    5 MB of 50 MB of disk in use, and the given answer of nvidia-smi,
    which took 20 ms. *)
Definition reading_of (loads : list Q) (smi : Completion) : Reading :=
  {| cpu_percent := loads;
     mem_used := 100 * 1024 * 1024;
     mem_total := 1000 * 1024 * 1024;
     disk_used := 5 * 1024 * 1024;
     disk_total := 50 * 1024 * 1024;
     nvidia_smi := smi;
     nvidia_smi_time := 20000 |}.

(** nvidia-smi reports 45 percent load and 1024 MiB of 8192 MiB in use. *)
Definition smi_fine : Completion :=
  Exited 0 (String.append "45, 1024, 8192" newline).

(** nvidia-smi reports fields it does not support. *)
Definition smi_not_supported : Completion :=
  Exited 0 (String.append "[N/A], [N/A], [N/A]" newline).

(** nvidia-smi loses the driver and exits with status 9. *)
Definition smi_failed : Completion := Exited 9 "".

Definition commit_fine : Commit := {| commit_ok := true; commit_time := 1000 |}.

Definition commit_failing : Commit := {| commit_ok := false; commit_time := 1000 |}.

(** An iteration in which everything works. *)
Definition tick_fine (loads : list Q) : TickEnv :=
  {| reading := reading_of loads smi_fine;
     commit_sample := commit_fine;
     commit_usage := commit_fine;
     oversleep := 0 |}.

(** An iteration whose sample cannot be parsed. *)
Definition tick_unparsable (loads : list Q) : TickEnv :=
  {| reading := reading_of loads smi_not_supported;
     commit_sample := commit_fine;
     commit_usage := commit_fine;
     oversleep := 0 |}.

(** An iteration whose nvidia-smi fails. *)
Definition tick_smi_failed (loads : list Q) : TickEnv :=
  {| reading := reading_of loads smi_failed;
     commit_sample := commit_fine;
     commit_usage := commit_fine;
     oversleep := 0 |}.

(** An iteration in which the database refuses the first commit. *)
Definition tick_commit_failing (loads : list Q) : TickEnv :=
  {| reading := reading_of loads smi_fine;
     commit_sample := commit_failing;
     commit_usage := commit_fine;
     oversleep := 0 |}.

(** An iteration after which the process is suspended for [stall]
    microseconds beyond its sleep. *)
Definition tick_stalled (loads : list Q) (stall : Z) : TickEnv :=
  {| reading := reading_of loads smi_fine;
     commit_sample := commit_fine;
     commit_usage := commit_fine;
     oversleep := stall |}.

(** The process once [get_current_usage] has stored a sample with the
    given loads in a fresh monitor of [n] cores. *)
Definition sampled_process (n : nat) (loads : list Q) : Process :=
  snd (get_current_usage (builtins := Decimal.builtins)
         (reading_of loads smi_fine) (fresh_process n 5 60)).

(** A process that wakes up 240 seconds after it started. *)
Definition stalled_process : Process := elapse 240000000 (fresh_process 1 5 60).

(** The five readings of the scenario of the specification: one core at
    10, 50, 30, 90 and 20 percent. *)
Definition scenario_readings : list Reading :=
  map (fun c => reading_of [c] smi_fine) [10%Q; 50%Q; 30%Q; 90%Q; 20%Q].

(** A peak window as one fold leaves it: one core at 90 percent, 100 MB of
    1000 MB in use. *)
Definition window_after_fold : UsageStats :=
  {| cpu := [90%Q];
     mem_used_mb := 100; mem_total_mb := 1000;
     disk_used_mb := 5; disk_total_mb := 50;
     gpu_proc := 45%Q; gpu_mem_used := 1024; gpu_mem_total := 8192 |}.

(** A host on which the database cannot be opened. *)
Definition sessionless_host : Host :=
  {| probe_nvidia := Exited 0 "";
     probe_rocm := NotFound;
     cpu_count := 1;
     get_session := None;
     boot_time := 0 |}.

(** A configuration file with the three required keys. *)
Definition complete_config : gmap string ConfigValue :=
  {[ SAMPLE_INTERVAL := CInt 5; REPORT_INTERVAL := CInt 60;
     DB_FILE_PATH := CStr "vm_monitor.db" ]}.

(** A configuration file without [report_interval]. *)
Definition config_without_report_interval : gmap string ConfigValue :=
  {[ SAMPLE_INTERVAL := CInt 5; DB_FILE_PATH := CStr "vm_monitor.db" ]}.

(** A clock that reads noon of 2025-10-30. *)
Definition noon_clock : Service.PyClock :=
  Calendar.clock_at
    {| API.year := 2025; API.month := 10; API.day := 30; API.hour := 12;
       API.minute := 0; API.second := 0; API.microsecond := 0 |}.

(** * Properties *)

(** ** Reasoning about computations in [M] *)

(** When the first computation returns, the second goes on from its state. *)
Lemma bind_ok {S A B} (m : M S A) (k : A -> M S B) s a s' :
  m s = (Ok a, s') -> (m ≫= k) s = k a s'.
Proof. intros H. unfold mbind, M_bind, bind. now rewrite H. Qed.

(** When the first computation raises, the second is not run. *)
Lemma bind_raise {S A B} (m : M S A) (k : A -> M S B) s e s' :
  m s = (Raise e, s') -> (m ≫= k) s = (Raise e, s').
Proof. intros H. unfold mbind, M_bind, bind. now rewrite H. Qed.

Ltac run_monad :=
  unfold mbind, M_bind, bind, mret, M_ret, ret, gets, get, modify, lift,
    raise, datetime_now in *;
  cbn [fst snd] in *.

(** A sequence that returns is made of two computations that return. *)
Lemma bind_inv_ok {S A B} (m : M S A) (k : A -> M S B) s b s' :
  (m ≫= k) s = (Ok b, s') ->
  exists a s1, m s = (Ok a, s1) /\ k a s1 = (Ok b, s').
Proof.
  unfold mbind, M_bind, bind. destruct (m s) as [[a|e] s1]; [eauto | discriminate].
Qed.

Lemma set_peak_id p : set_peak (fun w => w) p = p.
Proof. now destruct p as [[] ?]. Qed.

Lemma set_session_same p : set_session (db_session (self p)) p = p.
Proof. now destruct p as [[] ?]. Qed.

Lemma set_session_twice a b p : set_session b (set_session a p) = set_session b p.
Proof. reflexivity. Qed.

Lemma set_session_elapse db d p :
  set_session db (elapse d p) = elapse d (set_session db p).
Proof. reflexivity. Qed.

Lemma elapse_0 p : elapse 0 p = p.
Proof. destruct p. unfold elapse. cbn. now rewrite Z.add_0_r. Qed.

Lemma elapse_elapse d1 d2 p : elapse d2 (elapse d1 p) = elapse (d1 + d2) p.
Proof. unfold elapse. cbn. now rewrite Z.add_assoc. Qed.

(** ** Folding samples into the peak window (claims C1 and C7) *)
Lemma for_each_app {S A} (l1 l2 : list A) (body : A -> M S unit) s :
  for_each (l1 ++ l2) body s = (for_each l1 body;; for_each l2 body) s.
Proof.
  revert s. induction l1 as [|x l1 IH]; intros s; cbn.
  - reflexivity.
  - unfold mbind, M_bind, bind. destruct (body x s) as [[[]|e] s']; [|reflexivity].
    apply IH.
Qed.

(** One round of the loop with both indices in range. *)
Lemma update_peak_cpu_ok p i a b :
  cpu (peak_usage_stats (self p)) !! i = Some a ->
  cpu (current_usage_stats (self p)) !! i = Some b ->
  update_peak_cpu i p =
    (Ok tt, set_peak (fun s => with_cpu (<[i := max_float a b]> (cpu s)) s) p).
Proof.
  intros Ha Hb. unfold update_peak_cpu, index. run_monad.
  rewrite Ha, Hb. reflexivity.
Qed.

(** One round of the loop with the sample too short: [IndexError], and the
    window is as it was. *)
Lemma update_peak_cpu_short p i :
  cpu (current_usage_stats (self p)) !! i = None ->
  update_peak_cpu i p = (Raise IndexError, p).
Proof.
  intros Hb. unfold update_peak_cpu, index. run_monad.
  rewrite Hb. now destruct (cpu (peak_usage_stats (self p)) !! i).
Qed.

(** After the first [n] rounds of the loop the first [n] entries hold the maxima. *)
Lemma update_cpu_loop_ok n p :
  let pk := cpu (peak_usage_stats (self p)) in
  let cur := cpu (current_usage_stats (self p)) in
  n <= length pk -> n <= length cur ->
  for_each (seq 0 n) update_peak_cpu p =
    (Ok tt, set_peak (with_cpu (zip_with max_float (take n pk) (take n cur)
                                  ++ drop n pk)) p).
Proof.
  intros pk cur. induction n as [|n IH]; intros Hpk Hcur.
  - cbn. rewrite drop_0. unfold mret, M_ret, ret. f_equal.
    destruct p as [[? ? ? ? ? ? [] ?] ?]. reflexivity.
  - rewrite seq_S, for_each_app. cbn [Nat.add].
    erewrite bind_ok by (apply IH; lia).
    destruct (lookup_lt_is_Some_2 pk n) as [a Ha]; [lia|].
    destruct (lookup_lt_is_Some_2 cur n) as [b Hb]; [lia|].
    cbn [for_each]. erewrite bind_ok.
    2:{ apply update_peak_cpu_ok with (a := a) (b := b).
        - cbn. rewrite lookup_app_r; rewrite length_zip_with, !length_take; [|lia].
          replace (n - _) with 0 by lia. rewrite lookup_drop. now rewrite Nat.add_0_r.
        - exact Hb. }
    unfold mret, M_ret, ret. f_equal. unfold set_peak, with_cpu. cbn. do 3 f_equal.
    rewrite (take_S_r pk n a Ha), (take_S_r cur n b Hb).
    rewrite zip_with_app by (rewrite !length_take; lia).
    rewrite insert_app_r_alt; rewrite length_zip_with, !length_take; [|lia].
    replace (n - _) with 0 by lia.
    rewrite (drop_S pk a n Ha). cbn. now rewrite <- app_assoc.
Qed.

(** With a sample shorter than [n] the loop raises at the first missing
    index; the entries before it hold their maxima already. *)
Lemma update_cpu_loop_short n p :
  let pk := cpu (peak_usage_stats (self p)) in
  let cur := cpu (current_usage_stats (self p)) in
  n <= length pk -> length cur < n ->
  exists p', for_each (seq 0 n) update_peak_cpu p = (Raise IndexError, p') /\
    p' = set_peak (with_cpu (zip_with max_float pk cur ++ drop (length cur) pk)) p.
Proof.
  intros pk cur Hpk Hcur.
  replace n with (length cur + S (n - S (length cur))) by lia.
  subst pk cur.
  rewrite seq_app, for_each_app. cbn [Nat.add seq for_each].
  erewrite bind_ok by (apply update_cpu_loop_ok; lia).
  eexists. split.
  - erewrite bind_raise; [reflexivity|].
    apply update_peak_cpu_short. cbn. now apply lookup_ge_None_2.
  - rewrite firstn_all.
    now rewrite zip_with_take_l.
Qed.

(** [update_peak_usage] on a sample with an entry for every core. *)
Lemma update_peak_usage_ok p :
  let m := self p in
  length (cpu (peak_usage_stats m)) = num_cpus m ->
  num_cpus m <= length (cpu (current_usage_stats m)) ->
  update_peak_usage p =
    (Ok tt, set_peak (fun w => fold_stats (gpu_type m) w (current_usage_stats m)) p).
Proof.
  intros m Hpk Hcur. unfold update_peak_usage.
  erewrite bind_ok by reflexivity.
  erewrite bind_ok by (apply update_cpu_loop_ok; fold m; lia).
  fold m. rewrite <- Hpk, firstn_all, drop_all, app_nil_r, zip_with_take_r.
  run_monad. unfold fold_stats, set_peak. subst m. cbn.
  destruct (gpu_type (self p)); reflexivity.
Qed.

(** [update_peak_usage] on a sample with too few entries. *)
Lemma update_peak_usage_short p :
  let m := self p in
  length (cpu (peak_usage_stats m)) = num_cpus m ->
  length (cpu (current_usage_stats m)) < num_cpus m ->
  exists p', update_peak_usage p = (Raise IndexError, p') /\
    p' = set_peak (with_cpu
           (zip_with max_float (cpu (peak_usage_stats m)) (cpu (current_usage_stats m))
            ++ drop (length (cpu (current_usage_stats m))) (cpu (peak_usage_stats m)))) p.
Proof.
  intros m Hpk Hcur. unfold update_peak_usage.
  erewrite bind_ok by reflexivity.
  destruct (update_cpu_loop_short (num_cpus m) p) as (p' & Hrun & Hp'); [fold m; lia ..|].
  exists p'. split; [|exact Hp'].
  erewrite bind_raise; [reflexivity|]. exact Hrun.
Qed.

(** [max] on floats is an upper bound of its arguments and one of them. *)
Lemma max_float_spec a b :
  (a <= max_float a b)%Q /\ (b <= max_float a b)%Q /\
  (max_float a b = a \/ max_float a b = b).
Proof.
  unfold max_float. destruct (Qle_bool b a) eqn:E.
  - apply Qle_bool_iff in E. repeat split; [apply Qle_refl | exact E | now left].
  - assert (~ (b <= a)%Q) as Hn by (rewrite <- Qle_bool_iff; congruence).
    repeat split; [|apply Qle_refl | now right].
    apply Qlt_le_weak. now apply Qnot_le_lt.
Qed.

Lemma max_int_spec a b : max_int a b = Z.max a b.
Proof. unfold max_int. destruct (Z.ltb_spec a b); lia. Qed.

Section FoldField.

Variable gt : GPUType.
Variables (Pw Ps : UsageStats -> Prop).
Hypothesis Pw_fold : forall w s, Pw w -> Ps s -> Pw (fold_stats gt w s).

(** A field folded with [max] is, after any number of samples, at least its
    initial value and every sample, and equal to one of these. *)
Lemma foldl_max_Z (f : UsageStats -> Z) :
  (forall w s, Pw w -> Ps s -> f (fold_stats gt w s) = max_int (f w) (f s)) ->
  forall ss w, Pw w -> Forall Ps ss ->
    let w' := foldl (fold_stats gt) w ss in
    (f w <= f w')%Z /\ (forall s, s ∈ ss -> (f s <= f w')%Z) /\
    (f w' = f w \/ exists s, s ∈ ss /\ f s = f w').
Proof.
  intros Hf ss. induction ss as [|s ss IH]; intros w Hw Hss; cbn.
  - repeat split; [lia | | now left]. intros s Hs. inversion Hs.
  - apply Forall_cons in Hss as [Hs Hss].
    destruct (IH (fold_stats gt w s)) as (H1 & H2 & H3); [auto | assumption |].
    rewrite (Hf w s Hw Hs), max_int_spec in H1, H3.
    repeat split.
    + lia.
    + intros s' Hin. apply elem_of_cons in Hin as [->|Hin]; [lia | auto].
    + destruct H3 as [H3 | (s' & Hin & H3)].
      * destruct (Z.max_spec (f w) (f s)) as [[_ Hm]|[_ Hm]].
        -- right. exists s. split; [left | lia].
        -- left. lia.
      * right. exists s'. split; [now right | assumption].
Qed.

(** The same for a float field. *)
Lemma foldl_max_Q (f : UsageStats -> Q) :
  (forall w s, Pw w -> Ps s -> f (fold_stats gt w s) = max_float (f w) (f s)) ->
  forall ss w, Pw w -> Forall Ps ss ->
    let w' := foldl (fold_stats gt) w ss in
    (f w <= f w')%Q /\ (forall s, s ∈ ss -> (f s <= f w')%Q) /\
    (f w' = f w \/ exists s, s ∈ ss /\ f s = f w').
Proof.
  intros Hf ss. induction ss as [|s ss IH]; intros w Hw Hss; cbn.
  - repeat split; [apply Qle_refl | | now left]. intros s Hs. inversion Hs.
  - apply Forall_cons in Hss as [Hs Hss].
    destruct (IH (fold_stats gt w s)) as (H1 & H2 & H3); [auto | assumption |].
    rewrite (Hf w s Hw Hs) in H1, H3.
    destruct (max_float_spec (f w) (f s)) as (Ha & Hb & Hc).
    repeat split.
    + eapply Qle_trans; eassumption.
    + intros s' Hin. apply elem_of_cons in Hin as [->|Hin]; [|auto].
      eapply Qle_trans; eassumption.
    + destruct H3 as [H3 | (s' & Hin & H3)].
      * destruct Hc as [Hc|Hc]; rewrite Hc in H3.
        -- now left.
        -- right. exists s. split; [left | easy].
      * right. exists s'. split; [now right | assumption].
Qed.

(** A field that every fold overwrites holds the value of the last sample. *)
Lemma foldl_last (A : Type) (f : UsageStats -> A) :
  (forall w s, Pw w -> Ps s -> f (fold_stats gt w s) = f s) ->
  forall ss w sl, Pw w -> Forall Ps ss -> last ss = Some sl ->
    f (foldl (fold_stats gt) w ss) = f sl.
Proof.
  intros Hf ss. induction ss as [|s ss IH]; intros w sl Hw Hss Hl; [discriminate|].
  apply Forall_cons in Hss as [Hs Hss]. cbn.
  destruct ss as [|s' ss].
  - cbn in *. injection Hl as <-. auto.
  - apply IH; auto.
Qed.

(** A field that no fold writes keeps its value. *)
Lemma foldl_keep (A : Type) (f : UsageStats -> A) :
  (forall w s, Pw w -> Ps s -> f (fold_stats gt w s) = f w) ->
  forall ss w, Pw w -> Forall Ps ss ->
    f (foldl (fold_stats gt) w ss) = f w.
Proof.
  intros Hf ss. induction ss as [|s ss IH]; intros w Hw Hss; [reflexivity|].
  apply Forall_cons in Hss as [Hs Hss]. cbn.
  rewrite IH; auto.
Qed.

End FoldField.

Section Sampling.

Context `{PyBuiltins}.

(** A reading within the data model yields a sample within it. *)
Lemma get_current_usage_ok (r : Reading) (p : Process) :
  let m := self p in
  reading_ok (gpu_type m) (num_cpus m) r = true ->
  (gpu_type m = CPU_ONLY ->
     (0 <= gpu_proc (current_usage_stats m))%Q /\
     (0 <= gpu_mem_used (current_usage_stats m))%Z) ->
  exists s d,
    get_current_usage r p = (Ok tt, elapse d (set_current (fun _ => s) p)) /\
    sample_ok (gpu_type m) (num_cpus m) (current_usage_stats m) s.
Proof.
  intros m Hok Hg. unfold reading_ok in Hok.
  repeat (apply andb_prop in Hok as [Hok ?]).
  apply Nat.eqb_eq in Hok.
  assert (Forall (fun x => (0 <= x)%Q) (cpu_percent r)) as Hcpu.
  { apply Forall_forall. intros x Hx. apply Qle_bool_iff.
    eapply forallb_forall; [eassumption|]. now apply list_elem_of_In. }
  assert (0 <= mem_used r / (1024 * 1024))%Z by (apply Z.div_pos; lia).
  assert (0 <= disk_used r / (1024 * 1024))%Z by (apply Z.div_pos; lia).
  unfold get_current_usage, get_current_gpu_usage. subst m.
  destruct p as [[si ri db gt ng nc pk cur] clk]. cbn in *.
  destruct gt; run_monad; cbn.
  - destruct Hg as [Hg1 Hg2]; [reflexivity|].
    eexists _, _. split; [unfold elapse, set_current; cbn; reflexivity|].
    unfold sample_ok; cbn. tauto.
  - destruct (query_nvidia_smi (nvidia_smi r)) as [[[u mu] mt]|e] eqn:Hq; [|discriminate].
    match goal with Hu : _ && _ = true |- _ => apply andb_prop in Hu as [Hu1 Hu2] end.
    apply Qle_bool_iff in Hu1.
    eexists _, _. split.
    + unfold elapse, set_current. cbn. rewrite <- Z.add_assoc. reflexivity.
    + unfold sample_ok; cbn. repeat split; try assumption; try lia; try discriminate.
  - eexists _, _. split; [unfold elapse, set_current; cbn; reflexivity|].
    unfold sample_ok; cbn.
    repeat split; try assumption; try lia; try discriminate.
Qed.

Lemma sample_ok_trans gt n c0 s s' :
  sample_ok gt n c0 s -> sample_ok gt n s s' -> sample_ok gt n c0 s'.
Proof.
  unfold sample_ok. intros (_ & _ & _ & _ & _ & _ & H0) (? & ? & ? & ? & ? & ? & H1).
  split_and!; try assumption.
  intros Hgt. destruct (H0 Hgt) as (? & ? & ?), (H1 Hgt) as (? & ? & ?).
  split_and!; congruence.
Qed.

(** Readings within the data model are all folded: the window is the fold
    of [fold_stats] over the samples taken. *)
Lemma fold_samples_spec (rs : list Reading) :
  forall p : Process,
  let m := self p in
  length (cpu (peak_usage_stats m)) = num_cpus m ->
  (gpu_type m = CPU_ONLY ->
     (0 <= gpu_proc (current_usage_stats m))%Q /\
     (0 <= gpu_mem_used (current_usage_stats m))%Z) ->
  forallb (reading_ok (gpu_type m) (num_cpus m)) rs = true ->
  exists ss p',
    fold_samples rs p = (Ok ss, p') /\
    length ss = length rs /\
    peak_usage_stats (self p') =
      foldl (fold_stats (gpu_type m)) (peak_usage_stats m) ss /\
    Forall (sample_ok (gpu_type m) (num_cpus m) (current_usage_stats m)) ss.
Proof.
  induction rs as [|r rs IH]; intros p m Hlen Hg Hrs.
  - exists [], p. repeat split. constructor.
  - cbn in Hrs. apply andb_prop in Hrs as [Hr Hrs].
    destruct (get_current_usage_ok r p Hr Hg) as (s & d & Hget & Hs).
    fold m in Hs.
    pose proof Hs as (Hn & _ & _ & _ & Hs1 & Hs2 & _).
    set (p1 := elapse d (set_current (fun _ => s) p)) in *.
    assert (update_peak_usage p1 =
            (Ok tt, set_peak (fun w => fold_stats (gpu_type m) w s) p1)) as Hupd.
    { apply (update_peak_usage_ok p1); cbn; [exact Hlen | fold m; lia]. }
    set (p2 := set_peak (fun w => fold_stats (gpu_type m) w s) p1) in *.
    destruct (IH p2) as (ss & p' & Hfold & Hlen' & Hpeak & Hss).
    + cbn. fold m. rewrite length_zip_with. lia.
    + intros _. split; [exact Hs1 | exact Hs2].
    + exact Hrs.
    + exists (s :: ss), p'. cbn [fold_samples].
      erewrite bind_ok by exact Hget.
      erewrite bind_ok by reflexivity.
      erewrite bind_ok by exact Hupd.
      erewrite bind_ok by exact Hfold.
      repeat split.
      * cbn. now rewrite Hlen'.
      * exact Hpeak.
      * constructor; [exact Hs|].
        eapply Forall_impl; [exact Hss|]. intros s'. now apply sample_ok_trans.
Qed.

End Sampling.

Section FromZero.

Variable gt : GPUType.
Variables (Pw Ps : UsageStats -> Prop).
Hypothesis Pw_fold : forall w s, Pw w -> Ps s -> Pw (fold_stats gt w s).

(** Folded from zero over samples that are not negative, at least one, the
    field is the maximum of the samples. *)
Lemma max_from_zero_Z (f : UsageStats -> Z) ss w :
  (forall w s, Pw w -> Ps s -> f (fold_stats gt w s) = max_int (f w) (f s)) ->
  Pw w -> Forall Ps ss -> f w = 0%Z ->
  (forall s, s ∈ ss -> (0 <= f s)%Z) -> 0 < length ss ->
  max_of_Z f ss (f (foldl (fold_stats gt) w ss)).
Proof.
  intros Hf Hw Hss H0 Hpos Hne.
  destruct (foldl_max_Z gt Pw Ps Pw_fold f Hf ss w Hw Hss) as (H1 & H2 & H3).
  split; [exact H2|].
  destruct H3 as [H3|H3]; [|exact H3].
  destruct ss as [|s ss]; [cbn in Hne; lia|].
  exists s. split; [left|].
  specialize (H2 s ltac:(left)). specialize (Hpos s ltac:(left)). lia.
Qed.

(** The same for a float field, up to equality of rationals. *)
Lemma max_from_zero_Q (f : UsageStats -> Q) ss w :
  (forall w s, Pw w -> Ps s -> f (fold_stats gt w s) = max_float (f w) (f s)) ->
  Pw w -> Forall Ps ss -> f w = 0%Q ->
  (forall s, s ∈ ss -> (0 <= f s)%Q) -> 0 < length ss ->
  let x := f (foldl (fold_stats gt) w ss) in
  (forall s, s ∈ ss -> (f s <= x)%Q) /\ (exists s, s ∈ ss /\ (f s == x)%Q).
Proof.
  intros Hf Hw Hss H0 Hpos Hne x.
  destruct (foldl_max_Q gt Pw Ps Pw_fold f Hf ss w Hw Hss) as (H1 & H2 & H3).
  split; [exact H2|].
  destruct H3 as [H3|(s & Hin & H3)].
  - destruct ss as [|s ss]; [cbn in Hne; lia|].
    exists s. split; [left|].
    specialize (H2 s ltac:(left)). specialize (Hpos s ltac:(left)).
    subst x. rewrite H3, H0 in *. now apply Qle_antisym.
  - exists s. split; [exact Hin|]. subst x. now rewrite H3.
Qed.

End FromZero.

Lemma max_float_same x : max_float x x = x.
Proof. unfold max_float. now destruct (Qle_bool x x). Qed.

Lemma max_int_same x : max_int x x = x.
Proof. rewrite max_int_spec. lia. Qed.

Lemma window_ok_fold gt n c0 w s :
  window_ok gt n c0 w -> sample_ok gt n c0 s -> window_ok gt n c0 (fold_stats gt w s).
Proof.
  intros [Hw Hg] (Hs & _). split.
  - cbn. rewrite length_zip_with. lia.
  - intros ->. cbn. auto.
Qed.

(** On the GPU fields [fold_stats] is a maximum, respectively an overwrite,
    also on a monitor without GPU, where window and sample are constant. *)
Lemma fold_stats_gpu gt n c0 w s :
  window_ok gt n c0 w -> sample_ok gt n c0 s ->
  gpu_proc (fold_stats gt w s) = max_float (gpu_proc w) (gpu_proc s) /\
  gpu_mem_used (fold_stats gt w s) = max_int (gpu_mem_used w) (gpu_mem_used s) /\
  gpu_mem_total (fold_stats gt w s) = gpu_mem_total s.
Proof.
  intros [_ Hw] (_ & _ & _ & _ & _ & _ & Hs). cbn.
  destruct gt; cbn; try easy.
  destruct Hw as (-> & -> & ->); [easy|]. destruct Hs as (-> & -> & ->); [easy|].
  now rewrite max_float_same, max_int_same.
Qed.

(** Per core, [fold_stats] is the maximum of window and sample. *)
Lemma fold_stats_cpu gt n c0 w s i :
  i < n -> window_ok gt n c0 w -> sample_ok gt n c0 s ->
  default 0%Q (cpu (fold_stats gt w s) !! i) =
    max_float (default 0%Q (cpu w !! i)) (default 0%Q (cpu s !! i)).
Proof.
  intros Hi [Hw _] (Hs & _). cbn. rewrite lookup_zip_with.
  destruct (lookup_lt_is_Some_2 (cpu w) i) as [a ->]; [lia|].
  destruct (lookup_lt_is_Some_2 (cpu s) i) as [b ->]; [lia|].
  reflexivity.
Qed.

(** C1: fold the samples of [rs] into a fresh window (as many readings
    as one likes, at least one, each within the data model; on a monitor
    without GPU the GPU fields of the sample are the zeros they have been
    since construction). Then the fold
    completes, and in the window every per-core entry is the maximum of
    that core over the samples, every used field ([mem_used_mb],
    [disk_used_mb], [gpu_proc], [gpu_mem_used]) is the maximum of that
    field over the samples, and every total ([mem_total_mb],
    [disk_total_mb], [gpu_mem_total]) is that of the sample folded last. *)
Theorem peak_window_is_maximum_of_samples `{PyBuiltins}
    (p : Process) (rs : list Reading) :
  let m := self p in
  peak_usage_stats m = UsageStats_new (num_cpus m) ->
  (gpu_type m = CPU_ONLY ->
     gpu_proc (current_usage_stats m) = 0%Q /\
     gpu_mem_used (current_usage_stats m) = 0%Z /\
     gpu_mem_total (current_usage_stats m) = 0%Z) ->
  0 < length rs ->
  forallb (reading_ok (gpu_type m) (num_cpus m)) rs = true ->
  exists samples final p',
    fold_samples rs p = (Ok samples, p') /\
    length samples = length rs /\
    last samples = Some final /\
    is_peak_of (num_cpus m) samples final (peak_usage_stats (self p')).
Proof.
  intros m Hpk Hcur Hne Hrs.
  destruct (fold_samples_spec rs p) as (ss & p' & Hfold & Hlen & Hpeak & Hss).
  { fold m. rewrite Hpk. cbn. apply length_replicate. }
  { fold m. intros Hgt. destruct (Hcur Hgt) as (-> & -> & _).
    split; [apply Qle_refl | lia]. }
  { exact Hrs. }
  fold m in Hpeak, Hss.
  set (gt := gpu_type m) in *. set (n := num_cpus m) in *.
  set (c0 := current_usage_stats m) in *. set (w0 := peak_usage_stats m) in *.
  assert (0 < length ss) as Hne' by lia.
  assert (is_Some (last ss)) as [final Hfinal].
  { destruct ss as [|s ss] using rev_ind; [cbn in Hne'; lia|].
    rewrite last_snoc. eauto. }
  assert (window_ok gt n c0 w0) as Hw0.
  { subst w0 c0. rewrite Hpk. split; [apply length_replicate|].
    intros Hgt. destruct (Hcur Hgt) as (-> & -> & ->). easy. }
  pose proof (window_ok_fold gt n c0) as Hstep.
  assert (forall ss' w, window_ok gt n c0 w ->
            Forall (sample_ok gt n c0) ss' ->
            window_ok gt n c0 (foldl (fold_stats gt) w ss')) as Hinv.
  { induction ss' as [|s ss' IH]; intros w Hw Hall; [exact Hw|].
    apply Forall_cons in Hall as [Hs Hall]. cbn. apply IH; auto. }
  exists ss, final, p'. split; [exact Hfold|]. split; [exact Hlen|].
  split; [exact Hfinal|]. unfold is_peak_of. rewrite Hpeak.
  assert (forall s, s ∈ ss -> sample_ok gt n c0 s) as Hin
    by now apply Forall_forall.
  split_and!.
  - apply (Hinv ss w0 Hw0 Hss).
  - intros i Hi.
    destruct (max_from_zero_Q gt _ _ Hstep
                (fun s => default 0%Q (cpu s !! i)) ss w0) as [Hle Hex]; auto.
    + intros w s. now apply fold_stats_cpu.
    + subst w0. rewrite Hpk. cbn. now rewrite lookup_replicate_2.
    + intros s Hs. destruct (Hin s Hs) as (Hl & Hpos & _).
      destruct (lookup_lt_is_Some_2 (cpu s) i) as [y Hy]; [lia|].
      rewrite Hy. cbn. eapply Forall_lookup_1 in Hpos; eauto.
    + destruct (Hinv ss w0 Hw0 Hss) as [Hl _].
      destruct (lookup_lt_is_Some_2 (cpu (foldl (fold_stats gt) w0 ss)) i)
        as [x Hx]; [lia|].
      rewrite Hx in Hle, Hex. cbn in Hle, Hex.
      exists x. split; [exact Hx|]. split.
      * intros s Hs. specialize (Hle s Hs). destruct (Hin s Hs) as (Hl' & _).
        destruct (lookup_lt_is_Some_2 (cpu s) i) as [y Hy]; [lia|].
        rewrite Hy in Hle. eauto.
      * destruct Hex as (s & Hs & Heq). destruct (Hin s Hs) as (Hl' & _).
        destruct (lookup_lt_is_Some_2 (cpu s) i) as [y Hy]; [lia|].
        rewrite Hy in Heq. eauto.
  - apply (max_from_zero_Z gt _ _ Hstep mem_used_mb); auto.
    + subst w0. now rewrite Hpk.
    + intros s Hs. now destruct (Hin s Hs) as (_ & _ & ? & _).
  - apply (max_from_zero_Z gt _ _ Hstep disk_used_mb); auto.
    + subst w0. now rewrite Hpk.
    + intros s Hs. now destruct (Hin s Hs) as (_ & _ & _ & ? & _).
  - destruct (max_from_zero_Q gt _ _ Hstep gpu_proc ss w0) as [Hle Hex]; auto.
    + intros w s Hw Hs. now destruct (fold_stats_gpu gt n c0 w s Hw Hs).
    + subst w0. now rewrite Hpk.
    + intros s Hs. now destruct (Hin s Hs) as (_ & _ & _ & _ & ? & _).
    + eexists. split; [reflexivity|]. split.
      * intros s Hs. eauto.
      * destruct Hex as (s & Hs & Heq). eauto.
  - apply (max_from_zero_Z gt _ _ Hstep gpu_mem_used); auto.
    + intros w s Hw Hs. now destruct (fold_stats_gpu gt n c0 w s Hw Hs) as (_ & ? & _).
    + subst w0. now rewrite Hpk.
    + intros s Hs. now destruct (Hin s Hs) as (_ & _ & _ & _ & _ & ? & _).
  - apply (foldl_last gt _ _ Hstep Z mem_total_mb); auto.
  - apply (foldl_last gt _ _ Hstep Z disk_total_mb); auto.
  - apply (foldl_last gt _ _ Hstep Z gpu_mem_total); auto.
    intros w s Hw Hs. now destruct (fold_stats_gpu gt n c0 w s Hw Hs) as (_ & _ & ?).
Qed.

(** The five samples of the scenario, folded into a fresh window of one core. *)
Lemma peak_window_is_maximum_of_samples_witness :
  exists samples final p',
    fold_samples (builtins := Decimal.builtins) scenario_readings
      (fresh_process 1 1 5) = (Ok samples, p') /\
    length samples = 5 /\
    last samples = Some final /\
    is_peak_of 1 samples final (peak_usage_stats (self p')).
Proof.
  apply (peak_window_is_maximum_of_samples (H := Decimal.builtins)
           (fresh_process 1 1 5) scenario_readings).
  - reflexivity.
  - discriminate.
  - cbn. lia.
  - reflexivity.
Defined.

(** The scenario of the specification: five samples of one core at 10, 50,
    30, 90 and 20 percent with 100 MB of 1000 MB in use leave the window
    at 90 percent, 100 MB used and 1000 MB in total. *)
Example scenario_window :
  peak_usage_stats
    (self (snd (fold_samples (builtins := Decimal.builtins) scenario_readings
                  (fresh_process 1 1 5))))
  = window_after_fold.
Proof. reflexivity. Qed.

(** C7, as stated, fails: a sample with one entry on a monitor of two
    cores makes [update_peak_usage] raise [IndexError], and the exception
    leaves the fold. *)
Lemma shape_mismatch_counterexample :
  length (cpu (current_usage_stats (self (sampled_process 2 [50%Q])))) = 1 /\
  num_cpus (self (sampled_process 2 [50%Q])) = 2 /\
  fst (update_peak_usage (sampled_process 2 [50%Q])) = Raise IndexError.
Proof. repeat split. Qed.

(** C7, amended: a sample with at least as many entries as the monitor has
    cores is folded over the first [num_cpus] entries, the others are
    ignored and nothing is raised; a sample with fewer entries makes the
    fold raise [IndexError]. *)
Theorem update_peak_usage_folds_first_cores (p : Process) :
  let m := self p in
  length (cpu (peak_usage_stats m)) = num_cpus m ->
  (num_cpus m <= length (cpu (current_usage_stats m)) ->
     exists p',
       update_peak_usage p = (Ok tt, p') /\
       length (cpu (peak_usage_stats (self p'))) = num_cpus m /\
       cpu (peak_usage_stats (self p')) =
         zip_with max_float (cpu (peak_usage_stats m))
           (take (num_cpus m) (cpu (current_usage_stats m)))) /\
  (length (cpu (current_usage_stats m)) < num_cpus m ->
     exists p', update_peak_usage p = (Raise IndexError, p')).
Proof.
  intros m Hpk. split; intros Hcur.
  - eexists. split; [now apply update_peak_usage_ok|]. cbn. fold m.
    rewrite length_zip_with, <- Hpk, zip_with_take_r. split; [lia | reflexivity].
  - destruct (update_peak_usage_short p Hpk Hcur) as (p' & Hrun & _). eauto.
Qed.

(** A sample of three entries folded into a window of two cores. *)
Lemma update_peak_usage_folds_first_cores_witness :
  exists p',
    update_peak_usage (sampled_process 2 [10%Q; 20%Q; 30%Q]) = (Ok tt, p') /\
    length (cpu (peak_usage_stats (self p'))) = 2 /\
    cpu (peak_usage_stats (self p')) =
      zip_with max_float [0%Q; 0%Q] (take 2 [10%Q; 20%Q; 30%Q]).
Proof.
  apply (update_peak_usage_folds_first_cores
           (sampled_process 2 [10%Q; 20%Q; 30%Q])).
  - reflexivity.
  - vm_compute. lia.
Defined.

(** ** Reset (claim C4) *)

(** C4, as stated, fails: [reset] does not leave the totals untouched. On
    the window above the three totals are 1000, 50 and 8192 before the
    reset and 0 after it. *)
Lemma reset_totals_counterexample :
  mem_total_mb window_after_fold = 1000%Z /\
  disk_total_mb window_after_fold = 50%Z /\
  gpu_mem_total window_after_fold = 8192%Z /\
  mem_total_mb (reset window_after_fold) = 0%Z /\
  disk_total_mb (reset window_after_fold) = 0%Z /\
  gpu_mem_total (reset window_after_fold) = 0%Z.
Proof. repeat split. Qed.

(** C4, amended: after [reset] every field is zero, the used and percent
    fields and the totals alike, and the window has as many cores as
    before: it is the window the constructor builds. *)
Theorem reset_zeroes_every_field (s : UsageStats) :
  reset s = UsageStats_new (length (cpu s)) /\
  length (cpu (reset s)) = length (cpu s) /\
  (forall i x, cpu (reset s) !! i = Some x -> x = 0%Q) /\
  mem_used_mb (reset s) = 0%Z /\ disk_used_mb (reset s) = 0%Z /\
  gpu_proc (reset s) = 0%Q /\ gpu_mem_used (reset s) = 0%Z /\
  mem_total_mb (reset s) = 0%Z /\ disk_total_mb (reset s) = 0%Z /\
  gpu_mem_total (reset s) = 0%Z.
Proof.
  repeat split.
  - cbn. apply length_replicate.
  - intros i x H. cbn in H. apply lookup_replicate in H. tauto.
Qed.

(** ** Start-up (claim C8) *)

(** The loop of [validate_config] answers [False] exactly when a key is
    missing. *)
Lemma validate_keys_false keys (config : gmap string ConfigValue) :
  fst (validate_keys keys config) = false <->
  exists key, key ∈ keys /\ config !! key = None.
Proof.
  induction keys as [|k keys IH]; cbn.
  - split; [discriminate|]. intros (key & Hin & _). inversion Hin.
  - destruct (config !! k) eqn:Hk; cbn.
    + rewrite IH. split.
      * intros (key & Hin & Hnone). exists key. split; [now right | easy].
      * intros (key & Hin & Hnone). exists key. split; [|easy].
        apply elem_of_cons in Hin as [->|Hin]; [congruence | easy].
    + split; [|easy]. intros _. exists k. split; [now left | easy].
Qed.

Lemma validate_keys_true keys (config : gmap string ConfigValue) :
  fst (validate_keys keys config) = true <->
  forall key, key ∈ keys -> is_Some (config !! key).
Proof.
  split.
  - intros Ht key Hin. destruct (config !! key) eqn:Hk; [eauto|].
    assert (fst (validate_keys keys config) = false) as Hf
      by (apply validate_keys_false; eauto).
    congruence.
  - intros Hall. destruct (fst (validate_keys keys config)) eqn:Hv; [easy|].
    apply validate_keys_false in Hv as (key & Hin & Hnone).
    destruct (Hall key Hin) as [v Hv]. congruence.
Qed.

(** [main] with the three keys present is the constructor followed by
    [run]. *)
Lemma main_with_keys `{PyBuiltins} (h : Host) (envs : list TickEnv)
    (config : gmap string ConfigValue) (si ri db : ConfigValue) :
  config !! SAMPLE_INTERVAL = Some si ->
  config !! REPORT_INTERVAL = Some ri ->
  config !! DB_FILE_PATH = Some db ->
  main h envs config =
    (monitor ← VMMonitor_init h si ri db;
     let '(r, p) := run envs {| self := monitor; clock := boot_time h |} in
     Ok (Running r p)).
Proof. intros Hsi Hri Hdb. unfold main, getitem. now rewrite Hsi, Hri, Hdb. Qed.

(** The constructor returns exactly when [nvidia-smi] exits with status
    0; otherwise it raises what the probe raised. *)
Lemma VMMonitor_init_returns_iff (h : Host) (si ri db : ConfigValue) :
  ((exists m, VMMonitor_init h si ri db = Ok m) <->
     exists out, probe_nvidia h = Exited 0 out) /\
  (forall e, VMMonitor_init h si ri db = Raise e ->
     check_gpu_type h = Raise e /\
     (e = FileNotFoundError \/ e = CalledProcessError)).
Proof.
  unfold VMMonitor_init, check_gpu_type, subprocess_run_check.
  destruct (probe_nvidia h) as [rc out|]; cbn.
  - destruct (Z.eqb_spec rc 0) as [->|Hrc]; cbn.
    + split; [split; eauto|]. discriminate.
    + split.
      * split; [intros [m ?]; discriminate|].
        intros [out' [= ? _]]. contradiction.
      * intros e [= <-]. auto.
  - split.
    + split; [intros [m ?]; discriminate | intros [out' ?]; discriminate].
    + intros e [= <-]. auto.
Qed.

(** C8, as stated, fails: with the three required keys present no monitor
    starts on a host without [nvidia-smi]. [validate_config] accepts the
    configuration and [main] is called, but the constructor raises
    [FileNotFoundError] from its GPU probe: nothing is constructed and
    [run] is never entered. *)
Lemma complete_config_counterexample :
  complete_config !! SAMPLE_INTERVAL = Some (CInt 5) /\
  complete_config !! REPORT_INTERVAL = Some (CInt 60) /\
  complete_config !! DB_FILE_PATH = Some (CStr "vm_monitor.db") /\
  fst (validate_config complete_config) = true /\
  script (builtins := Decimal.builtins) cpu_only_host [tick_fine [50%Q]]
    complete_config
  = MainCalled [] (Raise FileNotFoundError).
Proof. repeat split. Qed.

(** C8, amended: [validate_config] returns [False] exactly when a required
    key is missing, and then the script neither constructs nor runs a
    monitor; the script calls [main] exactly when all three required keys
    are present, and the lookups of [main] then never raise [KeyError].
    The presence of the keys is necessary for the monitor to start, not
    sufficient: a monitor is constructed and [run] is entered exactly when
    the keys are present and the GPU probe of the constructor succeeds
    ([nvidia-smi] exits with status 0); with the keys present and the
    probe failing, [main] raises the [FileNotFoundError] or
    [CalledProcessError] of the probe. *)
Theorem monitor_starts_iff_keys_present_and_probe_succeeds
    `{PyBuiltins} (h : Host) (envs : list TickEnv)
    (config : gmap string ConfigValue) :
  (fst (validate_config config) = false <->
     exists key, key ∈ REQUIRED_KEYS /\ config !! key = None) /\
  ((exists printed r, script h envs config = MainCalled printed r) <->
     forall key, key ∈ REQUIRED_KEYS -> is_Some (config !! key)) /\
  ((exists printed, script h envs config = NotStarted printed) <->
     exists key, key ∈ REQUIRED_KEYS /\ config !! key = None) /\
  (forall printed r, script h envs config = MainCalled printed r ->
     exists si ri db,
       config !! SAMPLE_INTERVAL = Some si /\
       config !! REPORT_INTERVAL = Some ri /\
       config !! DB_FILE_PATH = Some db /\
       r = (monitor ← VMMonitor_init h si ri db;
            let '(r, p) := run envs {| self := monitor; clock := boot_time h |} in
            Ok (Running r p))) /\
  ((exists printed r p,
      script h envs config = MainCalled printed (Ok (Running r p))) <->
     (forall key, key ∈ REQUIRED_KEYS -> is_Some (config !! key)) /\
     exists out, probe_nvidia h = Exited 0 out) /\
  (forall printed r p,
     script h envs config = MainCalled printed (Ok (Running r p)) ->
     exists si ri db monitor,
       VMMonitor_init h si ri db = Ok monitor /\
       run envs {| self := monitor; clock := boot_time h |} = (r, p)) /\
  (forall printed e,
     script h envs config = MainCalled printed (Raise e) ->
     check_gpu_type h = Raise e /\
     (e = FileNotFoundError \/ e = CalledProcessError)).
Proof.
  pose proof (validate_keys_false REQUIRED_KEYS config) as Hf.
  pose proof (validate_keys_true REQUIRED_KEYS config) as Ht.
  fold (validate_config config) in Hf, Ht.
  assert (forall printed r, script h envs config = MainCalled printed r ->
            exists si ri db,
              config !! SAMPLE_INTERVAL = Some si /\
              config !! REPORT_INTERVAL = Some ri /\
              config !! DB_FILE_PATH = Some db /\
              r = (monitor ← VMMonitor_init h si ri db;
                   let '(r, p) := run envs {| self := monitor; clock := boot_time h |} in
                   Ok (Running r p))) as Hmain.
  { intros pr r. unfold script.
    destruct (validate_config config) as [[] printed]; [|discriminate].
    intros [= _ <-].
    assert (forall key, key ∈ REQUIRED_KEYS -> is_Some (config !! key)) as Hall
      by now apply Ht.
    destruct (Hall SAMPLE_INTERVAL) as [si Hsi]; [repeat constructor|].
    destruct (Hall REPORT_INTERVAL) as [ri Hri]; [repeat constructor|].
    destruct (Hall DB_FILE_PATH) as [db Hdb]; [repeat constructor|].
    exists si, ri, db. repeat split; try assumption.
    now apply main_with_keys. }
  assert ((exists printed r, script h envs config = MainCalled printed r) <->
          forall key, key ∈ REQUIRED_KEYS -> is_Some (config !! key)) as Hcalled.
  { unfold script. destruct (validate_config config) as [valid printed].
    cbn in Ht. split.
    - intros (pr & r & Heq). destruct valid; [now apply Ht | discriminate].
    - intros Hall. apply Ht in Hall as ->. eauto. }
  split; [exact Hf|]. split; [exact Hcalled|]. split.
  { unfold script. destruct (validate_config config) as [valid printed].
    cbn in Hf. split.
    - intros (pr & Heq). destruct valid; [discriminate | now apply Hf].
    - intros Hmiss. apply Hf in Hmiss as ->. eauto. }
  split; [exact Hmain|]. split; [|split].
  - split.
    + intros (pr & r & p & Heq). split; [apply Hcalled; eauto|].
      destruct (Hmain _ _ Heq) as (si & ri & db & _ & _ & _ & Hr).
      destruct (VMMonitor_init_returns_iff h si ri db) as [[Hret _] _].
      apply Hret.
      destruct (VMMonitor_init h si ri db) as [m|e]; [eauto | discriminate].
    + intros [Hall Hprobe]. apply Hcalled in Hall as (pr & r & Heq).
      destruct (Hmain _ _ Heq) as (si & ri & db & _ & _ & _ & Hr).
      destruct (VMMonitor_init_returns_iff h si ri db) as [[_ Hret] _].
      destruct (Hret Hprobe) as [m Hm].
      rewrite Hm in Hr. cbn in Hr.
      destruct (run envs {| self := m; clock := boot_time h |}) as [r' p'].
      subst r. eauto.
  - intros pr r p Heq.
    destruct (Hmain _ _ Heq) as (si & ri & db & _ & _ & _ & Hr).
    exists si, ri, db.
    destruct (VMMonitor_init h si ri db) as [m|e]; [|discriminate].
    exists m. split; [reflexivity|]. cbn in Hr.
    destruct (run envs {| self := m; clock := boot_time h |}) as [r' p'].
    now injection Hr as <- <-.
  - intros pr e Heq.
    destruct (Hmain _ _ Heq) as (si & ri & db & _ & _ & _ & Hr).
    destruct (VMMonitor_init_returns_iff h si ri db) as [_ Hraise].
    apply Hraise.
    destruct (VMMonitor_init h si ri db) as [m|e']; cbn in Hr.
    + destruct (run envs {| self := m; clock := boot_time h |}). discriminate.
    + now injection Hr as <-.
Qed.

(** On a host with an NVIDIA card and with the three keys the monitor
    starts. *)
Lemma monitor_starts_iff_keys_present_and_probe_succeeds_witness :
  exists printed r p,
    script (builtins := Decimal.builtins) (nvidia_host 1) [tick_fine [50%Q]]
      complete_config
    = MainCalled printed (Ok (Running r p)).
Proof.
  apply (monitor_starts_iff_keys_present_and_probe_succeeds
           (H := Decimal.builtins) (nvidia_host 1) [tick_fine [50%Q]]
           complete_config).
  split.
  - apply (validate_keys_true REQUIRED_KEYS complete_config). reflexivity.
  - exists ""%string. reflexivity.
Defined.

(** ** The loop of [run] (claims C2, C3, C6 and C9) *)

(** *** What each step can change *)

(** Sampling changes the current sample and lets time pass, at least the
    second [cpu_percent] blocks for; it changes nothing else, whether it
    returns or raises. *)
Lemma get_current_usage_frame `{PyBuiltins} (r : Reading) (p : Process) res p' :
  get_current_usage r p = (res, p') ->
  exists d f, p' = elapse d (set_current f p) /\
    ((0 <= nvidia_smi_time r)%Z -> (1000000 <= d)%Z).
Proof.
  unfold get_current_usage, get_current_gpu_usage. run_monad.
  destruct p as [[si ri db gt ng nc pk cur] clk]. cbn.
  destruct gt; cbn.
  - intros [= <- <-]. eexists 1000000%Z, (fun _ => _). split; [reflexivity | lia].
  - destruct (query_nvidia_smi (nvidia_smi r)) as [[[u mu] mt]|e]; cbn;
      intros [= <- <-];
      (eexists (1000000 + nvidia_smi_time r)%Z, (fun _ => _); split;
       [unfold elapse, set_current; cbn; rewrite Z.add_assoc; reflexivity | lia]).
  - intros [= <- <-]. eexists 1000000%Z, (fun _ => _). split; [reflexivity | lia].
Qed.

Lemma update_cpu_loop_frame (l : list nat) :
  forall p res p', for_each l update_peak_cpu p = (res, p') ->
  exists f, p' = set_peak f p.
Proof.
  induction l as [|i l IH]; intros p res p'; cbn.
  - intros [= <- <-]. exists (fun w => w). now rewrite set_peak_id.
  - unfold mbind, M_bind, bind.
    destruct (update_peak_cpu i p) as [[[]|e] p1] eqn:Hi.
    + unfold update_peak_cpu, index in Hi. run_monad.
      destruct (cpu (peak_usage_stats (self p)) !! i) as [a|]; [|discriminate].
      destruct (cpu (current_usage_stats (self p)) !! i) as [b|]; [|discriminate].
      injection Hi as <-. intros Hl. apply IH in Hl as [f ->].
      now exists (fun w => f (with_cpu (<[i := max_float a b]> (cpu w)) w)).
    + unfold update_peak_cpu, index in Hi. run_monad.
      intros [= <- <-]. exists (fun w => w). rewrite set_peak_id.
      destruct (cpu (peak_usage_stats (self p)) !! i); [|congruence].
      destruct (cpu (current_usage_stats (self p)) !! i); congruence.
Qed.

(** The fold changes the peak window and nothing else. *)
Lemma update_peak_usage_frame (p : Process) res p' :
  update_peak_usage p = (res, p') -> exists f, p' = set_peak f p.
Proof.
  unfold update_peak_usage.
  unfold mbind at 1, M_bind at 1, bind at 1. unfold gets at 1.
  unfold mbind at 1, M_bind at 1, bind at 1.
  destruct (for_each _ update_peak_cpu p) as [[[]|e] p1] eqn:Hl;
    apply update_cpu_loop_frame in Hl as [f ->].
  - run_monad. cbn. destruct (gpu_type (self p)); cbn; intros [= <- <-];
      match goal with
      | |- exists _, ?q = _ => now exists (fun _ => peak_usage_stats (self q))
      end.
  - intros [= <- <-]. eauto.
Qed.

(** *** What [log_peak_stats] writes *)

(** [add] on an open session appends to the pending rows. *)
Lemma session_add_ok (row : Row) (p : Process) s :
  db_session (self p) = Some s ->
  session_add row p =
    (Ok tt, set_session
              (Some {| committed := committed s; pending := pending s ++ [row] |}) p).
Proof. intros Hs. unfold session_add. run_monad. now rewrite Hs. Qed.

(** So does a loop of [add]. *)
Lemma for_each_session_add (rows : list Row) :
  forall (p : Process) s,
  db_session (self p) = Some s ->
  for_each rows session_add p =
    (Ok tt, set_session
              (Some {| committed := committed s; pending := pending s ++ rows |}) p).
Proof.
  induction rows as [|row rows IH]; intros p s Hs; cbn [for_each].
  - rewrite app_nil_r. unfold mret, M_ret, ret. f_equal.
    destruct p as [[] ?], s. cbn in Hs. now subst.
  - erewrite bind_ok by (apply session_add_ok; exact Hs).
    erewrite IH by reflexivity. cbn. now rewrite <- app_assoc.
Qed.

(** Without a session the first [add] raises and nothing has changed. *)
Lemma log_peak_stats_no_session (e : TickEnv) (p : Process) :
  db_session (self p) = None ->
  log_peak_stats e p = (Raise AttributeError, p).
Proof.
  intros Hs. unfold log_peak_stats.
  erewrite bind_ok by reflexivity.
  erewrite bind_ok by reflexivity.
  erewrite bind_raise; [reflexivity|].
  unfold session_add. run_monad. now rewrite Hs.
Qed.

(** With a session: the [Sample] row is committed first, the usage rows
    second; a failing commit raises and leaves what was committed before
    it, the rows it was to commit being discarded. *)
Lemma log_peak_stats_spec (e : TickEnv) (p : Process) s :
  db_session (self p) = Some s ->
  let m := self p in
  let id := next_sample_id (committed s) in
  let row := SampleRow id (clock p) (Z.of_nat (num_cpus m)) (num_gpus m) in
  let t1 := commit_time (commit_sample e) in
  let t2 := commit_time (commit_usage e) in
  log_peak_stats e p =
    if commit_ok (commit_sample e) then
      if commit_ok (commit_usage e) then
        (Ok tt,
         elapse (t1 + t2)
           (set_session
              (Some {| committed := (committed s ++ pending s ++ [row])
                                    ++ usage_rows m id;
                       pending := [] |}) p))
      else
        (Raise SQLAlchemyError,
         elapse (t1 + t2)
           (set_session
              (Some {| committed := committed s ++ pending s ++ [row];
                       pending := [] |}) p))
    else
      (Raise SQLAlchemyError,
       elapse t1
         (set_session
            (Some {| committed := committed s; pending := [] |}) p)).
Proof.
  intros Hs m id row t1 t2. subst m id row t1 t2.
  destruct p as [[si ri db gt ng nc pk cur] clk]. cbn in Hs. subst db.
  destruct s as [cm pd]. destruct e as [r [ok1 ct1] [ok2 ct2] over].
  unfold log_peak_stats, session_commit, session_add, usage_rows. run_monad. cbn.
  destruct ok1; [|reflexivity]. cbn.
  erewrite for_each_session_add by reflexivity. cbn.
  destruct (GPUType_eqb gt CPU_ONLY);
    cbn [negb set_session self db_session committed pending];
    destruct ok2;
    cbn [negb set_session self db_session committed pending];
    rewrite ?set_session_elapse, ?set_session_twice, ?elapse_elapse,
      ?app_nil_r, <- ?app_assoc;
    reflexivity.
Qed.

Lemma flush_times_app (l1 l2 : list Row) :
  flush_times (l1 ++ l2) = flush_times l1 ++ flush_times l2.
Proof. apply omap_app. Qed.

Lemma flush_times_cpu_rows (id : Z) (l : list Q) :
  forall k : nat -> nat,
  flush_times (imap (fun i u => CPUUsageRow id (Z.of_nat (k i)) u) l) = [].
Proof.
  induction l as [|x l IH]; intros k; [reflexivity|].
  cbn. apply (IH (fun i => k (S i))).
Qed.

(** The usage rows hold no [Sample] row. *)
Lemma flush_times_usage_rows (m : VMMonitor) (id : Z) :
  flush_times (usage_rows m id) = [].
Proof.
  unfold usage_rows. rewrite !flush_times_app.
  rewrite (flush_times_cpu_rows id _ (fun i => i)).
  now destruct (negb _).
Qed.

(** *** One iteration *)

(** A sample taken and folded: the two steps and what they changed. *)
Lemma sampled_inv `{PyBuiltins} (r : Reading) (p p1 : Process) :
  (get_current_usage r;; update_peak_usage) p = (Ok tt, p1) ->
  exists d f g,
    get_current_usage r p = (Ok tt, elapse d (set_current f p)) /\
    update_peak_usage (elapse d (set_current f p)) = (Ok tt, p1) /\
    p1 = set_peak g (elapse d (set_current f p)) /\
    ((0 <= nvidia_smi_time r)%Z -> (1000000 <= d)%Z).
Proof.
  intros Hsf. apply bind_inv_ok in Hsf as ([] & p0 & Hget & Hupd).
  destruct (get_current_usage_frame r p _ _ Hget) as (d & f & -> & Hd).
  destruct (update_peak_usage_frame _ _ _ Hupd) as (g & ->).
  exists d, f, g. auto.
Qed.

(** Before the deadline nothing is written and the deadline stays. *)
Lemma run_iteration_before_deadline `{PyBuiltins}
    (e : TickEnv) (next_report : Z) (p p1 : Process) (si : Z) :
  sample_interval (self p) = CInt si -> (0 <= si)%Z ->
  (get_current_usage (reading e);; update_peak_usage) p = (Ok tt, p1) ->
  (clock p1 < next_report)%Z ->
  run_iteration e next_report p =
    (Ok next_report, elapse (si * 1000000 + oversleep e) p1) /\
  flushed (elapse (si * 1000000 + oversleep e) p1) = flushed p.
Proof.
  intros Hsi Hpos Hsf Hlt.
  destruct (sampled_inv _ _ _ Hsf) as (d & f & g & Hget & Hupd & Hp1 & _).
  unfold run_iteration.
  erewrite bind_ok by exact Hget.
  erewrite bind_ok by exact Hupd.
  erewrite bind_ok by reflexivity.
  destruct (Z.leb_spec next_report (clock p1)); [lia|].
  erewrite bind_ok by reflexivity.
  erewrite bind_ok by reflexivity.
  subst p1. cbn. rewrite Hsi. cbn.
  destruct (Z.ltb_spec si 0); [lia|]. split; reflexivity.
Qed.

(** C6: a process that wakes up after its report deadline, however late,
    flushes exactly once in that iteration (one [Sample] row is
    committed, stamped with the instant of the check), resets the window
    and sets the next deadline to the clock read after the flush plus
    [report_interval], whatever the old deadline was; no iteration that
    checks before this new deadline flushes again. *)
Theorem stall_flushes_once `{PyBuiltins}
    (e : TickEnv) (next_report : Z) (p p1 : Process) (s : Session) (si ri : Z) :
  db_session (self p) = Some s -> pending s = [] ->
  sample_interval (self p) = CInt si -> (0 <= si)%Z ->
  report_interval (self p) = CInt ri ->
  commit_ok (commit_sample e) = true -> commit_ok (commit_usage e) = true ->
  (get_current_usage (reading e);; update_peak_usage) p = (Ok tt, p1) ->
  (next_report <= clock p1)%Z ->
  let resumed :=
    (clock p1 + commit_time (commit_sample e) + commit_time (commit_usage e))%Z in
  exists p',
    run_iteration e next_report p = (Ok (resumed + ri * 1000000)%Z, p') /\
    flushed p' = flushed p ++ [clock p1] /\
    peak_usage_stats (self p') = reset (peak_usage_stats (self p1)) /\
    (forall e' p1',
       (get_current_usage (reading e');; update_peak_usage) p' = (Ok tt, p1') ->
       (clock p1' < resumed + ri * 1000000)%Z ->
       exists p'',
         run_iteration e' (resumed + ri * 1000000)%Z p'
           = (Ok (resumed + ri * 1000000)%Z, p'') /\
         flushed p'' = flushed p').
Proof.
  intros Hs Hpend Hsi Hpos Hri Hc1 Hc2 Hsf Hdue resumed.
  destruct (sampled_inv _ _ _ Hsf) as (d & f & g & Hget & Hupd & Hp1 & _).
  assert (db_session (self p1) = Some s) as Hs1 by (subst p1; exact Hs).
  pose proof (log_peak_stats_spec e p1 s Hs1) as Hlog. cbn zeta in Hlog.
  rewrite Hc1, Hc2, Hpend in Hlog. cbn [app] in Hlog.
  eexists. split; [|split; [|split]].
  - unfold run_iteration.
    erewrite bind_ok by exact Hget.
    erewrite bind_ok by exact Hupd.
    erewrite bind_ok by reflexivity.
    destruct (Z.leb_spec next_report (clock p1)); [|lia].
    erewrite bind_ok.
    2:{ erewrite bind_ok by exact Hlog.
        erewrite bind_ok by reflexivity.
        erewrite bind_ok by reflexivity.
        erewrite bind_ok by reflexivity.
        erewrite bind_ok.
        2:{ subst p1. cbn. rewrite Hri. reflexivity. }
        reflexivity. }
    erewrite bind_ok by reflexivity.
    subst p1. cbn. rewrite Hsi. cbn.
    destruct (Z.ltb_spec si 0); [lia|].
    unfold mret, M_ret, ret. subst resumed. cbn.
    rewrite !Z.add_assoc. reflexivity.
  - subst p1. unfold flushed. cbn. rewrite Hs.
    now rewrite !flush_times_app, flush_times_usage_rows, app_nil_r.
  - subst p1. reflexivity.
  - intros e' p1' Hsf' Hlt.
    eexists. eapply run_iteration_before_deadline with (si := si); eassumption.
Qed.

(** Sampling raises only on a monitor classified NVIDIA, and then with the
    exception of the query: the failure of nvidia-smi or of the parse. *)
Lemma get_current_usage_raises `{PyBuiltins}
    (r : Reading) (p p1 : Process) (err : Exception) :
  get_current_usage r p = (Raise err, p1) <->
  gpu_type (self p) = NVIDIA_GPU /\
  query_nvidia_smi (nvidia_smi r) = Raise err /\
  p1 = snd (get_current_usage r p).
Proof.
  unfold get_current_usage, get_current_gpu_usage. run_monad.
  destruct p as [[si ri db gt ng nc pk cur] clk]. cbn.
  destruct gt; cbn; try (split; [discriminate | intros (? & _); discriminate]).
  destruct (query_nvidia_smi (nvidia_smi r)) as [[[u mu] mt]|e]; cbn.
  - split; [discriminate | intros (_ & ? & _); discriminate].
  - split.
    + intros [= <- <-]. auto.
    + intros (_ & [= <-] & ->). reflexivity.
Qed.

(** C3, as stated, fails: the process does terminate. A monitor whose
    second sample cannot be parsed, or whose nvidia-smi exits with an
    error, leaves [run] with the exception; the third iteration never
    runs. *)
Lemma sampling_failure_counterexample :
  fst (run (builtins := Decimal.builtins)
         [tick_fine [10%Q]; tick_unparsable [50%Q]; tick_fine [20%Q]]
         (fresh_process 1 5 60)) = Raise ValueError /\
  fst (run (builtins := Decimal.builtins)
         [tick_fine [10%Q]; tick_smi_failed [50%Q]; tick_fine [20%Q]]
         (fresh_process 1 5 60)) = Raise CalledProcessError.
Proof. split; reflexivity. Qed.

(** C3, amended: when the sampling call of an iteration raises, nothing is
    folded and nothing is written, the peak window is left as it was, and
    the exception leaves [run]: no later iteration is executed. *)
Theorem sampling_failure_leaves_run `{PyBuiltins}
    (e : TickEnv) (next_report : Z) (p p1 : Process) (err : Exception) :
  get_current_usage (reading e) p = (Raise err, p1) ->
  run_iteration e next_report p = (Raise err, p1) /\
  (forall envs, run_loop (e :: envs) next_report p = (Raise err, p1)) /\
  peak_usage_stats (self p1) = peak_usage_stats (self p) /\
  db_session (self p1) = db_session (self p).
Proof.
  intros Hget.
  assert (run_iteration e next_report p = (Raise err, p1)) as Hrun.
  { unfold run_iteration. now erewrite bind_raise by exact Hget. }
  split; [exact Hrun|]. split.
  - intros envs. cbn. now erewrite bind_raise by exact Hrun.
  - destruct (get_current_usage_frame _ _ _ _ Hget) as (d & f & -> & _).
    split; reflexivity.
Qed.

(** The iteration whose sample cannot be parsed, on a fresh monitor. *)
Lemma sampling_failure_leaves_run_witness :
  let p := fresh_process 1 5 60 in
  let e := tick_unparsable [50%Q] in
  let p1 := snd (get_current_usage (builtins := Decimal.builtins) (reading e) p) in
  run_iteration (builtins := Decimal.builtins) e 60000000 p
    = (Raise ValueError, p1) /\
  (forall envs,
     run_loop (builtins := Decimal.builtins) (e :: envs) 60000000 p
       = (Raise ValueError, p1)) /\
  peak_usage_stats (self p1) = peak_usage_stats (self p) /\
  db_session (self p1) = db_session (self p).
Proof.
  intros p e p1.
  apply (sampling_failure_leaves_run (H := Decimal.builtins) e 60000000 p p1
           ValueError).
  reflexivity.
Defined.

(** C2, as stated, fails: a failed flush is not retried and the deadline
    does not advance. The first iteration ends with a stall of 240
    seconds; in the second the deadline is reached and the commit fails:
    the exception leaves [run] and the third iteration never runs. *)
Lemma flush_failure_counterexample :
  fst (run (builtins := Decimal.builtins)
         [tick_stalled [10%Q] 240000000; tick_commit_failing [50%Q];
          tick_fine [20%Q]]
         (fresh_process 1 5 60)) = Raise SQLAlchemyError.
Proof. reflexivity. Qed.

(** After a sample that was taken and folded and with the deadline
    reached, the iteration is the flush followed by the sleep. *)
Lemma run_iteration_due `{PyBuiltins}
    (e : TickEnv) (next_report : Z) (p p1 : Process) :
  (get_current_usage (reading e);; update_peak_usage) p = (Ok tt, p1) ->
  (next_report <= clock p1)%Z ->
  run_iteration e next_report p =
    (next_report ←
       (log_peak_stats e;;
        modify (set_peak reset);;
        now' ← datetime_now;
        p ← get;
        d ← lift (timedelta_seconds (report_interval (self p)));
        mret (now' + d)%Z);
     p ← get;
     time_sleep (sample_interval (self p)) (oversleep e);;
     mret next_report) p1.
Proof.
  intros Hsf Hdue.
  destruct (sampled_inv _ _ _ Hsf) as (d & f & g & Hget & Hupd & Hp1 & _).
  unfold run_iteration.
  erewrite bind_ok by exact Hget.
  erewrite bind_ok by exact Hupd.
  erewrite bind_ok by reflexivity.
  now destruct (Z.leb_spec next_report (clock p1)); [|lia].
Qed.

(** The flush changes the session and lets time pass; it returns only
    when both commits succeeded. *)
Lemma log_peak_stats_frame (e : TickEnv) (p : Process) res p' :
  log_peak_stats e p = (res, p') ->
  exists d db, p' = elapse d (set_session db p) /\
    ((0 <= commit_time (commit_sample e))%Z ->
     (0 <= commit_time (commit_usage e))%Z -> (0 <= d)%Z) /\
    (res = Ok tt ->
     commit_ok (commit_sample e) = true /\ commit_ok (commit_usage e) = true).
Proof.
  destruct (db_session (self p)) as [s|] eqn:Hs.
  - rewrite (log_peak_stats_spec e p s Hs). cbn zeta.
    destruct (commit_ok (commit_sample e)), (commit_ok (commit_usage e));
      intros [= <- <-]; eexists _, _;
      (split; [reflexivity | split; [lia | easy]]).
  - rewrite (log_peak_stats_no_session e p Hs). intros [= <- <-].
    exists 0%Z, None. rewrite <- Hs, set_session_same, elapse_0.
    split; [reflexivity | split; [lia | discriminate]].
Qed.

(** C2, amended: when the deadline is reached and [log_peak_stats] raises,
    the exception leaves [run]: the window is not reset, and no later
    iteration retries it or computes a deadline. The window is reset only
    in an iteration in which [log_peak_stats] has returned, both commits
    having succeeded. *)
Theorem flush_failure_leaves_run `{PyBuiltins}
    (e : TickEnv) (next_report : Z) (p p1 : Process) :
  (get_current_usage (reading e);; update_peak_usage) p = (Ok tt, p1) ->
  (next_report <= clock p1)%Z ->
  (forall err p2,
     log_peak_stats e p1 = (Raise err, p2) ->
     run_iteration e next_report p = (Raise err, p2) /\
     (forall envs, run_loop (e :: envs) next_report p = (Raise err, p2)) /\
     peak_usage_stats (self p2) = peak_usage_stats (self p1)) /\
  (forall next_report' p',
     run_iteration e next_report p = (Ok next_report', p') ->
     commit_ok (commit_sample e) = true /\
     commit_ok (commit_usage e) = true /\
     (exists p2, log_peak_stats e p1 = (Ok tt, p2)) /\
     peak_usage_stats (self p') = reset (peak_usage_stats (self p1))).
Proof.
  intros Hsf Hdue. pose proof (run_iteration_due e next_report p p1 Hsf Hdue) as Hrun.
  split.
  - intros err p2 Hlog.
    assert (run_iteration e next_report p = (Raise err, p2)) as Hraise.
    { rewrite Hrun. erewrite bind_raise; [reflexivity|].
      now erewrite bind_raise by exact Hlog. }
    split; [exact Hraise|]. split.
    + intros envs. cbn. now erewrite bind_raise by exact Hraise.
    + now destruct (log_peak_stats_frame _ _ _ _ Hlog) as (d & db & -> & _).
  - intros nr' p' Hok. rewrite Hrun in Hok.
    apply bind_inv_ok in Hok as (nr2 & p3 & Hflush & Hrest).
    apply bind_inv_ok in Hflush as ([] & p2 & Hlog & Hreset).
    destruct (log_peak_stats_frame _ _ _ _ Hlog) as (d & db & Hp2 & _ & Hc).
    destruct (Hc eq_refl) as [Hc1 Hc2].
    split; [exact Hc1|]. split; [exact Hc2|]. split; [eauto|].
    apply bind_inv_ok in Hreset as ([] & p4 & Hmod & Hdl).
    injection Hmod as <-.
    apply bind_inv_ok in Hdl as (now' & p5 & Hnow & Hdl). injection Hnow as _ <-.
    apply bind_inv_ok in Hdl as (q & p6 & Hq & Hdl). injection Hq as _ <-.
    apply bind_inv_ok in Hdl as (dl & p7 & Hdl & Hret).
    assert (p7 = set_peak reset p2) as -> by (unfold lift in Hdl; congruence).
    injection Hret as _ <-.
    apply bind_inv_ok in Hrest as (q' & p8 & Hq' & Hsleep). injection Hq' as _ <-.
    apply bind_inv_ok in Hsleep as ([] & p9 & Hsleep & Hret). injection Hret as _ <-.
    unfold time_sleep in Hsleep.
    destruct (sample_interval _) as [n|]; [|discriminate].
    destruct (n <? 0)%Z; [discriminate|]. injection Hsleep as <-.
    subst p2. reflexivity.
Qed.

(** The iteration whose first commit fails, on a process past its deadline. *)
Lemma flush_failure_leaves_run_witness :
  let e := tick_commit_failing [50%Q] in
  let p1 := snd ((get_current_usage (builtins := Decimal.builtins) (reading e);;
                  update_peak_usage) stalled_process) in
  let p2 := snd (log_peak_stats e p1) in
  run_iteration (builtins := Decimal.builtins) e 60000000 stalled_process
    = (Raise SQLAlchemyError, p2) /\
  (forall envs,
     run_loop (builtins := Decimal.builtins) (e :: envs) 60000000 stalled_process
       = (Raise SQLAlchemyError, p2)) /\
  peak_usage_stats (self p2) = peak_usage_stats (self p1).
Proof.
  intros e p1 p2.
  apply (flush_failure_leaves_run (H := Decimal.builtins) e 60000000
           stalled_process p1).
  - reflexivity.
  - vm_compute. discriminate.
  - reflexivity.
Defined.

(** A process that wakes up 180 seconds after its deadline of 60 seconds:
    one flush, stamped 241.02 s; the next deadline is 301.022 s. *)
Lemma stall_flushes_once_witness :
  exists p',
    run_iteration (builtins := Decimal.builtins) (tick_fine [50%Q]) 60000000
      stalled_process = (Ok 301022000%Z, p') /\
    flushed p' = [241020000%Z] /\
    peak_usage_stats (self p') = UsageStats_new 1.
Proof.
  destruct (stall_flushes_once (H := Decimal.builtins) (tick_fine [50%Q]) 60000000
              stalled_process
              (snd ((get_current_usage (builtins := Decimal.builtins)
                       (reading (tick_fine [50%Q]));;
                     update_peak_usage) stalled_process))
              empty_session 5 60)
    as (p' & Hrun & Hflushed & Hpeak & _).
  - reflexivity.
  - reflexivity.
  - reflexivity.
  - lia.
  - reflexivity.
  - reflexivity.
  - reflexivity.
  - reflexivity.
  - vm_compute. discriminate.
  - exists p'. split; [exact Hrun|]. split; [exact Hflushed | exact Hpeak].
Defined.

(** C9, as stated, fails: the second iteration does not start
    [sample_interval] after the first. With a sample interval of 5
    seconds and no flush due, the iteration that starts at instant 0 ends,
    and the next one starts, at 6.02 seconds: one second of
    [cpu_percent], 20 ms of nvidia-smi and 5 seconds of sleep. *)
Lemma cadence_counterexample :
  sample_interval (self (fresh_process 1 5 3600)) = CInt 5 /\
  clock (fresh_process 1 5 3600) = 0%Z /\
  clock (snd (run_iteration (builtins := Decimal.builtins) (tick_fine [10%Q])
                3600000000 (fresh_process 1 5 3600))) = 6020000%Z.
Proof. repeat split. Qed.

(** C9, amended: an iteration sleeps for [sample_interval] after its work
    (sampling, fold and a flush when one is due) has ended; no clock is
    read at its start. The time from the start of an iteration to the
    start of the next is the duration of the work, at least the second
    that [cpu_percent] blocks for, plus [sample_interval] plus whatever
    the sleep oversleeps: the cadence drifts by the work of every
    iteration. *)
Theorem iteration_takes_work_plus_sleep `{PyBuiltins}
    (e : TickEnv) (next_report next_report' : Z) (p p' : Process) (si : Z) :
  sample_interval (self p) = CInt si ->
  (0 <= nvidia_smi_time (reading e))%Z ->
  (0 <= commit_time (commit_sample e))%Z ->
  (0 <= commit_time (commit_usage e))%Z ->
  run_iteration e next_report p = (Ok next_report', p') ->
  exists work,
    (1000000 <= work)%Z /\
    clock p' = (clock p + work + si * 1000000 + oversleep e)%Z.
Proof.
  intros Hsi Hsmi Hc1 Hc2 Hrun. unfold run_iteration in Hrun.
  apply bind_inv_ok in Hrun as ([] & p0 & Hget & Hrun).
  destruct (get_current_usage_frame _ _ _ _ Hget) as (d & f & -> & Hd).
  apply bind_inv_ok in Hrun as ([] & p1 & Hupd & Hrun).
  destruct (update_peak_usage_frame _ _ _ Hupd) as (g & ->).
  apply bind_inv_ok in Hrun as (now & p1 & Hnow & Hrun). injection Hnow as <- <-.
  apply bind_inv_ok in Hrun as (nr & p2 & Hbranch & Hrun).
  assert (exists d2 h db, (0 <= d2)%Z /\
            p2 = set_peak h (elapse d2 (set_session db
                   (set_peak g (elapse d (set_current f p)))))) as
    (d2 & h & db & Hd2 & ->).
  { destruct (_ <=? _)%Z.
    - apply bind_inv_ok in Hbranch as ([] & p3 & Hlog & Hbranch).
      destruct (log_peak_stats_frame _ _ _ _ Hlog) as (d2 & db & -> & Hpos & _).
      apply bind_inv_ok in Hbranch as ([] & p4 & Hmod & Hbranch).
      injection Hmod as <-.
      apply bind_inv_ok in Hbranch as (now' & p5 & Hnow & Hbranch).
      injection Hnow as _ <-.
      apply bind_inv_ok in Hbranch as (q & p6 & Hq & Hbranch).
      injection Hq as _ <-.
      apply bind_inv_ok in Hbranch as (dl & p7 & Hdl & Hret).
      injection Hret as _ <-. unfold lift in Hdl. injection Hdl as _ <-.
      exists d2, reset, db. split; [auto | reflexivity].
    - injection Hbranch as _ <-.
      exists 0%Z, (fun w => w),
        (db_session (self (set_peak g (elapse d (set_current f p))))).
      split; [lia|].
      now rewrite set_session_same, elapse_0, set_peak_id. }
  apply bind_inv_ok in Hrun as (q & p3 & Hq & Hrun). injection Hq as <- <-.
  apply bind_inv_ok in Hrun as ([] & p4 & Hsleep & Hret). injection Hret as _ <-.
  cbn in Hsleep. rewrite Hsi in Hsleep. cbn in Hsleep.
  destruct (si <? 0)%Z; [discriminate|]. injection Hsleep as <-.
  exists (d + d2)%Z. split; [lia|]. cbn. lia.
Qed.

(** The iteration of the counterexample: 1.02 seconds of work. *)
Lemma iteration_takes_work_plus_sleep_witness :
  exists work,
    (1000000 <= work)%Z /\
    clock (snd (run_iteration (builtins := Decimal.builtins) (tick_fine [10%Q])
                  3600000000 (fresh_process 1 5 3600)))
    = (0 + work + 5 * 1000000 + 0)%Z.
Proof.
  apply (iteration_takes_work_plus_sleep (H := Decimal.builtins)
           (tick_fine [10%Q]) 3600000000 3600000000 (fresh_process 1 5 3600) _ 5).
  - reflexivity.
  - vm_compute. discriminate.
  - vm_compute. discriminate.
  - vm_compute. discriminate.
  - reflexivity.
Defined.

(** ** GPU detection (claim C5) *)

(** [check_gpu_type] answers [NVIDIA_GPU] or raises: the two other
    classifications are out of its reach. *)
Lemma check_gpu_type_nvidia_or_raise (h : Host) :
  check_gpu_type h = Ok NVIDIA_GPU \/ exists e, check_gpu_type h = Raise e.
Proof.
  unfold check_gpu_type.
  destruct (subprocess_run_check (probe_nvidia h)) as [nv|e]; cbn.
  - now left.
  - right. now exists e.
Qed.

(** The legacy probe answers on every host: NVIDIA or no GPU, and no GPU
    on the two hosts without [nvidia-smi]. *)
Lemma legacy_check_gpu_type_answers (h : Host) :
  Legacy.check_gpu_type h = Ok (Some NVIDIA_GPU) \/
  Legacy.check_gpu_type h = Ok None.
Proof.
  unfold Legacy.check_gpu_type, Legacy.has_nvidia_gpu, subprocess_run_check.
  destruct (probe_nvidia h) as [rc out|]; [|now right].
  destruct (rc =? 0)%Z; [now left | now right].
Qed.

Example legacy_check_gpu_type_without_nvidia :
  Legacy.check_gpu_type amd_host = Ok None /\
  Legacy.check_gpu_type cpu_only_host = Ok None.
Proof. split; reflexivity. Qed.

(** On a host with an NVIDIA card the constructor returns the monitor of
    [fresh_process]. *)
Example VMMonitor_init_on_nvidia_host (n : nat) (si ri : Z) :
  VMMonitor_init (nvidia_host n) (CInt si) (CInt ri) (CStr "vm_monitor.db")
  = Ok (self (fresh_process n si ri)).
Proof. reflexivity. Qed.

(** C5: the code at the failing inputs. Where the claim has the probe
    answer AMD, respectively none, the constructor raises
    [FileNotFoundError]: no monitor exists, in particular none classified
    [AMD_GPU] or [CPU_ONLY]. *)
Theorem check_gpu_type_raises_without_nvidia :
  check_gpu_type amd_host = Raise FileNotFoundError /\
  check_gpu_type cpu_only_host = Raise FileNotFoundError /\
  VMMonitor_init amd_host (CInt 5) (CInt 60) (CStr "vm_monitor.db")
    = Raise FileNotFoundError /\
  VMMonitor_init cpu_only_host (CInt 5) (CInt 60) (CStr "vm_monitor.db")
    = Raise FileNotFoundError.
Proof. repeat split. Qed.

(** *** What [run] maintains *)

Section Maintains.

Variable R : Process -> Process -> Prop.
Hypothesis R_refl : forall p, R p p.
Hypothesis R_trans : forall p1 p2 p3, R p1 p2 -> R p2 p3 -> R p1 p3.

Lemma maintains_bind {A B} (m : M Process A) (k : A -> M Process B) :
  maintains R m -> (forall a, maintains R (k a)) -> maintains R (m ≫= k).
Proof.
  intros Hm Hk p res p'. unfold mbind, M_bind, bind.
  destruct (m p) as [[a|e] p1] eqn:Hmp.
  - intros Hka. eapply R_trans; [eapply Hm | eapply Hk]; eassumption.
  - intros [= <- <-]. eapply Hm; eassumption.
Qed.

(** A computation that leaves the state alone maintains [R]. *)
Lemma maintains_pure {A} (m : M Process A) :
  (forall p, snd (m p) = p) -> maintains R m.
Proof.
  intros Hm p res p' Hp. specialize (Hm p). rewrite Hp in Hm. cbn in Hm.
  subst. apply R_refl.
Qed.

Hypothesis R_sample : forall d f p, R p (elapse d (set_current f p)).
Hypothesis R_fold : forall g p, R p (set_peak g p).
Hypothesis R_sleep : forall d p, R p (elapse d p).
Hypothesis R_log : forall e, maintains R (log_peak_stats e).

Lemma maintains_run_iteration `{PyBuiltins} (e : TickEnv) (next_report : Z) :
  maintains R (run_iteration e next_report).
Proof.
  unfold run_iteration.
  apply maintains_bind.
  { intros p res p' Hp.
    destruct (get_current_usage_frame _ _ _ _ Hp) as (d & f & -> & _).
    apply R_sample. }
  intros _. apply maintains_bind.
  { intros p res p' Hp. destruct (update_peak_usage_frame _ _ _ Hp) as (g & ->).
    apply R_fold. }
  intros _. apply maintains_bind; [now apply maintains_pure|].
  intros now. apply maintains_bind.
  { destruct (_ <=? _)%Z; [|now apply maintains_pure].
    apply maintains_bind; [apply R_log|]. intros _.
    apply maintains_bind; [intros p res p' [= <- <-]; apply R_fold|]. intros _.
    apply maintains_bind; [now apply maintains_pure|]. intros now'.
    apply maintains_bind; [now apply maintains_pure|]. intros q.
    apply maintains_bind; [now apply maintains_pure|]. intros d.
    now apply maintains_pure. }
  intros nr. apply maintains_bind; [now apply maintains_pure|]. intros q.
  apply maintains_bind; [|intros _; now apply maintains_pure].
  unfold time_sleep. destruct (sample_interval (self q)) as [n|].
  - destruct (n <? 0)%Z; [now apply maintains_pure|].
    intros p res p' [= <- <-]. apply R_sleep.
  - now apply maintains_pure.
Qed.

Lemma maintains_run `{PyBuiltins} (envs : list TickEnv) : maintains R (run envs).
Proof.
  unfold run.
  apply maintains_bind; [now apply maintains_pure|]. intros now.
  apply maintains_bind; [now apply maintains_pure|]. intros q.
  apply maintains_bind; [now apply maintains_pure|]. intros d.
  generalize (now + d)%Z. induction envs as [|e envs IH]; intros nr; cbn.
  - now apply maintains_pure.
  - apply maintains_bind; [apply maintains_run_iteration | apply IH].
Qed.

End Maintains.

(** The classification made at construction is never changed: whatever
    [run] does, and however it ends, the monitor has the GPU type and the
    counts it started with. *)
Lemma run_keeps_classification `{PyBuiltins} (envs : list TickEnv) :
  maintains same_classification (run envs).
Proof.
  apply maintains_run.
  - intros p. repeat split.
  - intros p1 p2 p3 (H1 & H2 & H3) (H4 & H5 & H6).
    repeat split; congruence.
  - intros d f p. repeat split.
  - intros g p. repeat split.
  - intros d p. repeat split.
  - intros e p res p' Hlog.
    destruct (log_peak_stats_frame _ _ _ _ Hlog) as (d & db & -> & _).
    unfold same_classification. cbn. tauto.
Qed.

(** The usage rows of a monitor classified [CPU_ONLY] hold no GPU row. *)
Lemma no_gpu_usage_rows (m : VMMonitor) (id : Z) :
  gpu_type m = CPU_ONLY ->
  forallb (fun r => negb (is_gpu_row r)) (usage_rows m id) = true.
Proof.
  intros Hgt. unfold usage_rows. rewrite Hgt. cbn [GPUType_eqb negb].
  rewrite !forallb_app. cbn [forallb is_gpu_row negb andb]. rewrite andb_true_r.
  generalize (cpu (peak_usage_stats m)). intros l.
  enough (forall (k : nat -> nat),
            forallb (fun r => negb (is_gpu_row r))
              (imap (fun i u => CPUUsageRow id (Z.of_nat (k i)) u) l) = true) as Hk
    by apply (Hk (fun i => i)).
  induction l as [|x l IH]; intros k; [reflexivity|]. cbn. apply (IH (fun i => k (S i))).
Qed.

(** A monitor classified [CPU_ONLY] never writes a [GPUUsage] row. *)
Lemma cpu_only_writes_no_gpu_row `{PyBuiltins} (envs : list TickEnv) :
  maintains cpu_only_stays_clean (run envs).
Proof.
  apply maintains_run.
  - intros p Hgt Hclean. auto.
  - intros p1 p2 p3 H12 H23 Hgt Hclean. destruct (H12 Hgt Hclean). auto.
  - intros d f p Hgt Hclean. split; [exact Hgt | exact Hclean].
  - intros g p Hgt Hclean. split; [exact Hgt | exact Hclean].
  - intros d p Hgt Hclean. split; [exact Hgt | exact Hclean].
  - intros e p res p' Hlog Hgt Hclean. unfold no_gpu_rows in *.
    destruct (db_session (self p)) as [s|] eqn:Hs.
    + rewrite (log_peak_stats_spec e p s Hs) in Hlog. cbn zeta in Hlog.
      pose proof (no_gpu_usage_rows (self p) (next_sample_id (committed s)) Hgt) as Hrows.
      rewrite forallb_app in Hclean. apply andb_prop in Hclean as [Hc Hp].
      destruct (commit_ok (commit_sample e)), (commit_ok (commit_usage e));
        injection Hlog as _ <-; cbn [self set_session elapse db_session gpu_type];
        (split; [exact Hgt|]);
        cbn [committed pending];
        rewrite ?forallb_app; cbn [forallb is_gpu_row negb andb];
        rewrite ?Hc, ?Hp, ?Hrows; reflexivity.
    + rewrite (log_peak_stats_no_session e p Hs) in Hlog. injection Hlog as _ <-.
      now rewrite Hs.
Qed.

(** ** The date range query (claim C10) *)

Module APIFacts.

Import API Stored.

(** The first instant of a day is before or at [t] exactly when the day is
    before or on the day of [t]. *)
Lemma start_of_day_le (d t : datetime) :
  valid_time t = true ->
  datetime_le (replace d 0 0 0 0) t = date_le d t.
Proof.
  unfold valid_time, datetime_le, date_le, datetime_compare, replace. cbn -[Z.compare].
  intros Hv. repeat (apply andb_prop in Hv as [Hv ?]).
  repeat match goal with Hb : (_ <=? _)%Z = true |- _ => apply Z.leb_le in Hb end.
  destruct (Z.compare_spec (year d) (year t)); cbn -[Z.compare]; try reflexivity.
  destruct (Z.compare_spec (month d) (month t)); cbn -[Z.compare]; try reflexivity.
  destruct (Z.compare_spec (day d) (day t)); cbn -[Z.compare]; try reflexivity.
  destruct (Z.compare_spec 0 (hour t)); cbn -[Z.compare]; try reflexivity; [|exfalso; lia].
  destruct (Z.compare_spec 0 (minute t)); cbn -[Z.compare]; try reflexivity; [|exfalso; lia].
  destruct (Z.compare_spec 0 (second t)); cbn -[Z.compare]; try reflexivity; [|exfalso; lia].
  destruct (Z.compare_spec 0 (microsecond t)); cbn -[Z.compare]; try reflexivity; exfalso; lia.
Qed.

(** [t] is before or at the last instant of a day exactly when the day of
    [t] is before or on that day. *)
Lemma le_end_of_day (d t : datetime) :
  valid_time t = true ->
  datetime_le t (replace d 23 59 59 999999) = date_le t d.
Proof.
  unfold valid_time, datetime_le, date_le, datetime_compare, replace. cbn -[Z.compare].
  intros Hv. repeat (apply andb_prop in Hv as [Hv ?]).
  repeat match goal with Hb : (_ <=? _)%Z = true |- _ => apply Z.leb_le in Hb end.
  destruct (Z.compare_spec (year t) (year d)); cbn -[Z.compare]; try reflexivity.
  destruct (Z.compare_spec (month t) (month d)); cbn -[Z.compare]; try reflexivity.
  destruct (Z.compare_spec (day t) (day d)); cbn -[Z.compare]; try reflexivity.
  destruct (Z.compare_spec (hour t) 23); cbn -[Z.compare]; try reflexivity; [|exfalso; lia].
  destruct (Z.compare_spec (minute t) 59); cbn -[Z.compare]; try reflexivity; [|exfalso; lia].
  destruct (Z.compare_spec (second t) 59); cbn -[Z.compare]; try reflexivity; [|exfalso; lia].
  destruct (Z.compare_spec (microsecond t) 999999); cbn -[Z.compare]; try reflexivity; exfalso; lia.
Qed.

(** C10: for two ISO date strings the query answers with exactly the
    stored samples whose timestamp lies between [get_start_date] of the
    first and [get_end_date] of the second, both bounds included, in the
    order they are stored. [get_start_date] is the first instant
    (00:00:00.000000) of its day and [get_end_date] the last
    (23:59:59.999999) of its day, so that a stored sample is returned
    exactly when its calendar day lies between the two days asked for,
    whatever its time of day. *)
Theorem query_returns_the_days_asked `{PyDatetime}
    (stored : list Sample) (start_str end_str : string) (ds de : datetime) :
  fromisoformat start_str = Some ds ->
  fromisoformat end_str = Some de ->
  missing (Some start_str) = false ->
  missing (Some end_str) = false ->
  forallb (fun s => valid_time (timestamp s)) stored = true ->
  let start_date := replace ds 0 0 0 0 in
  let end_date := replace de 23 59 59 999999 in
  get_start_date start_str = Ok start_date /\
  get_end_date end_str = Ok end_date /\
  (exists data,
     get_usage_data (Some stored) (Some start_str) (Some end_str)
       = Success data (length data) /\
     data = get_data_in_range stored start_date end_date /\
     data = map sample_data
              (List.filter
                 (fun s => datetime_le start_date (timestamp s)
                           && datetime_le (timestamp s) end_date) stored) /\
     (forall x, In x data <->
        exists s, In s stored /\ x = sample_data s /\
          datetime_le start_date (timestamp s) = true /\
          datetime_le (timestamp s) end_date = true)) /\
  (forall s, In s stored ->
     (in_range start_date end_date s = true <->
      date_le ds (timestamp s) = true /\ date_le (timestamp s) de = true)).
Proof.
  intros Hds Hde Hms Hme Hvalid start_date end_date.
  assert (get_start_date start_str = Ok start_date) as Hstart
    by (unfold get_start_date; now rewrite Hds).
  assert (get_end_date end_str = Ok end_date) as Hend
    by (unfold get_end_date; now rewrite Hde).
  split; [exact Hstart|]. split; [exact Hend|]. split.
  - eexists. split; [|split; [reflexivity|split; [reflexivity|]]].
    + unfold get_usage_data. rewrite Hms, Hme. cbn [orb].
      change (default ""%string (Some start_str)) with start_str.
      change (default ""%string (Some end_str)) with end_str.
      now rewrite Hstart, Hend.
    + intros x. unfold get_data_in_range. rewrite in_map_iff. split.
      * intros (s & <- & Hin). apply filter_In in Hin as [Hin Hr].
        apply andb_prop in Hr as [? ?]. eauto 6.
      * intros (s & Hin & -> & H1 & H2). exists s. split; [reflexivity|].
        apply filter_In. split; [exact Hin|]. unfold in_range.
        now rewrite H1, H2.
  - intros s Hin.
    assert (valid_time (timestamp s) = true) as Hv
      by (eapply forallb_forall in Hvalid; eauto).
    unfold in_range, start_date, end_date.
    rewrite (start_of_day_le ds _ Hv), (le_end_of_day de _ Hv).
    apply andb_true_iff.
Qed.

(** The day 2025-10-29 asked of the store of four samples: the two samples
    of that day, the first and the last instant of it. *)
Lemma query_returns_the_days_asked_witness :
  exists data,
    get_usage_data (dt := Iso.builtins) (Some stored_samples)
      (Some "2025-10-29"%string) (Some "2025-10-29"%string)
      = Success data (length data) /\
    data = map (sample_data (dt := Iso.builtins))
             [at_ 2025 10 29 0 0 0 0; at_ 2025 10 29 23 59 59 999999].
Proof.
  destruct (query_returns_the_days_asked (H := Iso.builtins) stored_samples
              "2025-10-29" "2025-10-29"
              {| year := 2025; month := 10; day := 29; hour := 0;
                 minute := 0; second := 0; microsecond := 0 |}
              {| year := 2025; month := 10; day := 29; hour := 0;
                 minute := 0; second := 0; microsecond := 0 |})
    as (_ & _ & (data & Hget & Hdata & _) & _); try reflexivity.
  exists data. split; [exact Hget|]. rewrite Hdata. reflexivity.
Defined.

End APIFacts.

(** * Further properties of the code *)

(** ** More on the fold: [update_peak_usage] *)

(** A fold that returns had an entry of the sample for every core. *)
Lemma update_peak_usage_ok_inv (p p' : Process) :
  let m := self p in
  length (cpu (peak_usage_stats m)) = num_cpus m ->
  update_peak_usage p = (Ok tt, p') ->
  num_cpus m <= length (cpu (current_usage_stats m)) /\
  p' = set_peak (fun w => fold_stats (gpu_type m) w (current_usage_stats m)) p.
Proof.
  intros m Hpk Hrun.
  destruct (Nat.le_gt_cases (num_cpus m) (length (cpu (current_usage_stats m))))
    as [Hle|Hlt].
  - split; [exact Hle|]. rewrite (update_peak_usage_ok p Hpk Hle) in Hrun.
    now injection Hrun.
  - destruct (update_peak_usage_short p Hpk Hlt) as (q & Hq & _).
    rewrite Hq in Hrun. discriminate.
Qed.

Lemma max_int_bounds (a b : Z) : (a <= max_int a b)%Z /\ (b <= max_int a b)%Z.
Proof. rewrite max_int_spec. lia. Qed.

(** The fold never lowers a peak: after [update_peak_usage] has returned,
    every core's entry and every used field of the window is at least
    what it was and, per core and for memory and disk, at least the
    sample's. *)
Theorem update_peak_usage_never_lowers (p p' : Process) :
  let w := peak_usage_stats (self p) in
  let s := current_usage_stats (self p) in
  let w' := peak_usage_stats (self p') in
  length (cpu w) = num_cpus (self p) ->
  update_peak_usage p = (Ok tt, p') ->
  (forall i x, cpu w !! i = Some x ->
     exists y z, cpu s !! i = Some y /\ cpu w' !! i = Some z /\
       (x <= z)%Q /\ (y <= z)%Q) /\
  (mem_used_mb w <= mem_used_mb w')%Z /\ (mem_used_mb s <= mem_used_mb w')%Z /\
  (disk_used_mb w <= disk_used_mb w')%Z /\ (disk_used_mb s <= disk_used_mb w')%Z /\
  (gpu_proc w <= gpu_proc w')%Q /\ (gpu_mem_used w <= gpu_mem_used w')%Z.
Proof.
  intros w s w' Hpk Hrun.
  destruct (update_peak_usage_ok_inv p p' Hpk Hrun) as [Hle ->].
  subst w'. cbn. fold w s. split_and!.
  - intros i x Hx.
    destruct (lookup_lt_is_Some_2 (cpu s) i) as [y Hy].
    { apply lookup_lt_Some in Hx. subst w s. lia. }
    exists y, (max_float x y). rewrite lookup_zip_with, Hx, Hy. cbn.
    destruct (max_float_spec x y) as (? & ? & _). auto.
  - apply max_int_bounds.
  - apply max_int_bounds.
  - apply max_int_bounds.
  - apply max_int_bounds.
  - destruct (GPUType_eqb _ _); [apply Qle_refl | apply max_float_spec].
  - destruct (GPUType_eqb _ _); [lia | apply max_int_bounds].
Qed.

Lemma update_peak_usage_never_lowers_witness :
  exists z,
    cpu (peak_usage_stats
           (self (snd (update_peak_usage (sampled_process 2 [10%Q; 20%Q]))))) !! 1
      = Some z /\ (0 <= z)%Q /\ (20 <= z)%Q.
Proof.
  destruct (update_peak_usage_never_lowers (sampled_process 2 [10%Q; 20%Q])
              (snd (update_peak_usage (sampled_process 2 [10%Q; 20%Q]))))
    as (Hcpu & _).
  - reflexivity.
  - vm_compute. reflexivity.
  - destruct (Hcpu 1 0%Q) as (y & z & Hy & Hz & H0 & Hyz); [reflexivity|].
    exists z. split; [exact Hz|]. split; [exact H0|].
    injection Hy as <-. exact Hyz.
Defined.

Lemma max_float_absorb (a b : Q) : max_float (max_float a b) b = max_float a b.
Proof.
  unfold max_float at 2 3. destruct (Qle_bool b a) eqn:E.
  - unfold max_float. now rewrite E.
  - apply max_float_same.
Qed.

Lemma max_int_absorb (a b : Z) : max_int (max_int a b) b = max_int a b.
Proof. rewrite !max_int_spec. lia. Qed.

Lemma zip_max_absorb (l k : list Q) :
  zip_with max_float (zip_with max_float l k) k = zip_with max_float l k.
Proof.
  revert k. induction l as [|a l IH]; intros [|b k]; cbn; try reflexivity.
  now rewrite max_float_absorb, IH.
Qed.

Lemma fold_stats_absorb (gt : GPUType) (w s : UsageStats) :
  fold_stats gt (fold_stats gt w s) s = fold_stats gt w s.
Proof.
  unfold fold_stats. cbn.
  rewrite zip_max_absorb, !max_int_absorb.
  destruct (GPUType_eqb gt CPU_ONLY); [reflexivity|].
  now rewrite max_float_absorb, max_int_absorb.
Qed.

(** Folding the same sample a second time changes nothing: the window
    after two calls of [update_peak_usage] is the window after one. *)
Theorem update_peak_usage_twice (p : Process) :
  length (cpu (peak_usage_stats (self p))) = num_cpus (self p) ->
  (update_peak_usage;; update_peak_usage) p = update_peak_usage p.
Proof.
  intros Hpk.
  destruct (Nat.le_gt_cases (num_cpus (self p))
              (length (cpu (current_usage_stats (self p))))) as [Hle|Hlt].
  - rewrite (update_peak_usage_ok p Hpk Hle).
    erewrite bind_ok by (apply (update_peak_usage_ok p Hpk Hle)).
    rewrite update_peak_usage_ok.
    + cbn. f_equal. unfold set_peak. cbn. now rewrite fold_stats_absorb.
    + cbn. rewrite length_zip_with. lia.
    + exact Hle.
  - destruct (update_peak_usage_short p Hpk Hlt) as (q & Hq & _).
    rewrite Hq. now apply bind_raise.
Qed.

Lemma update_peak_usage_twice_witness :
  (update_peak_usage;; update_peak_usage) (sampled_process 2 [10%Q; 20%Q])
  = update_peak_usage (sampled_process 2 [10%Q; 20%Q]).
Proof.
  apply (update_peak_usage_twice (sampled_process 2 [10%Q; 20%Q])). reflexivity.
Defined.

(** ** More on sampling: [get_current_usage] *)

(** The amounts a sample holds are the readings in whole mebibytes,
    rounded down, so that an amount in use that does not exceed the total
    in bytes does not exceed it in the sample either; the per-core loads
    are the reading's. *)
Theorem get_current_usage_mebibytes `{PyBuiltins}
    (r : Reading) (p p' : Process) :
  get_current_usage r p = (Ok tt, p') ->
  let s := current_usage_stats (self p') in
  cpu s = cpu_percent r /\
  (mem_used_mb s * 1048576 <= mem_used r < (mem_used_mb s + 1) * 1048576)%Z /\
  (mem_total_mb s * 1048576 <= mem_total r < (mem_total_mb s + 1) * 1048576)%Z /\
  (disk_used_mb s * 1048576 <= disk_used r < (disk_used_mb s + 1) * 1048576)%Z /\
  (disk_total_mb s * 1048576 <= disk_total r < (disk_total_mb s + 1) * 1048576)%Z /\
  ((mem_used r <= mem_total r)%Z -> (mem_used_mb s <= mem_total_mb s)%Z) /\
  ((disk_used r <= disk_total r)%Z -> (disk_used_mb s <= disk_total_mb s)%Z).
Proof.
  intros Hget s.
  assert (cpu s = cpu_percent r /\
          mem_used_mb s = (mem_used r / 1048576)%Z /\
          mem_total_mb s = (mem_total r / 1048576)%Z /\
          disk_used_mb s = (disk_used r / 1048576)%Z /\
          disk_total_mb s = (disk_total r / 1048576)%Z) as (Hc & -> & -> & -> & ->).
  { subst s. revert Hget. unfold get_current_usage, get_current_gpu_usage. run_monad.
    destruct p as [[si ri db gt ng nc pk cur] clk]. cbn.
    destruct gt; cbn.
    - intros [= <-]. cbn. auto.
    - destruct (query_nvidia_smi (nvidia_smi r)) as [[[u mu] mt]|e]; cbn;
        [|discriminate]. intros [= <-]. cbn. auto.
    - intros [= <-]. cbn. auto. }
  split; [exact Hc|].
  pose proof (Z.div_mod (mem_used r) 1048576 ltac:(lia)).
  pose proof (Z.mod_pos_bound (mem_used r) 1048576 ltac:(lia)).
  pose proof (Z.div_mod (mem_total r) 1048576 ltac:(lia)).
  pose proof (Z.mod_pos_bound (mem_total r) 1048576 ltac:(lia)).
  pose proof (Z.div_mod (disk_used r) 1048576 ltac:(lia)).
  pose proof (Z.mod_pos_bound (disk_used r) 1048576 ltac:(lia)).
  pose proof (Z.div_mod (disk_total r) 1048576 ltac:(lia)).
  pose proof (Z.mod_pos_bound (disk_total r) 1048576 ltac:(lia)).
  split_and!; lia.
Qed.

Lemma get_current_usage_mebibytes_witness :
  mem_used_mb (current_usage_stats (self (sampled_process 1 [10%Q]))) = 100%Z /\
  (100 * 1048576 <= mem_used (reading_of [10%Q] smi_fine) < 101 * 1048576)%Z.
Proof.
  destruct (get_current_usage_mebibytes (H := Decimal.builtins)
              (reading_of [10%Q] smi_fine) (fresh_process 1 5 60)
              (sampled_process 1 [10%Q]))
    as (_ & Hmem & _).
  - reflexivity.
  - split; [reflexivity | exact Hmem].
Defined.

(** ** More on persistence: [log_peak_stats] *)

Lemma sample_ids_app (l1 l2 : list Row) :
  sample_ids (l1 ++ l2) = sample_ids l1 ++ sample_ids l2.
Proof. apply omap_app. Qed.

Lemma sample_ids_cpu_rows (id : Z) (l : list Q) :
  forall k : nat -> nat,
  sample_ids (imap (fun i u => CPUUsageRow id (Z.of_nat (k i)) u) l) = [].
Proof.
  induction l as [|x l IH]; intros k; [reflexivity|].
  cbn. apply (IH (fun i => k (S i))).
Qed.

Lemma sample_ids_usage_rows (m : VMMonitor) (id : Z) :
  sample_ids (usage_rows m id) = [].
Proof.
  unfold usage_rows. rewrite !sample_ids_app.
  rewrite (sample_ids_cpu_rows id _ (fun i => i)).
  now destruct (negb _).
Qed.

(** The key of a new [Sample] row is larger than every key in use. *)
Lemma next_sample_id_fresh (rows : list Row) (x : Z) :
  x ∈ sample_ids rows -> (x < next_sample_id rows)%Z.
Proof.
  unfold next_sample_id. generalize (sample_ids rows). intros ids.
  induction ids as [|y ids IH]; intros Hin; [inversion Hin|].
  cbn. apply elem_of_cons in Hin as [->|Hin]; [lia|].
  specialize (IH Hin). lia.
Qed.

Lemma usage_rows_sample_id (m : VMMonitor) (id : Z) :
  Forall (fun r => row_sample_id r = id) (usage_rows m id).
Proof.
  unfold usage_rows. rewrite !Forall_app. split_and!.
  - apply Forall_forall. intros r Hr.
    apply elem_of_lookup_imap in Hr as (i & x & -> & _). reflexivity.
  - repeat constructor.
  - destruct (negb _); repeat constructor.
Qed.

Lemma usage_rows_cpu (m : VMMonitor) (id : Z) (i : nat) (x : Q) :
  cpu (peak_usage_stats m) !! i = Some x ->
  usage_rows m id !! i = Some (CPUUsageRow id (Z.of_nat i) x).
Proof.
  intros Hx. unfold usage_rows. rewrite lookup_app_l.
  - rewrite list_lookup_imap, Hx. reflexivity.
  - rewrite length_imap. now apply lookup_lt_Some in Hx.
Qed.

Lemma usage_rows_length (m : VMMonitor) (id : Z) :
  length (usage_rows m id) =
    length (cpu (peak_usage_stats m)) + 2
    + (if GPUType_eqb (gpu_type m) CPU_ONLY then 0 else 1).
Proof.
  unfold usage_rows. rewrite !length_app, length_imap.
  destruct (GPUType_eqb _ _); cbn; lia.
Qed.

(** A flush that succeeds writes one window: a [Sample] row stamped with
    the instant of the call, under a key no earlier [Sample] row has (so
    that keys stay distinct), then one [CPUUsage] row per entry of the
    peak window, in order and with the entry's index and value, one
    [MemoryUsage] row, one [DiskUsage] row and, unless the monitor is
    classified [CPU_ONLY], one [GPUUsage] row; every one of these rows
    carries the key of the [Sample] row. The peak window itself is not
    touched. *)
Theorem log_peak_stats_writes_one_window (e : TickEnv) (p : Process) (s : Session) :
  db_session (self p) = Some s -> pending s = [] ->
  commit_ok (commit_sample e) = true -> commit_ok (commit_usage e) = true ->
  let m := self p in
  let id := next_sample_id (committed s) in
  let rows := usage_rows m id in
  exists p' s',
    log_peak_stats e p = (Ok tt, p') /\
    db_session (self p') = Some s' /\ pending s' = [] /\
    committed s' =
      committed s
      ++ (SampleRow id (clock p) (Z.of_nat (num_cpus m)) (num_gpus m) :: rows) /\
    (id ∉ sample_ids (committed s)) /\
    (NoDup (sample_ids (committed s)) -> NoDup (sample_ids (committed s'))) /\
    Forall (fun r => row_sample_id r = id) rows /\
    length rows = length (cpu (peak_usage_stats m)) + 2
                  + (if GPUType_eqb (gpu_type m) CPU_ONLY then 0 else 1) /\
    (forall i x, cpu (peak_usage_stats m) !! i = Some x ->
       rows !! i = Some (CPUUsageRow id (Z.of_nat i) x)) /\
    peak_usage_stats (self p') = peak_usage_stats m.
Proof.
  intros Hs Hpend Hc1 Hc2 m id rows.
  pose proof (log_peak_stats_spec e p s Hs) as Hlog. cbn zeta in Hlog.
  rewrite Hc1, Hc2, Hpend in Hlog. cbn [app] in Hlog.
  assert (id ∉ sample_ids (committed s)) as Hfresh.
  { intros Hin. apply next_sample_id_fresh in Hin. subst id. lia. }
  exists (elapse (commit_time (commit_sample e) + commit_time (commit_usage e))
            (set_session
               (Some {| committed :=
                          (committed s
                           ++ [SampleRow id (clock p) (Z.of_nat (num_cpus m)) (num_gpus m)])
                          ++ rows;
                        pending := [] |}) p)),
    {| committed :=
         (committed s
          ++ [SampleRow id (clock p) (Z.of_nat (num_cpus m)) (num_gpus m)]) ++ rows;
       pending := [] |}.
  split; [exact Hlog|]. split; [reflexivity|]. split; [reflexivity|].
  cbn [committed]. split_and!.
  - now rewrite <- app_assoc.
  - exact Hfresh.
  - intros Hnd. subst rows.
    rewrite !sample_ids_app, sample_ids_usage_rows, app_nil_r. cbn.
    apply NoDup_app. split; [exact Hnd|]. split.
    + intros x Hx Hx'. apply list_elem_of_singleton in Hx'. subst x. now apply Hfresh.
    + apply NoDup_singleton.
  - apply usage_rows_sample_id.
  - apply usage_rows_length.
  - intros i x. apply usage_rows_cpu.
  - reflexivity.
Qed.

Lemma log_peak_stats_writes_one_window_witness :
  exists p' s',
    log_peak_stats (tick_fine [50%Q]) (sampled_process 1 [50%Q]) = (Ok tt, p') /\
    db_session (self p') = Some s' /\
    length (committed s') = 5.
Proof.
  destruct (log_peak_stats_writes_one_window (tick_fine [50%Q])
              (sampled_process 1 [50%Q]) empty_session)
    as (p' & s' & Hlog & Hs' & _ & Hrows & _);
    try reflexivity.
  exists p', s'. split; [exact Hlog|]. split; [exact Hs'|].
  rewrite Hrows. vm_compute. reflexivity.
Defined.

(** The flush is not atomic. When the first commit succeeds and the
    second fails, [log_peak_stats] raises with the [Sample] row durably
    committed and none of its usage rows: the database has gained a
    [Sample] row and nothing else, and the rollback of the failed commit
    has discarded the usage rows from the session, where nothing is left
    pending. *)
Theorem log_peak_stats_second_commit_fails (e : TickEnv) (p : Process) (s : Session) :
  db_session (self p) = Some s -> pending s = [] ->
  commit_ok (commit_sample e) = true -> commit_ok (commit_usage e) = false ->
  let m := self p in
  let id := next_sample_id (committed s) in
  exists p' s',
    log_peak_stats e p = (Raise SQLAlchemyError, p') /\
    db_session (self p') = Some s' /\
    committed s' =
      committed s ++ [SampleRow id (clock p) (Z.of_nat (num_cpus m)) (num_gpus m)] /\
    pending s' = [] /\
    flushed p' = flushed p ++ [clock p].
Proof.
  intros Hs Hpend Hc1 Hc2 m id.
  pose proof (log_peak_stats_spec e p s Hs) as Hlog. cbn zeta in Hlog.
  rewrite Hc1, Hc2, Hpend in Hlog. cbn [app] in Hlog.
  eexists _, {| committed := _; pending := _ |}. split; [exact Hlog|].
  split; [reflexivity|]. split; [reflexivity|]. split; [reflexivity|].
  unfold flushed. cbn [self set_session elapse db_session committed clock].
  rewrite Hs. now rewrite flush_times_app.
Qed.

Lemma log_peak_stats_second_commit_fails_witness :
  exists p' s',
    log_peak_stats
      {| reading := reading_of [50%Q] smi_fine;
         commit_sample := commit_fine;
         commit_usage := commit_failing;
         oversleep := 0 |}
      (sampled_process 1 [50%Q]) = (Raise SQLAlchemyError, p') /\
    db_session (self p') = Some s' /\
    committed s' = [SampleRow 1 1020000 1 1] /\
    pending s' = [] /\
    flushed p' = [1020000%Z].
Proof.
  destruct (log_peak_stats_second_commit_fails
              {| reading := reading_of [50%Q] smi_fine;
                 commit_sample := commit_fine;
                 commit_usage := commit_failing;
                 oversleep := 0 |}
              (sampled_process 1 [50%Q]) empty_session)
    as (p' & s' & Hlog & Hs' & Hrows & Hpend & Hfl); try reflexivity.
  exists p', s'. split; [exact Hlog|]. split; [exact Hs'|].
  split; [exact Hrows|]. split; [exact Hpend | exact Hfl].
Defined.

(** ** More on the loop: [run] *)

(** A sequence ends as its first computation raises, or goes on from a
    first computation that returned. *)
Lemma bind_inv {S A B} (m : M S A) (k : A -> M S B) s res s' :
  (m ≫= k) s = (res, s') ->
  (exists e, m s = (Raise e, s') /\ res = Raise e) \/
  (exists a s1, m s = (Ok a, s1) /\ k a s1 = (res, s')).
Proof.
  unfold mbind, M_bind, bind. destruct (m s) as [[a|e] s1].
  - eauto.
  - intros [= <- <-]. eauto.
Qed.

(** Before its deadline an iteration writes nothing: the database and the
    deadline are as they were, the window holds the fold of the sample,
    and the iteration has slept for its interval. *)
Theorem iteration_before_deadline_only_folds `{PyBuiltins}
    (e : TickEnv) (next_report : Z) (p p1 : Process) (si : Z) :
  length (cpu (peak_usage_stats (self p))) = num_cpus (self p) ->
  sample_interval (self p) = CInt si -> (0 <= si)%Z ->
  (get_current_usage (reading e);; update_peak_usage) p = (Ok tt, p1) ->
  (clock p1 < next_report)%Z ->
  exists p',
    run_iteration e next_report p = (Ok next_report, p') /\
    db_session (self p') = db_session (self p) /\
    peak_usage_stats (self p') =
      fold_stats (gpu_type (self p)) (peak_usage_stats (self p))
        (current_usage_stats (self p1)) /\
    clock p' = (clock p1 + si * 1000000 + oversleep e)%Z.
Proof.
  intros Hpk Hsi Hpos Hsf Hlt.
  destruct (run_iteration_before_deadline e next_report p p1 si Hsi Hpos Hsf Hlt)
    as [Hrun _].
  destruct (sampled_inv _ _ _ Hsf) as (d & f & g & Hget & Hupd & Hp1 & _).
  eexists. split; [exact Hrun|].
  apply update_peak_usage_ok_inv in Hupd as [_ Hfold]; [|exact Hpk].
  rewrite Hfold. cbn. split; [reflexivity|]. split; [reflexivity | lia].
Qed.

Lemma iteration_before_deadline_only_folds_witness :
  exists p',
    run_iteration (builtins := Decimal.builtins) (tick_fine [50%Q]) 60000000
      (fresh_process 1 5 60) = (Ok 60000000%Z, p') /\
    db_session (self p') = Some empty_session /\
    clock p' = 6020000%Z.
Proof.
  destruct (iteration_before_deadline_only_folds (H := Decimal.builtins)
              (tick_fine [50%Q]) 60000000 (fresh_process 1 5 60)
              (snd ((get_current_usage (builtins := Decimal.builtins)
                       (reading (tick_fine [50%Q]));;
                     update_peak_usage) (fresh_process 1 5 60))) 5)
    as (p' & Hrun & Hdb & _ & Hclock).
  - reflexivity.
  - reflexivity.
  - lia.
  - vm_compute. reflexivity.
  - vm_compute. reflexivity.
  - exists p'. split; [exact Hrun|]. split; [exact Hdb | exact Hclock].
Defined.

(** The constructor does not look at what [get_session] returned. A
    monitor built while the database could not be opened samples and folds
    as any other until its first deadline; the flush then raises
    [AttributeError] and leaves [run], the window not reset and nothing
    written. *)
Theorem monitor_without_session_fails_at_first_flush `{PyBuiltins}
    (h : Host) (si ri db : ConfigValue) (m : VMMonitor)
    (e : TickEnv) (next_report t : Z) (p1 : Process) :
  get_session h = None ->
  VMMonitor_init h si ri db = Ok m ->
  (get_current_usage (reading e);; update_peak_usage) {| self := m; clock := t |}
    = (Ok tt, p1) ->
  (next_report <= clock p1)%Z ->
  db_session m = None /\
  run_iteration e next_report {| self := m; clock := t |} = (Raise AttributeError, p1) /\
  (forall envs,
     run_loop (e :: envs) next_report {| self := m; clock := t |}
       = (Raise AttributeError, p1)).
Proof.
  intros Hnone Hinit Hsf Hdue.
  assert (db_session m = None) as Hdb.
  { unfold VMMonitor_init in Hinit. rewrite Hnone in Hinit.
    destruct (check_gpu_type h); [|discriminate]. cbn in Hinit.
    now injection Hinit as <-. }
  assert (db_session (self p1) = None) as Hdb1.
  { destruct (sampled_inv _ _ _ Hsf) as (d & f & g & _ & _ & -> & _). exact Hdb. }
  assert (run_iteration e next_report {| self := m; clock := t |}
          = (Raise AttributeError, p1)) as Hrun.
  { rewrite (run_iteration_due e next_report _ p1 Hsf Hdue).
    erewrite bind_raise; [reflexivity|].
    erewrite bind_raise; [reflexivity|].
    now apply log_peak_stats_no_session. }
  split; [exact Hdb|]. split; [exact Hrun|].
  intros envs. cbn [run_loop]. now erewrite bind_raise by exact Hrun.
Qed.

(** [validate_config] checks that the keys are there, not what they
    hold: [run] gets through an iteration only when neither interval is a
    string and the sample interval is not negative. A string makes
    [timedelta] or [time.sleep] raise [TypeError], a negative sample
    interval makes [time.sleep] raise [ValueError]. *)
Theorem run_needs_numeric_intervals `{PyBuiltins}
    (e : TickEnv) (envs : list TickEnv) (p p' : Process) (next_report : Z) :
  run (e :: envs) p = (Ok next_report, p') ->
  (exists ri, report_interval (self p) = CInt ri) /\
  (exists si, sample_interval (self p) = CInt si /\ (0 <= si)%Z).
Proof.
  intros Hrun. unfold run in Hrun.
  apply bind_inv_ok in Hrun as (now & p0 & Hnow & Hrun). injection Hnow as <- <-.
  apply bind_inv_ok in Hrun as (q & p0 & Hq & Hrun). injection Hq as <- <-.
  apply bind_inv_ok in Hrun as (d & p0 & Hd & Hrun).
  unfold lift in Hd. injection Hd as Hd <-.
  split.
  { destruct (report_interval (self p)) as [ri|]; [eauto | discriminate]. }
  clear Hd. cbn [run_loop] in Hrun.
  apply bind_inv_ok in Hrun as (nr & p2 & Hit & _). clear envs.
  unfold run_iteration in Hit.
  apply bind_inv_ok in Hit as ([] & p0 & Hget & Hit).
  destruct (get_current_usage_frame _ _ _ _ Hget) as (d1 & f & -> & _).
  apply bind_inv_ok in Hit as ([] & p1 & Hupd & Hit).
  destruct (update_peak_usage_frame _ _ _ Hupd) as (g & ->).
  apply bind_inv_ok in Hit as (now' & p1 & Hnow & Hit). injection Hnow as <- <-.
  apply bind_inv_ok in Hit as (nr' & p3 & Hbranch & Hit).
  assert (sample_interval (self p3) = sample_interval (self p)) as Hsame.
  { destruct (_ <=? _)%Z.
    - apply bind_inv_ok in Hbranch as ([] & p4 & Hlog & Hbranch).
      destruct (log_peak_stats_frame _ _ _ _ Hlog) as (d2 & db & -> & _).
      apply bind_inv_ok in Hbranch as ([] & p5 & Hmod & Hbranch).
      injection Hmod as <-.
      apply bind_inv_ok in Hbranch as (n2 & p6 & Hn2 & Hbranch).
      injection Hn2 as _ <-.
      apply bind_inv_ok in Hbranch as (q2 & p7 & Hq2 & Hbranch).
      injection Hq2 as _ <-.
      apply bind_inv_ok in Hbranch as (dl & p8 & Hdl & Hret).
      injection Hret as _ <-. unfold lift in Hdl. injection Hdl as _ <-.
      reflexivity.
    - injection Hbranch as _ <-. reflexivity. }
  apply bind_inv_ok in Hit as (q & p4 & Hq & Hit). injection Hq as <- <-.
  apply bind_inv_ok in Hit as ([] & p5 & Hsleep & _).
  rewrite Hsame in Hsleep. unfold time_sleep in Hsleep.
  destruct (sample_interval (self p)) as [si|]; [|discriminate].
  exists si. split; [reflexivity|].
  destruct (Z.ltb_spec si 0); [discriminate | lia].
Qed.

Lemma run_needs_numeric_intervals_witness :
  (exists ri, report_interval (self (fresh_process 1 5 60)) = CInt ri) /\
  (exists si, sample_interval (self (fresh_process 1 5 60)) = CInt si /\ (0 <= si)%Z).
Proof.
  apply (run_needs_numeric_intervals (H := Decimal.builtins)
           (tick_fine [50%Q]) [] (fresh_process 1 5 60)
           (snd (run (builtins := Decimal.builtins) [tick_fine [50%Q]]
                   (fresh_process 1 5 60)))
           60000000).
  vm_compute. reflexivity.
Defined.

(** *** The spacing of the flushes *)

Lemma spaced_snoc (d : Z) (ts : list Z) (t : Z) :
  spaced d ts ->
  (forall t0, last ts = Some t0 -> (t0 + d <= t)%Z) ->
  spaced d (ts ++ [t]).
Proof.
  induction ts as [|a ts IH]; intros Hsp Hlast; cbn; [easy|].
  destruct Hsp as [Hhd Htl]. split.
  - destruct ts as [|b ts]; cbn; [apply Hlast; reflexivity | exact Hhd].
  - apply IH; [exact Htl|]. intros t0 Ht0. apply Hlast.
    destruct ts; [discriminate | exact Ht0].
Qed.

Lemma flushes_ok_ext (d start : Z) (old : list Z) (p p' : Process) :
  db_session (self p') = db_session (self p) ->
  flushes_ok d start old p -> flushes_ok d start old p'.
Proof. unfold flushes_ok, flushed. now intros ->. Qed.

Lemma deadline_ok_ext (ri start : Z) (old : list Z) (nr : Z) (p p' : Process) :
  db_session (self p') = db_session (self p) ->
  report_interval (self p') = report_interval (self p) ->
  deadline_ok ri start old nr p -> deadline_ok ri start old nr p'.
Proof.
  unfold deadline_ok, flushes_ok, no_pending_sample, flushed. now intros -> ->.
Qed.

(** A flush at or after the deadline keeps the recorded flushes spaced,
    however it ends; when it returns no row is left pending. *)
Lemma log_peak_stats_spaced (ri start : Z) (old : list Z) (nr : Z)
    (e : TickEnv) (p : Process) res p' :
  deadline_ok ri start old nr p -> (nr <= clock p)%Z ->
  log_peak_stats e p = (res, p') ->
  flushes_ok (ri * 1000000) start old p' /\
  report_interval (self p') = CInt ri /\
  (res = Ok tt ->
   no_pending_sample p' /\
   (forall t, last (flushed p') = Some t -> t = clock p) /\
   clock p' = (clock p + commit_time (commit_sample e)
               + commit_time (commit_usage e))%Z).
Proof.
  intros (Hri & Hpend & [Hsp Hold] & Hlast & Hstart) Hdue Hlog.
  unfold no_pending_sample, flushed in *.
  destruct (db_session (self p)) as [s|] eqn:Hs.
  - rewrite (log_peak_stats_spec e p s Hs) in Hlog. cbn zeta in Hlog.
    assert (spaced (ri * 1000000) (flush_times (committed s) ++ [clock p]) /\
            forall t, t ∈ flush_times (committed s) ++ [clock p] ->
                      t ∈ old \/ (start <= t)%Z) as [Hsp' Hold'].
    { split.
      { apply spaced_snoc; [exact Hsp|]. intros t0 Ht0. apply Hlast in Ht0. lia. }
      intros t Ht. apply elem_of_app in Ht as [Ht|Ht]; [auto|].
      apply list_elem_of_singleton in Ht as ->. right. lia. }
    destruct (commit_ok (commit_sample e)), (commit_ok (commit_usage e));
      injection Hlog as <- <-; unfold flushes_ok, flushed;
      cbn [self set_session elapse db_session committed pending
           report_interval clock];
      rewrite ?flush_times_app, ?flush_times_usage_rows, ?Hpend, ?app_nil_r;
      cbn [flush_times omap app];
      (split; [split; assumption|]); (split; [exact Hri|]); try discriminate.
    intros _. split; [reflexivity|]. split; [|lia].
    intros t Ht. change (last (flush_times (committed s) ++ [clock p]) = Some t) in Ht.
    rewrite last_snoc in Ht. now injection Ht.
  - rewrite (log_peak_stats_no_session e p Hs) in Hlog. injection Hlog as <- <-.
    unfold flushes_ok, flushed. rewrite Hs.
    split; [split; assumption|]. split; [exact Hri | discriminate].
Qed.

(** One iteration keeps the recorded flushes spaced, however it ends, and
    when it returns the new deadline is a report interval after the last
    flush. *)
Lemma run_iteration_spaced `{PyBuiltins} (ri start : Z) (old : list Z) (nr : Z)
    (e : TickEnv) (p : Process) res p' :
  (0 <= ri)%Z -> commit_times_ok e ->
  deadline_ok ri start old nr p ->
  run_iteration e nr p = (res, p') ->
  flushes_ok (ri * 1000000) start old p' /\
  (forall nr', res = Ok nr' -> deadline_ok ri start old nr' p').
Proof.
  intros Hri0 [Ht1 Ht2] Hinv Hrun. unfold run_iteration in Hrun.
  apply bind_inv in Hrun as [(err & Hget & ->)|([] & p1 & Hget & Hrun)].
  { destruct (get_current_usage_frame _ _ _ _ Hget) as (d1 & f & -> & _).
    split; [|discriminate]. eapply flushes_ok_ext; [|apply Hinv]. reflexivity. }
  destruct (get_current_usage_frame _ _ _ _ Hget) as (d1 & f & -> & _).
  apply bind_inv in Hrun as [(err & Hupd & ->)|([] & p2 & Hupd & Hrun)].
  { destruct (update_peak_usage_frame _ _ _ Hupd) as (g & ->).
    split; [|discriminate]. eapply flushes_ok_ext; [|apply Hinv]. reflexivity. }
  destruct (update_peak_usage_frame _ _ _ Hupd) as (g & ->).
  set (p2 := set_peak g (elapse d1 (set_current f p))) in *.
  assert (deadline_ok ri start old nr p2) as Hinv2
    by (eapply deadline_ok_ext; [| |exact Hinv]; reflexivity).
  clearbody p2. clear Hget Hupd Hinv p d1 f g.
  apply bind_inv in Hrun as [(err & Hnow & ->)|(now & p0 & Hnow & Hrun)];
    [discriminate|]. injection Hnow as <- <-.
  apply bind_inv in Hrun as [(err & Hbr & ->)|(nr' & p3 & Hbr & Hrun)].
  { (* the flush raised *)
    split; [|discriminate].
    destruct (Z.leb_spec nr (clock p2)) as [Hdue|]; [|discriminate].
    apply bind_inv in Hbr as [(err' & Hlog & _)|([] & p4 & Hlog & Hbr)].
    - now destruct (log_peak_stats_spaced _ _ _ _ _ _ _ _ Hinv2 Hdue Hlog).
    - destruct (log_peak_stats_spaced _ _ _ _ _ _ _ _ Hinv2 Hdue Hlog)
        as (Hfl & Hri4 & _).
      apply bind_inv in Hbr as [(err' & Hm & _)|([] & p5 & Hm & Hbr)];
        [discriminate|]. injection Hm as <-.
      apply bind_inv in Hbr as [(err' & Hm & _)|(n' & p6 & Hm & Hbr)];
        [discriminate|]. injection Hm as _ <-.
      apply bind_inv in Hbr as [(err' & Hm & _)|(q & p7 & Hm & Hbr)];
        [discriminate|]. injection Hm as _ <-.
      apply bind_inv in Hbr as [(err' & Hm & _)|(dl & p8 & Hm & Hbr)];
        [|discriminate].
      unfold lift in Hm. injection Hm as _ <-.
      eapply flushes_ok_ext; [|exact Hfl]. reflexivity. }
  assert (deadline_ok ri start old nr' p3) as Hinv3.
  { destruct (Z.leb_spec nr (clock p2)) as [Hdue|].
    - apply bind_inv_ok in Hbr as ([] & p4 & Hlog & Hbr).
      destruct (log_peak_stats_spaced _ _ _ _ _ _ _ _ Hinv2 Hdue Hlog)
        as (Hfl & Hri4 & Hok).
      destruct (Hok eq_refl) as (Hpend4 & Hlast4 & Hclock4).
      apply bind_inv_ok in Hbr as ([] & p5 & Hm & Hbr). injection Hm as <-.
      apply bind_inv_ok in Hbr as (n' & p6 & Hm & Hbr). injection Hm as <- <-.
      apply bind_inv_ok in Hbr as (q & p7 & Hm & Hbr). injection Hm as <- <-.
      apply bind_inv_ok in Hbr as (dl & p8 & Hm & Hbr).
      unfold lift in Hm. injection Hm as Hdl <-. injection Hbr as <- <-.
      change (report_interval (self (set_peak reset p4)))
        with (report_interval (self p4)) in Hdl.
      rewrite Hri4 in Hdl. injection Hdl as <-.
      change (clock (set_peak reset p4)) with (clock p4).
      destruct Hinv2 as (_ & _ & _ & _ & Hstart).
      eapply deadline_ok_ext with (p := p4); [reflexivity | reflexivity |].
      split; [exact Hri4|]. split; [exact Hpend4|]. split; [exact Hfl|].
      split; [|lia]. intros t Ht. apply Hlast4 in Ht as ->. lia.
    - injection Hbr as <- <-. exact Hinv2. }
  clear Hbr Hinv2.
  apply bind_inv in Hrun as [(err & Hm & ->)|(q & p0 & Hm & Hrun)];
    [discriminate|]. injection Hm as <- <-.
  assert (exists d2, p' = elapse d2 p3 /\ forall nr'', res = Ok nr'' -> nr'' = nr')
    as (d2 & -> & Hres).
  { apply bind_inv in Hrun as [(err & Hsl & ->)|([] & p5 & Hsl & Hret)].
    - unfold time_sleep in Hsl. destruct (sample_interval (self p3)) as [n|].
      + destruct (n <? 0)%Z; [|discriminate]. injection Hsl as _ <-. exists 0%Z.
        rewrite elapse_0. split; [reflexivity | discriminate].
      + injection Hsl as _ <-. exists 0%Z. rewrite elapse_0.
        split; [reflexivity | discriminate].
    - injection Hret as <- <-. unfold time_sleep in Hsl.
      destruct (sample_interval (self p3)) as [n|]; [|discriminate].
      destruct (n <? 0)%Z; [discriminate|]. injection Hsl as <-.
      eexists. split; [reflexivity|]. now intros nr'' [= <-]. }
  split.
  - eapply flushes_ok_ext; [|apply Hinv3]. reflexivity.
  - intros nr'' Hok. apply Hres in Hok as ->.
    eapply deadline_ok_ext; [| |exact Hinv3]; reflexivity.
Qed.

(** So does the loop. *)
Lemma run_loop_spaced `{PyBuiltins} (ri start : Z) (old : list Z)
    (envs : list TickEnv) :
  (0 <= ri)%Z -> Forall commit_times_ok envs ->
  forall nr p res p',
  deadline_ok ri start old nr p ->
  run_loop envs nr p = (res, p') ->
  flushes_ok (ri * 1000000) start old p'.
Proof.
  intros Hri0 Henvs.
  induction Henvs as [|e envs He Henvs IH]; intros nr p res p' Hinv Hrun.
  - injection Hrun as _ <-. apply Hinv.
  - cbn [run_loop] in Hrun.
    apply bind_inv in Hrun as [(err & Hit & _)|(nr' & p1 & Hit & Hrun)].
    + now destruct (run_iteration_spaced _ _ _ _ _ _ _ _ Hri0 He Hinv Hit).
    + destruct (run_iteration_spaced _ _ _ _ _ _ _ _ Hri0 He Hinv Hit) as [_ Hnext].
      eapply IH; [now apply Hnext | exact Hrun].
Qed.

(** Whatever [run] meets and however it ends, the flushes it has recorded
    are at least one report interval apart from each other and from the
    flushes recorded before, and none is earlier than one report interval
    after [run] was entered. *)
Theorem flushes_are_a_report_interval_apart `{PyBuiltins}
    (envs : list TickEnv) (p : Process) (ri : Z) res p' :
  report_interval (self p) = CInt ri -> (0 <= ri)%Z ->
  Forall commit_times_ok envs ->
  no_pending_sample p ->
  spaced (ri * 1000000) (flushed p) ->
  (forall t, t ∈ flushed p -> (t <= clock p)%Z) ->
  run envs p = (res, p') ->
  spaced (ri * 1000000) (flushed p') /\
  (forall t, t ∈ flushed p' ->
     t ∈ flushed p \/ (clock p + ri * 1000000 <= t)%Z).
Proof.
  intros Hri Hri0 Henvs Hpend Hsp Hpast Hrun. unfold run in Hrun.
  apply bind_inv in Hrun as [(err & Hm & _)|(now & p0 & Hm & Hrun)];
    [discriminate|]. injection Hm as <- <-.
  apply bind_inv in Hrun as [(err & Hm & _)|(q & p0 & Hm & Hrun)];
    [discriminate|]. injection Hm as <- <-.
  apply bind_inv in Hrun as [(err & Hm & _)|(d & p0 & Hm & Hrun)].
  { unfold lift in Hm. rewrite Hri in Hm. discriminate. }
  unfold lift in Hm. rewrite Hri in Hm. injection Hm as <- <-.
  set (start := (clock p + ri * 1000000)%Z) in *.
  assert (deadline_ok ri start (flushed p) start p) as Hinv.
  { split; [exact Hri|]. split; [exact Hpend|]. split; [split; [exact Hsp | auto]|].
    split; [|lia]. intros t Ht. apply last_Some_elem_of in Ht.
    apply Hpast in Ht. subst start. lia. }
  destruct (run_loop_spaced _ _ _ _ Hri0 Henvs _ _ _ _ Hinv Hrun) as [? ?].
  auto.
Qed.

Lemma flushes_are_a_report_interval_apart_witness :
  let p' := snd (run (builtins := Decimal.builtins)
                   [tick_fine [10%Q]; tick_fine [50%Q]; tick_fine [30%Q]]
                   (fresh_process 1 5 6)) in
  flushed p' = [7040000; 13062000]%Z /\
  spaced 6000000 (flushed p').
Proof.
  intros p'. subst p'.
  destruct (flushes_are_a_report_interval_apart (H := Decimal.builtins)
              [tick_fine [10%Q]; tick_fine [50%Q]; tick_fine [30%Q]]
              (fresh_process 1 5 6) 6
              (fst (run (builtins := Decimal.builtins)
                      [tick_fine [10%Q]; tick_fine [50%Q]; tick_fine [30%Q]]
                      (fresh_process 1 5 6)))
              (snd (run (builtins := Decimal.builtins)
                      [tick_fine [10%Q]; tick_fine [50%Q]; tick_fine [30%Q]]
                      (fresh_process 1 5 6)))) as [Hsp _].
  - reflexivity.
  - lia.
  - repeat constructor; cbn; lia.
  - reflexivity.
  - exact I.
  - intros t Ht. inversion Ht.
  - apply surjective_pairing.
  - split; [vm_compute; reflexivity | exact Hsp].
Defined.

Lemma monitor_without_session_fails_at_first_flush_witness :
  exists m p1,
    VMMonitor_init sessionless_host (CInt 5) (CInt 60) (CStr "vm_monitor.db") = Ok m /\
    db_session m = None /\
    run_iteration (builtins := Decimal.builtins) (tick_fine [50%Q]) 0
      {| self := m; clock := 0 |} = (Raise AttributeError, p1) /\
    cpu (peak_usage_stats (self p1)) = [50%Q].
Proof.
  eexists _, _. split; [reflexivity|].
  destruct (monitor_without_session_fails_at_first_flush (H := Decimal.builtins)
              sessionless_host (CInt 5) (CInt 60) (CStr "vm_monitor.db") _
              (tick_fine [50%Q]) 0 0 _ eq_refl eq_refl
              ltac:(vm_compute; reflexivity)
              ltac:(vm_compute; discriminate))
    as (Hdb & Hrun & _).
  split; [exact Hdb|]. split; [exact Hrun|]. vm_compute. reflexivity.
Defined.

(** ** More on start-up: [validate_config], [__init__] *)

(** [validate_config] stops at the first required key that is missing and
    prints that key only. *)
Lemma validate_keys_first_missing keys (config : gmap string ConfigValue) :
  fst (validate_keys keys config) = false ->
  exists before key after,
    keys = before ++ key :: after /\
    (forall k, k ∈ before -> is_Some (config !! k)) /\
    config !! key = None /\
    snd (validate_keys keys config)
      = [String.append "Missing required config key: " key].
Proof.
  induction keys as [|k keys IH]; cbn; [discriminate|].
  destruct (config !! k) as [v|] eqn:Hk; cbn.
  - intros Hf. destruct (IH Hf) as (before & key & after & -> & Hall & Hnone & Hpr).
    exists (k :: before), key, after. split; [reflexivity|]. split; [|easy].
    intros k' Hin. apply elem_of_cons in Hin as [->|Hin]; [eauto | auto].
  - intros _. exists [], k, keys. split; [reflexivity|]. split; [|easy].
    intros k' Hin. inversion Hin.
Qed.

Lemma validate_keys_silent keys (config : gmap string ConfigValue) :
  fst (validate_keys keys config) = true -> snd (validate_keys keys config) = [].
Proof.
  induction keys as [|k keys IH]; cbn; [reflexivity|].
  destruct (config !! k); [exact IH | discriminate].
Qed.

(** With a required key missing the script prints two lines, the first
    naming the first missing key in the order [sample_interval],
    [report_interval], [db_file_path], and constructs nothing; a complete
    configuration prints nothing before [main] is called. *)
Theorem script_reports_first_missing_key `{PyBuiltins}
    (h : Host) (envs : list TickEnv) (config : gmap string ConfigValue) :
  (fst (validate_config config) = false ->
   exists before key after,
     REQUIRED_KEYS = before ++ key :: after /\
     (forall k, k ∈ before -> is_Some (config !! k)) /\
     config !! key = None /\
     script h envs config
       = NotStarted [String.append "Missing required config key: " key;
                     "Invalid configuration. Please check the config file."]) /\
  (fst (validate_config config) = true ->
   script h envs config = MainCalled [] (main h envs config)).
Proof.
  split; intros Hv.
  - destruct (validate_keys_first_missing _ _ Hv)
      as (before & key & after & Hkeys & Hall & Hnone & Hpr).
    exists before, key, after. split; [exact Hkeys|]. split; [exact Hall|].
    split; [exact Hnone|]. unfold script.
    fold (validate_config config) in Hpr.
    destruct (validate_config config) as [valid printed]. cbn in Hv, Hpr.
    subst valid printed. reflexivity.
  - pose proof (validate_keys_silent _ _ Hv) as Hpr.
    fold (validate_config config) in Hpr. unfold script.
    destruct (validate_config config) as [valid printed]. cbn in Hv, Hpr.
    subst valid printed. reflexivity.
Qed.

(** A monitor the constructor returns is classified NVIDIA with one GPU,
    [nvidia-smi] having exited with status 0; it has the core count of
    the host and two zeroed windows with one entry per core, and holds
    whatever [get_session] returned. *)
Theorem VMMonitor_init_postcondition (h : Host) (si ri db : ConfigValue)
    (m : VMMonitor) :
  VMMonitor_init h si ri db = Ok m ->
  (exists out, probe_nvidia h = Exited 0 out) /\
  gpu_type m = NVIDIA_GPU /\ num_gpus m = 1%Z /\
  num_cpus m = cpu_count h /\
  db_session m = get_session h /\
  sample_interval m = si /\ report_interval m = ri /\
  peak_usage_stats m = UsageStats_new (cpu_count h) /\
  current_usage_stats m = UsageStats_new (cpu_count h) /\
  length (cpu (peak_usage_stats m)) = num_cpus m.
Proof.
  unfold VMMonitor_init, check_gpu_type, subprocess_run_check.
  destruct (probe_nvidia h) as [rc out|]; [|discriminate].
  destruct (Z.eqb_spec rc 0) as [->|]; [|discriminate]. cbn.
  intros [= <-]. cbn. split; [eauto|]. repeat (split; [reflexivity|]).
  unfold UsageStats_new. cbn. apply length_replicate.
Qed.

Lemma VMMonitor_init_postcondition_witness :
  gpu_type (self (fresh_process 4 5 60)) = NVIDIA_GPU /\
  length (cpu (peak_usage_stats (self (fresh_process 4 5 60)))) = 4.
Proof.
  destruct (VMMonitor_init_postcondition (nvidia_host 4) (CInt 5) (CInt 60)
              (CStr "vm_monitor.db") (self (fresh_process 4 5 60)) eq_refl)
    as (_ & Hgt & _ & _ & _ & _ & _ & _ & _ & Hlen).
  split; [exact Hgt | exact Hlen].
Defined.

Lemma script_reports_first_missing_key_witness :
  exists key,
    config_without_report_interval !! key = None /\
    script (builtins := Decimal.builtins) (nvidia_host 1) []
      config_without_report_interval
    = NotStarted [String.append "Missing required config key: " key;
                  "Invalid configuration. Please check the config file."].
Proof.
  destruct (script_reports_first_missing_key (H := Decimal.builtins)
              (nvidia_host 1) [] config_without_report_interval) as [Hf _].
  destruct (Hf eq_refl) as (before & key & after & _ & _ & Hnone & Hscript).
  exists key. split; [exact Hnone | exact Hscript].
Defined.

(** ** More on what [run] maintains *)

Section MaintainsSteps.

Variable R : Process -> Process -> Prop.
Hypothesis R_refl : forall p, R p p.
Hypothesis R_trans : forall p1 p2 p3, R p1 p2 -> R p2 p3 -> R p1 p3.
Hypothesis R_sample : forall `{PyBuiltins} r, maintains R (get_current_usage r).
Hypothesis R_update : maintains R update_peak_usage.
Hypothesis R_reset : forall p, R p (set_peak reset p).
Hypothesis R_sleep : forall d p, R p (elapse d p).
Hypothesis R_log : forall e, maintains R (log_peak_stats e).

Lemma maintains_run_iteration_by_steps `{PyBuiltins} (e : TickEnv) (next_report : Z) :
  maintains R (run_iteration e next_report).
Proof.
  pose proof (fun A B => @maintains_bind R R_trans A B) as Hbind.
  pose proof (fun A => @maintains_pure R R_refl A) as Hpure.
  unfold run_iteration.
  apply Hbind; [apply R_sample|].
  intros _. apply Hbind; [apply R_update|].
  intros _. apply Hbind; [now apply Hpure|].
  intros now. apply Hbind.
  { destruct (_ <=? _)%Z; [|now apply Hpure].
    apply Hbind; [apply R_log|]. intros _.
    apply Hbind; [intros p res p' [= <- <-]; apply R_reset|]. intros _.
    apply Hbind; [now apply Hpure|]. intros now'.
    apply Hbind; [now apply Hpure|]. intros q.
    apply Hbind; [now apply Hpure|]. intros d.
    now apply Hpure. }
  intros nr. apply Hbind; [now apply Hpure|]. intros q.
  apply Hbind; [|intros _; now apply Hpure].
  unfold time_sleep. destruct (sample_interval (self q)) as [n|].
  - destruct (n <? 0)%Z; [now apply Hpure|].
    intros p res p' [= <- <-]. apply R_sleep.
  - now apply Hpure.
Qed.

Lemma maintains_run_by_steps `{PyBuiltins} (envs : list TickEnv) :
  maintains R (run envs).
Proof.
  pose proof (fun A B => @maintains_bind R R_trans A B) as Hbind.
  pose proof (fun A => @maintains_pure R R_refl A) as Hpure.
  unfold run.
  apply Hbind; [now apply Hpure|]. intros now.
  apply Hbind; [now apply Hpure|]. intros q.
  apply Hbind; [now apply Hpure|]. intros d.
  generalize (now + d)%Z. induction envs as [|e envs IH]; intros nr; cbn.
  - now apply Hpure.
  - apply Hbind; [apply maintains_run_iteration_by_steps | apply IH].
Qed.

End MaintainsSteps.

(** The fold keeps the number of entries of the window, whether it
    returns or raises on a short sample. *)
Lemma update_peak_usage_keeps_shape (p : Process) res p' :
  window_shaped p -> update_peak_usage p = (res, p') -> window_shaped p'.
Proof.
  unfold window_shaped. intros Hpk Hrun.
  destruct (Nat.le_gt_cases (num_cpus (self p))
              (length (cpu (current_usage_stats (self p))))) as [Hle|Hlt].
  - rewrite (update_peak_usage_ok p Hpk Hle) in Hrun. injection Hrun as _ <-.
    cbn. rewrite length_zip_with. lia.
  - destruct (update_peak_usage_short p Hpk Hlt) as (q & Hq & ->).
    rewrite Hq in Hrun. injection Hrun as _ <-.
    cbn. rewrite length_app, length_zip_with, length_drop. lia.
Qed.

(** The window keeps one entry per core: whatever [run] meets and however
    it ends, a window that had [num_cpus] entries when [run] was entered
    has [num_cpus] entries when it is left. *)
Theorem run_keeps_window_shape `{PyBuiltins}
    (envs : list TickEnv) (p : Process) res p' :
  length (cpu (peak_usage_stats (self p))) = num_cpus (self p) ->
  run envs p = (res, p') ->
  length (cpu (peak_usage_stats (self p'))) = num_cpus (self p').
Proof.
  intros Hpk Hrun.
  refine (maintains_run_by_steps keeps_window_shaped _ _ _ _ _ _ _ envs
            p res p' Hrun Hpk); unfold keeps_window_shaped.
  - auto.
  - auto.
  - intros B r q res' q' Hget Hq.
    destruct (get_current_usage_frame _ _ _ _ Hget) as (d & f & -> & _). exact Hq.
  - intros q res' q' Hupd Hq. eapply update_peak_usage_keeps_shape; eassumption.
  - intros q Hq. unfold window_shaped in *. cbn. unfold reset. cbn.
    now rewrite length_replicate.
  - intros d q Hq. exact Hq.
  - intros e q res' q' Hlog Hq.
    destruct (log_peak_stats_frame _ _ _ _ Hlog) as (d & db & -> & _). exact Hq.
Qed.

Lemma run_keeps_window_shape_witness :
  length (cpu (peak_usage_stats (self (snd
    (run (builtins := Decimal.builtins)
       [tick_fine [10%Q; 20%Q]; tick_fine [50%Q]] (fresh_process 2 5 0)))))) = 2.
Proof.
  apply (run_keeps_window_shape (H := Decimal.builtins)
           [tick_fine [10%Q; 20%Q]; tick_fine [50%Q]] (fresh_process 2 5 0)
           (fst (run (builtins := Decimal.builtins)
                   [tick_fine [10%Q; 20%Q]; tick_fine [50%Q]] (fresh_process 2 5 0)))).
  - reflexivity.
  - apply surjective_pairing.
Defined.

Lemma run_keeps_classification_witness :
  same_classification (fresh_process 1 5 60)
    (snd (run (builtins := Decimal.builtins)
            [tick_fine [10%Q]; tick_unparsable [50%Q]] (fresh_process 1 5 60))).
Proof.
  apply (run_keeps_classification (H := Decimal.builtins)
           [tick_fine [10%Q]; tick_unparsable [50%Q]] (fresh_process 1 5 60)
           (fst (run (builtins := Decimal.builtins)
                   [tick_fine [10%Q]; tick_unparsable [50%Q]] (fresh_process 1 5 60)))).
  apply surjective_pairing.
Defined.

(** ** Splitting a string *)

Lemma split_nonempty (sep : ascii) (s : string) : split sep s <> [].
Proof.
  destruct s as [|c s]; cbn; [discriminate|].
  destruct (Ascii.eqb c sep); [discriminate|].
  destruct (split sep s); discriminate.
Qed.

(** A string without the separator is one field. *)
Lemma split_free (sep : ascii) (s : string) :
  free_of sep s = true -> split sep s = [s].
Proof.
  induction s as [|c s IH]; cbn; [reflexivity|].
  destruct (Ascii.eqb c sep); cbn; [discriminate|].
  intros Hs. now rewrite IH.
Qed.

(** Splitting at a separator splits both sides. *)
Lemma split_app (sep : ascii) (s1 s2 : string) :
  split sep (String.append s1 (String sep s2)) = split sep s1 ++ split sep s2.
Proof.
  induction s1 as [|c s1 IH].
  - change (split sep (String sep s2) = EmptyString :: split sep s2).
    cbn [split]. now rewrite Ascii.eqb_refl.
  - change (String.append (String c s1) (String sep s2))
      with (String c (String.append s1 (String sep s2))).
    cbn [split]. destruct (Ascii.eqb c sep); [now rewrite IH|].
    rewrite IH. destruct (split sep s1) as [|f fs] eqn:Hs; [|reflexivity].
    now apply split_nonempty in Hs.
Qed.

(** No field holds the separator. *)
Lemma split_fields_free (sep : ascii) (s : string) :
  Forall (fun f => free_of sep f = true) (split sep s).
Proof.
  induction s as [|c s IH]; cbn; [repeat constructor|].
  destruct (Ascii.eqb c sep) eqn:Hc; [constructor; [reflexivity | exact IH]|].
  destruct (split sep s) as [|f fs]; [repeat constructor; cbn; now rewrite Hc|].
  inversion IH; subst. constructor; [|assumption]. cbn. now rewrite Hc.
Qed.

(** Joining the fields with the separator gives the string back. *)
Lemma join_split (sep : ascii) (s : string) :
  String.concat (String sep EmptyString) (split sep s) = s.
Proof.
  induction s as [|c s IH]; [reflexivity|]. cbn [split].
  destruct (split sep s) as [|f fs] eqn:Hs; [now apply split_nonempty in Hs|].
  destruct (Ascii.eqb_spec c sep) as [->|Hne].
  - change (String.concat (String sep EmptyString) (EmptyString :: f :: fs))
      with (String sep (String.concat (String sep EmptyString) (f :: fs))).
    now rewrite IH.
  - destruct fs as [|g fs].
    + cbn in *. now rewrite IH.
    + change (String.concat (String sep EmptyString) (String c f :: g :: fs))
        with (String c (String.concat (String sep EmptyString) (f :: g :: fs))).
      now rewrite IH.
Qed.

(** ** The GPU logger *)

Module NvidiaMonitorFacts.

Import NvidiaMonitor.

(** [extract_gpu_stats] answers with a line exactly when the output holds
    two newline characters, and the line is what stands between them: a
    header line and one line of values, each ended by a newline, is the
    case of one GPU; with two GPUs, or when [nvidia-smi] printed nothing,
    it answers [None]. *)
Theorem extract_gpu_stats_some (result : CompletedProcess) (values : string) :
  extract_gpu_stats result = Some values <->
  exists header rest,
    cp_stdout result
      = String.append header (String "010" (String.append values (String "010" rest))) /\
    free_of "010" header = true /\ free_of "010" values = true /\
    free_of "010" rest = true.
Proof.
  unfold extract_gpu_stats. split.
  - pose proof (join_split "010" (cp_stdout result)) as Hjoin.
    pose proof (split_fields_free "010" (cp_stdout result)) as Hfree.
    destruct (split "010" (cp_stdout result)) as [|h [|v [|t [|x l]]]];
      cbn; try discriminate.
    intros [= <-]. exists h, t. cbn in Hjoin. split; [now rewrite <- Hjoin|].
    inversion Hfree as [|? ? Hh Hfree']; subst.
    inversion Hfree' as [|? ? Hv Hfree'']; subst.
    inversion Hfree'' as [|? ? Ht _]; subst. auto.
  - intros (h & t & -> & Hh & Hv & Ht).
    rewrite !split_app, !split_free by assumption. reflexivity.
Qed.

(** An iteration never looks at the exit status: whatever [nvidia-smi]
    exited with, the iteration returns, has slept for [SAMPLE_TIME], and
    has logged the line [extract_gpu_stats] found, or nothing. *)
Theorem main_iteration_logs_at_most_one_line
    (rc : Z) (out : string) (oversleep : Z) (l : Logger) :
  exists l',
    main_iteration (Exited rc out) oversleep l = (Ok tt, l') /\
    clock l' = (clock l + SAMPLE_TIME + oversleep)%Z /\
    records l' =
      records l ++
      match extract_gpu_stats {| cp_returncode := rc; cp_stdout := out |} with
      | Some values => [values]
      | None => []
      end /\
    l' = snd (main_iteration (Exited 0 out) oversleep l).
Proof.
  unfold main_iteration, subprocess_run_shell, extract_gpu_stats. run_monad.
  cbn [cp_stdout].
  destruct (if length (split "010" out) =? 3 then split "010" out !! 1 else None)
    as [v|]; cbn [fst snd records clock]; eexists;
    (split; [reflexivity|]); (split; [reflexivity|]);
    rewrite ?app_nil_r; split; reflexivity.
Qed.

(** Without [nvidia-smi] the shell exits with status 127 and no output:
    the iteration logs nothing and the loop goes on. *)
Example main_iteration_without_nvidia_smi (oversleep : Z) (l : Logger) :
  main_iteration NotFound oversleep l
  = (Ok tt, {| records := records l;
               clock := (clock l + SAMPLE_TIME + oversleep)%Z |}).
Proof. reflexivity. Qed.

End NvidiaMonitorFacts.

(** ** More on the query of [nvidia-smi] *)

(** The exceptions the query can raise, and when: [CalledProcessError]
    for an exit status that is not zero, which is also how a missing
    [nvidia-smi] shows, the command being run through the shell (status
    127; never [FileNotFoundError]); with status 0, [ValueError] for a
    field that [float] or [int] does not accept, or [IndexError] for
    fewer than three comma-separated fields once the fields before have
    been accepted. *)
Theorem query_nvidia_smi_raises `{PyBuiltins} (c : Completion) (e : Exception) :
  query_nvidia_smi c = Raise e ->
  e <> FileNotFoundError /\
  match c with
  | NotFound => e = CalledProcessError
  | Exited rc out =>
      if (rc =? 0)%Z then
        (e = ValueError /\
         exists i f, i < 3 /\ split "," out !! i = Some f /\
           (if i =? 0 then py_float (strip f) = None
            else py_int (strip f) = None)) \/
        (e = IndexError /\ length (split "," out) < 3 /\
         exists f0 u, split "," out !! 0 = Some f0 /\ py_float (strip f0) = Some u)
      else e = CalledProcessError
  end.
Proof.
  unfold query_nvidia_smi, subprocess_run_shell_check, subprocess_run_shell.
  destruct c as [rc out|]; [|now intros [= <-]]. cbn [cp_returncode].
  destruct (rc =? 0)%Z; [|now intros [= <-]]. cbn. unfold index.
  destruct (split "," out) as [|f0 [|f1 [|f2 l]]] eqn:Hs; cbn.
  - now apply split_nonempty in Hs.
  - destruct (py_float (strip f0)) as [u|] eqn:H0; cbn; intros [= <-];
      (split; [discriminate|]).
    + right. split; [reflexivity|]. split; [lia|]. eauto.
    + left. split; [reflexivity|]. exists 0, f0. cbn. auto.
  - destruct (py_float (strip f0)) as [u|] eqn:H0; cbn.
    + destruct (py_int (strip f1)) as [mu|] eqn:H1; cbn; intros [= <-];
        (split; [discriminate|]).
      * right. split; [reflexivity|]. split; [lia|]. eauto.
      * left. split; [reflexivity|]. exists 1, f1. cbn. auto.
    + intros [= <-]. split; [discriminate|]. left. split; [reflexivity|]. exists 0, f0. cbn. auto.
  - destruct (py_float (strip f0)) as [u|] eqn:H0; cbn.
    + destruct (py_int (strip f1)) as [mu|] eqn:H1; cbn.
      * destruct (py_int (strip f2)) as [mt|] eqn:H2; cbn; [discriminate|].
        intros [= <-]. split; [discriminate|]. left. split; [reflexivity|]. exists 2, f2. cbn. auto.
      * intros [= <-]. split; [discriminate|]. left. split; [reflexivity|]. exists 1, f1. cbn. auto.
    + intros [= <-]. split; [discriminate|]. left. split; [reflexivity|]. exists 0, f0. cbn. auto.
Qed.

Lemma query_nvidia_smi_raises_witness :
  query_nvidia_smi (builtins := Decimal.builtins) (Exited 0 "45") = Raise IndexError /\
  length (split "," "45") < 3.
Proof.
  split; [reflexivity|].
  destruct (query_nvidia_smi_raises (H := Decimal.builtins) (Exited 0 "45")
              IndexError eq_refl) as [_ [[Hv _]|(_ & Hlen & _)]];
    [discriminate | exact Hlen].
Defined.

(** Without [nvidia-smi] the query raises [CalledProcessError]. *)
Example query_nvidia_smi_without_nvidia_smi `{PyBuiltins} :
  query_nvidia_smi NotFound = Raise CalledProcessError.
Proof. reflexivity. Qed.

(** ** The order of datetimes *)

Module OrderFacts.

Import API Service.

Lemma datetime_compare_antisym (a b : datetime) :
  datetime_compare b a = CompOpp (datetime_compare a b).
Proof.
  unfold datetime_compare.
  rewrite (Z.compare_antisym (year a) (year b)),
    (Z.compare_antisym (month a) (month b)),
    (Z.compare_antisym (day a) (day b)),
    (Z.compare_antisym (hour a) (hour b)),
    (Z.compare_antisym (minute a) (minute b)),
    (Z.compare_antisym (second a) (second b)),
    (Z.compare_antisym (microsecond a) (microsecond b)).
  destruct (year a ?= year b)%Z; cbn -[Z.compare]; try reflexivity.
  destruct (month a ?= month b)%Z; cbn -[Z.compare]; try reflexivity.
  destruct (day a ?= day b)%Z; cbn -[Z.compare]; try reflexivity.
  destruct (hour a ?= hour b)%Z; cbn -[Z.compare]; try reflexivity.
  destruct (minute a ?= minute b)%Z; cbn -[Z.compare]; try reflexivity.
  destruct (second a ?= second b)%Z; cbn -[Z.compare]; reflexivity.
Qed.

(** [a < b] is the negation of [b <= a]. *)
Lemma datetime_lt_not_le (a b : datetime) :
  datetime_lt a b = negb (datetime_le b a).
Proof.
  unfold datetime_lt, datetime_le. rewrite (datetime_compare_antisym a b).
  now destruct (datetime_compare a b).
Qed.

Lemma datetime_le_total (a b : datetime) :
  datetime_le a b = false -> datetime_le b a = true.
Proof.
  unfold datetime_le. rewrite (datetime_compare_antisym a b).
  now destruct (datetime_compare a b).
Qed.

Ltac lex_step f a b c :=
  destruct (Z.compare_spec (f a) (f b)), (Z.compare_spec (f b) (f c)),
    (Z.compare_spec (f a) (f c));
  cbn -[Z.compare]; try easy; try (exfalso; lia).

Lemma datetime_le_trans (a b c : datetime) :
  datetime_le a b = true -> datetime_le b c = true -> datetime_le a c = true.
Proof.
  unfold datetime_le, datetime_compare.
  lex_step year a b c. lex_step month a b c. lex_step day a b c.
  lex_step hour a b c. lex_step minute a b c. lex_step second a b c.
  lex_step microsecond a b c.
Qed.

Lemma date_le_trans (a b c : datetime) :
  date_le a b = true -> date_le b c = true -> date_le a c = true.
Proof.
  unfold date_le.
  lex_step year a b c. lex_step month a b c. lex_step day a b c.
Qed.

(** A filter of a filter. *)
Lemma filter_filter {A} (f g : A -> bool) (l : list A) :
  List.filter f (List.filter g l) = List.filter (fun x => g x && f x) l.
Proof.
  induction l as [|x l IH]; cbn; [reflexivity|].
  destruct (g x); cbn; [|exact IH]. destruct (f x); now rewrite IH.
Qed.

Lemma filter_sublist {A} (f g : A -> bool) (h : A -> SampleData) (l : list A) :
  (forall x, f x = true -> g x = true) ->
  sublist (map h (List.filter f l)) (map h (List.filter g l)).
Proof.
  intros Hfg. induction l as [|x l IH]; cbn; [constructor|].
  destruct (f x) eqn:Hf.
  - rewrite (Hfg x Hf). cbn. now constructor.
  - destruct (g x); cbn; [now constructor | exact IH].
Qed.

End OrderFacts.

(** ** More on the date range query *)

Module QueryFacts.

Import API Service OrderFacts.

(** How [get_usage_data] answers: 400 exactly when an argument is absent,
    empty or not a date, whether or not the database can be read; 500
    exactly when both arguments are dates and the database cannot be read;
    otherwise the data with its length as the count. *)
Theorem get_usage_data_answers `{PyDatetime}
    (stored : option (list Sample)) (start_arg end_arg : option string) :
  let bad :=
    missing start_arg = true \/ missing end_arg = true \/
    fromisoformat (default ""%string start_arg) = None \/
    fromisoformat (default ""%string end_arg) = None in
  (get_usage_data stored start_arg end_arg = API.BadRequest <-> bad) /\
  (get_usage_data stored start_arg end_arg = API.ServerError <->
     stored = None /\ ~ bad) /\
  (forall data count,
     get_usage_data stored start_arg end_arg = Success data count ->
     count = length data /\
     exists samples, stored = Some samples /\ length data <= length samples).
Proof.
  intros bad. subst bad. unfold get_usage_data, get_start_date, get_end_date.
  destruct (missing start_arg); cbn.
  { split; [tauto|]. split; [|discriminate]. split; [discriminate | tauto]. }
  destruct (missing end_arg); cbn.
  { split; [tauto|]. split; [|discriminate]. split; [discriminate | tauto]. }
  destruct (fromisoformat (default ""%string start_arg)) as [ds|]; cbn.
  2:{ split; [tauto|]. split; [|discriminate]. split; [discriminate | tauto]. }
  destruct (fromisoformat (default ""%string end_arg)) as [de|]; cbn.
  2:{ split; [tauto|]. split; [|discriminate]. split; [discriminate | tauto]. }
  destruct stored as [samples|].
  - split; [split; [discriminate | intros [|[|[|]]]; discriminate]|].
    split; [split; [discriminate | intros [? _]; discriminate]|].
    intros data count [= <- <-]. split; [reflexivity|].
    exists samples. split; [reflexivity|].
    unfold get_data_in_range. rewrite length_map. apply filter_length_le.
  - split; [split; [discriminate | intros [|[|[|]]]; discriminate]|].
    split; [|discriminate]. split; [|reflexivity].
    intros _. split; [reflexivity|]. intros [|[|[|]]]; discriminate.
Qed.

(** A range whose last day is before its first day selects nothing. *)
Theorem inverted_range_is_empty `{PyDatetime}
    (stored : list Sample) (start_str end_str : string) (ds de : datetime) :
  fromisoformat start_str = Some ds ->
  fromisoformat end_str = Some de ->
  missing (Some start_str) = false ->
  missing (Some end_str) = false ->
  forallb (fun s => valid_time (timestamp s)) stored = true ->
  date_le ds de = false ->
  get_usage_data (Some stored) (Some start_str) (Some end_str) = Success [] 0.
Proof.
  intros Hds Hde Hms Hme Hvalid Hinv.
  unfold get_usage_data, get_start_date, get_end_date. rewrite Hms, Hme. cbn [orb].
  change (default ""%string (Some start_str)) with start_str.
  change (default ""%string (Some end_str)) with end_str.
  rewrite Hds, Hde. cbn.
  assert (get_data_in_range stored (replace ds 0 0 0 0)
            (replace de 23 59 59 999999) = []) as ->; [|reflexivity].
  unfold get_data_in_range.
  induction stored as [|s stored IH]; [reflexivity|].
  cbn in Hvalid. apply andb_prop in Hvalid as [Hv Hvalid]. cbn [List.filter].
  unfold in_range at 1.
  rewrite (APIFacts.start_of_day_le ds _ Hv), (APIFacts.le_end_of_day de _ Hv).
  destruct (date_le ds (timestamp s)) eqn:H1; cbn; [|now apply IH].
  destruct (date_le (timestamp s) de) eqn:H2; cbn; [|now apply IH].
  now rewrite (date_le_trans _ _ _ H1 H2) in Hinv.
Qed.

(** A wider range returns at least what a narrower one returns, in the
    same order. *)
Theorem wider_range_returns_more `{PyDatetime}
    (stored : list Sample) (start_date end_date start_date' end_date' : datetime) :
  datetime_le start_date' start_date = true ->
  datetime_le end_date end_date' = true ->
  sublist (get_data_in_range stored start_date end_date)
          (get_data_in_range stored start_date' end_date').
Proof.
  intros Hs He. unfold get_data_in_range. apply filter_sublist.
  intros s Hin. unfold in_range in *. apply andb_prop in Hin as [H1 H2].
  rewrite (datetime_le_trans _ _ _ Hs H1), (datetime_le_trans _ _ _ H2 He).
  reflexivity.
Qed.

Lemma inverted_range_is_empty_witness :
  get_usage_data (dt := Iso.builtins) (Some Stored.stored_samples)
    (Some "2025-10-30"%string) (Some "2025-10-28"%string) = Success [] 0.
Proof.
  apply (inverted_range_is_empty (H := Iso.builtins) Stored.stored_samples
           "2025-10-30" "2025-10-28"
           {| year := 2025; month := 10; day := 30; hour := 0;
              minute := 0; second := 0; microsecond := 0 |}
           {| year := 2025; month := 10; day := 28; hour := 0;
              minute := 0; second := 0; microsecond := 0 |});
    reflexivity.
Defined.

Lemma wider_range_returns_more_witness :
  sublist
    (get_data_in_range (dt := Iso.builtins) Stored.stored_samples
       (timestamp (Stored.at_ 2025 10 29 0 0 0 0))
       (timestamp (Stored.at_ 2025 10 29 23 59 59 999999)))
    (get_data_in_range (dt := Iso.builtins) Stored.stored_samples
       (timestamp (Stored.at_ 2025 10 28 0 0 0 0))
       (timestamp (Stored.at_ 2025 10 30 0 0 0 0))).
Proof.
  apply (wider_range_returns_more (H := Iso.builtins)); reflexivity.
Defined.

End QueryFacts.

(** ** The purge *)

Module PurgeFacts.

Import API Service OrderFacts.

Lemma filter_partition_length {A} (f : A -> bool) (l : list A) :
  length (List.filter f l) + length (List.filter (fun x => negb (f x)) l)
  = length l.
Proof.
  induction l as [|x l IH]; cbn; [reflexivity|].
  destruct (f x); cbn; lia.
Qed.

(** What an answer with a count tells: the store could be read and the
    commit succeeded; the samples kept are those stamped at the cutoff or
    later, the samples counted those stamped before it. *)
Lemma post_purge_deleted `{PyBuiltins} `{PyClock}
    (stored : option (list Sample)) (commit_ok : bool)
    (days_arg : option string) (n : nat) (kept : option (list Sample)) :
  post_purge stored commit_ok days_arg = (Deleted n, kept) ->
  exists samples days cutoff,
    stored = Some samples /\ commit_ok = true /\
    missing days_arg = false /\
    py_int (default ""%string days_arg) = Some days /\
    minus_days now days = Some cutoff /\
    kept = Some (List.filter (fun s => datetime_le cutoff (timestamp s)) samples) /\
    n = length (List.filter (fun s => negb (datetime_le cutoff (timestamp s)))
                  samples).
Proof.
  unfold post_purge. destruct (missing days_arg); [discriminate|].
  destruct (py_int (default ""%string days_arg)) as [days|] eqn:Hdays; [|discriminate].
  destruct (minus_days now days) as [cutoff|] eqn:Hcut; [|discriminate].
  destruct stored as [samples|]; [|discriminate].
  destruct commit_ok; [|discriminate].
  intros [= <- <-]. exists samples, days, cutoff.
  assert (forall s : Sample,
            datetime_lt (timestamp s) cutoff
            = negb (datetime_le cutoff (timestamp s))) as Hlt
    by (intros s; apply datetime_lt_not_le).
  rewrite (filter_ext _ _ Hlt).
  rewrite (filter_ext (fun s => negb (datetime_lt (timestamp s) cutoff))
             (fun s => datetime_le cutoff (timestamp s)))
    by (intros s; rewrite Hlt; apply negb_involutive).
  repeat split; assumption.
Qed.

(** How [post_purge] answers: 400 exactly when [days] is absent, empty or
    not an integer, whether or not the database can be read, and 500 or
    400 leave the store as it was. When it answers with a count, the
    samples kept are those stamped at the cutoff or later, in the order
    they were stored: a sample stamped exactly at the cutoff stays; the
    count and the samples kept add up to the samples there were. *)
Theorem post_purge_answers `{PyBuiltins} `{PyClock}
    (stored : option (list Sample)) (commit_ok : bool)
    (days_arg : option string) :
  (fst (post_purge stored commit_ok days_arg) = BadRequest <->
     missing days_arg = true \/ py_int (default ""%string days_arg) = None) /\
  (snd (post_purge stored commit_ok days_arg) = stored \/
     exists n, fst (post_purge stored commit_ok days_arg) = Deleted n) /\
  (forall n kept,
     post_purge stored commit_ok days_arg = (Deleted n, kept) ->
     exists samples days cutoff,
       stored = Some samples /\ commit_ok = true /\
       py_int (default ""%string days_arg) = Some days /\
       minus_days now days = Some cutoff /\
       kept = Some (List.filter (fun s => datetime_le cutoff (timestamp s)) samples) /\
       n = length (List.filter (fun s => negb (datetime_le cutoff (timestamp s)))
                     samples) /\
       n + length (List.filter (fun s => datetime_le cutoff (timestamp s)) samples)
         = length samples).
Proof.
  split; [|split].
  - unfold post_purge. destruct (missing days_arg); cbn; [tauto|].
    destruct (py_int (default ""%string days_arg)) as [days|]; cbn; [|tauto].
    split; [|intros [|]; discriminate].
    destruct (minus_days now days); [|discriminate].
    destruct stored; [|discriminate]. destruct commit_ok; discriminate.
  - unfold post_purge. destruct (missing days_arg); [now left|].
    destruct (py_int (default ""%string days_arg)) as [days|]; [|now left].
    destruct (minus_days now days); [|now left].
    destruct stored; [|now left]. destruct commit_ok; [right; eauto | now left].
  - intros n kept Hpurge.
    destruct (post_purge_deleted _ _ _ _ _ Hpurge)
      as (samples & days & cutoff & -> & -> & _ & Hdays & Hcut & -> & ->).
    exists samples, days, cutoff. repeat (split; [easy|]).
    pose proof (filter_partition_length
                  (fun s => negb (datetime_le cutoff (timestamp s))) samples) as Hlen.
    rewrite (filter_ext (fun s => negb (negb (datetime_le cutoff (timestamp s))))
               (fun s => datetime_le cutoff (timestamp s))) in Hlen
      by (intros s; apply negb_involutive).
    exact Hlen.
Qed.

(** A query after a purge returns what the same query returned before
    without the samples older than the cutoff: it is the query whose
    range starts at the cutoff when the cutoff is the later. *)
Theorem purge_then_query `{PyBuiltins} `{PyClock} `{PyDatetime}
    (samples kept : list Sample) (days_arg : option string) (n : nat) :
  post_purge (Some samples) true days_arg = (Deleted n, Some kept) ->
  exists days cutoff,
    py_int (default ""%string days_arg) = Some days /\
    minus_days now days = Some cutoff /\
    forall start_date end_date,
      get_data_in_range kept start_date end_date
      = get_data_in_range samples (later start_date cutoff) end_date.
Proof.
  intros Hpurge.
  destruct (post_purge_deleted _ _ _ _ _ Hpurge)
    as (samples' & days & cutoff & [= <-] & _ & Hmiss & Hdays & Hcut & [= ->] & _).
  exists days, cutoff. split; [exact Hdays|]. split; [exact Hcut|].
  intros start_date end_date. unfold get_data_in_range. f_equal.
  rewrite filter_filter. apply filter_ext. intros s. unfold in_range, later.
  destruct (datetime_le start_date cutoff) eqn:Hsc.
  - destruct (datetime_le cutoff (timestamp s)) eqn:Hct; cbn; [|reflexivity].
    now rewrite (datetime_le_trans _ _ _ Hsc Hct).
  - apply datetime_le_total in Hsc.
    destruct (datetime_le start_date (timestamp s)) eqn:Hst; cbn.
    + now rewrite (datetime_le_trans _ _ _ Hsc Hst).
    + apply andb_false_r.
Qed.

(** A second purge with the same cutoff deletes nothing. *)
Theorem purge_twice_deletes_nothing `{PyBuiltins} `{PyClock}
    (samples kept : list Sample) (days_arg : option string) (n : nat) :
  post_purge (Some samples) true days_arg = (Deleted n, Some kept) ->
  post_purge (Some kept) true days_arg = (Deleted 0, Some kept).
Proof.
  intros Hpurge.
  destruct (post_purge_deleted _ _ _ _ _ Hpurge)
    as (samples' & days & cutoff & [= <-] & _ & Hmiss & Hdays & Hcut & [= ->] & _).
  unfold post_purge. rewrite Hmiss, Hdays, Hcut.
  assert (forall l : list Sample,
            Forall (fun s => datetime_le cutoff (timestamp s) = true) l ->
            List.filter (fun s => datetime_lt (timestamp s) cutoff) l = [] /\
            List.filter (fun s => negb (datetime_lt (timestamp s) cutoff)) l = l)
    as Hkept.
  { induction 1 as [|s l Hs Hl [IH1 IH2]]; [easy|]. cbn.
    rewrite datetime_lt_not_le, Hs. cbn. now rewrite IH1, IH2. }
  destruct (Hkept (List.filter (fun s => datetime_le cutoff (timestamp s)) samples))
    as [-> ->]; [|reflexivity].
  apply List.Forall_forall. intros s Hin. now apply filter_In in Hin as [_ ?].
Qed.

(** One day purged at noon of 2025-10-30 from the store of four samples:
    the two samples stamped before noon of 2025-10-29 go. *)
Lemma purge_then_query_witness :
  exists kept,
    post_purge (builtins := Decimal.builtins) (clock := noon_clock)
      (Some Stored.stored_samples) true (Some "1"%string)
    = (Deleted 2, Some kept) /\
    get_data_in_range (dt := Iso.builtins) kept
      (timestamp (Stored.at_ 2025 10 28 0 0 0 0))
      (timestamp (Stored.at_ 2025 10 30 0 0 0 0))
    = map (sample_data (dt := Iso.builtins))
        [Stored.at_ 2025 10 29 23 59 59 999999; Stored.at_ 2025 10 30 0 0 0 0].
Proof.
  eexists. split; [vm_compute; reflexivity|].
  destruct (purge_then_query (H := Decimal.builtins) (H0 := noon_clock)
              (H1 := Iso.builtins) Stored.stored_samples _ (Some "1"%string) 2
              ltac:(vm_compute; reflexivity))
    as (days & cutoff & Hdays & Hcut & Hq).
  rewrite Hq. vm_compute in Hdays. injection Hdays as <-.
  vm_compute in Hcut. injection Hcut as <-. vm_compute. reflexivity.
Defined.

Lemma purge_twice_deletes_nothing_witness :
  post_purge (builtins := Decimal.builtins) (clock := noon_clock)
    (Some [Stored.at_ 2025 10 29 23 59 59 999999; Stored.at_ 2025 10 30 0 0 0 0])
    true (Some "1"%string)
  = (Deleted 0,
     Some [Stored.at_ 2025 10 29 23 59 59 999999; Stored.at_ 2025 10 30 0 0 0 0]).
Proof.
  apply (purge_twice_deletes_nothing (H := Decimal.builtins) (H0 := noon_clock)
           Stored.stored_samples _ (Some "1"%string) 2).
  vm_compute. reflexivity.
Defined.

End PurgeFacts.

(** ** The start of the API *)

Module ServiceFacts.

Import Service.

(** The API serves exactly when [host_ip], [port_number] and
    [db_file_path] are in the configuration, and then with the values
    found there and nothing printed; the lookups after the validation
    never raise. With a key missing it prints two lines, the first naming
    the first missing key, and constructs nothing. *)
Theorem api_script_serves_iff_config_complete (config : gmap string ConfigValue) :
  ((exists printed db host port, script config = Serving printed db host port) <->
     forall key, key ∈ REQUIRED_KEYS -> is_Some (config !! key)) /\
  (forall printed db host port,
     script config = Serving printed db host port ->
     printed = [] /\ config !! DB_FILE_PATH = Some db /\
     config !! HOST_IP = Some host /\ config !! PORT_NUMBER = Some port) /\
  (forall printed,
     script config = NotStarted printed ->
     exists before key after,
       REQUIRED_KEYS = before ++ key :: after /\
       (forall k, k ∈ before -> is_Some (config !! k)) /\
       config !! key = None /\
       printed = [String.append "Missing required config key: " key;
                  "Invalid configuration. Exiting."]) /\
  (forall printed e, script config <> Failed printed e).
Proof.
  pose proof (validate_keys_true REQUIRED_KEYS config) as Ht.
  pose proof (validate_keys_first_missing REQUIRED_KEYS config) as Hf.
  pose proof (validate_keys_silent REQUIRED_KEYS config) as Hs.
  unfold script, validate_config, getitem.
  destruct (validate_keys REQUIRED_KEYS config) as [[] printed]; cbn in Ht, Hf, Hs.
  - assert (forall key, key ∈ REQUIRED_KEYS -> is_Some (config !! key)) as Hall
      by now apply Ht.
    destruct (Hall HOST_IP) as [host Hhost]; [repeat constructor|].
    destruct (Hall PORT_NUMBER) as [port Hport]; [repeat constructor|].
    destruct (Hall DB_FILE_PATH) as [db Hdb]; [repeat constructor|].
    rewrite Hhost, Hport, Hdb, (Hs eq_refl). cbn.
    split; [split; [intros _; exact Hall | eauto 6]|].
    split; [now intros ? ? ? ? [= <- <- <- <-]|].
    split; discriminate.
  - split.
    { split; [intros (? & ? & ? & ? & ?); discriminate|].
      intros Hall. apply Ht in Hall. discriminate. }
    split; [discriminate|]. split; [|discriminate].
    intros pr [= <-].
    destruct (Hf eq_refl) as (before & key & after & Hkeys & Hall & Hnone & ->).
    exists before, key, after. auto.
Qed.

End ServiceFacts.
